(** * Agoda API agent: polling state machine, dotted-path accessor,
      table extraction, context truncation and GraphQL type folding

    A shallow embedding of the algorithmic core of the API agent
    ([api_agent/agent/rest_agent.py], [api_agent/agent/graphql_agent.py])
    together with the properties the specification states about it.

    Conventions of the embedding.

    - Python values that come out of [json.loads] or of an HTTP response
      are values of the tagged union [json].  Python's [None] is [JNull];
      a Python [int] is an unbounded [Z].  Floating-point numbers are not
      part of the embedding.
    - A Python [dict] is an association list in insertion order; lookups
      take the first binding of a key and updates replace it in place.
    - A Python [str] is a [string]; each character stands for the code
      point of the same number (0..255).  [lower], [isdigit] and the
      escapes of [repr] and [json.dumps] follow Python on these code
      points.
    - A tool function runs in the monad [M]: it threads the session (the
      context variables of the request and the trace of the requests and
      sleeps issued so far) and may raise a Python exception.
    - [json.loads], the request capability [execute_request], the
      [settings] object and the type inference of the SQL engine are not
      code of the modelled files; the development is parametric in them. *)

From Stdlib Require Import String Ascii List ZArith Lia Bool Arith DecimalString.
Import ListNotations.

Set Warnings "-register-all".

Local Open Scope string_scope.
Local Open Scope list_scope.
Local Open Scope Z_scope.

(** ** Python strings *)

Module PyStr.

(** An f-string: the concatenation of its literal and formatted pieces. *)
Definition fstr (pieces : list string) : string := String.concat EmptyString pieces.

(** [needle in hay]. *)
Definition mentions (needle hay : string) : Prop :=
  exists pre post, hay = (pre ++ needle ++ post)%string.

Definition code (c : ascii) : nat := nat_of_ascii c.

(** [bool(s)]: a string is truthy when it is not empty. *)
Definition truthy (s : string) : bool :=
  match s with EmptyString => false | String _ _ => true end.

(** [s.split(sep)] for a one-character separator. *)
Fixpoint split (sep : ascii) (s : string) : list string :=
  match s with
  | EmptyString => [EmptyString]
  | String a s' =>
      if Ascii.eqb a sep then EmptyString :: split sep s'
      else match split sep s' with
           | [] => [String a EmptyString]
           | w :: ws => String a w :: ws
           end
  end.

(** [sep.join(parts)]. *)
Definition join (sep : string) (parts : list string) : string := String.concat sep parts.

Definition is_ascii_digit (c : ascii) : bool :=
  ((48 <=? code c) && (code c <=? 57))%nat.

(** Characters with the Unicode property Digit below code point 256: the
    ten decimal digits and the superscripts one, two and three. *)
Definition is_digit_char (c : ascii) : bool :=
  is_ascii_digit c || (code c =? 178)%nat || (code c =? 179)%nat || (code c =? 185)%nat.

Fixpoint all_chars (p : ascii -> bool) (s : string) : bool :=
  match s with
  | EmptyString => true
  | String a s' => p a && all_chars p s'
  end.

(** [s.isdigit()]: non-empty and every character is a digit character. *)
Definition isdigit (s : string) : bool := truthy s && all_chars is_digit_char s.

Fixpoint decimal_value (acc : Z) (s : string) : Z :=
  match s with
  | EmptyString => acc
  | String a s' => decimal_value (10 * acc + Z.of_nat (code a - 48)) s'
  end.

(** The value of a string of decimal digits, of any length. *)
Definition decimal (s : string) : option Z :=
  if truthy s && all_chars is_ascii_digit s then Some (decimal_value 0 s) else None.

(** The default of [sys.get_int_max_str_digits()]. *)
Definition int_max_str_digits : Z := 4300.

(** [int(s)] on a string that passed [isdigit]: the decimal value when
    every character is a decimal digit and there are no more than
    [int_max_str_digits] of them.  [int] accepts neither the superscript
    digits nor a longer string: it raises [ValueError] ([None] here). *)
Definition int_of_digits (s : string) : option Z :=
  if Z.of_nat (String.length s) <=? int_max_str_digits then decimal s else None.

(** [c * n] for a string [c] of one character. *)
Fixpoint repeat (c : ascii) (n : nat) : string :=
  match n with
  | O => EmptyString
  | S n' => String c (repeat c n')
  end.

(** [str(n)] for an integer. *)
Definition str_of_int (n : Z) : string := NilZero.string_of_int (Z.to_int n).

Definition lower_char (c : ascii) : ascii :=
  let n := code c in
  if ((65 <=? n) && (n <=? 90))%nat then ascii_of_nat (n + 32)
  else if ((192 <=? n) && (n <=? 222) && negb (n =? 215))%nat then ascii_of_nat (n + 32)
  else c.

(** [s.lower()]. *)
Fixpoint lower (s : string) : string :=
  match s with
  | EmptyString => EmptyString
  | String a s' => String (lower_char a) (lower s')
  end.

Fixpoint contains_char (c : ascii) (s : string) : bool :=
  match s with
  | EmptyString => false
  | String a s' => Ascii.eqb a c || contains_char c s'
  end.

Definition hex_digit (n : nat) : ascii :=
  nth n (list_ascii_of_string "0123456789abcdef") "0"%char.

Definition hex2 (c : ascii) : string :=
  String (hex_digit (code c / 16)) (String (hex_digit (code c mod 16)) EmptyString).

Definition squote : ascii := ascii_of_nat 39.
Definition dquote : ascii := ascii_of_nat 34.
Definition backslash : ascii := ascii_of_nat 92.

(** [c.isprintable()] below code point 256. *)
Definition is_printable (c : ascii) : bool :=
  let n := code c in
  (((32 <=? n) && (n <=? 126)) || ((161 <=? n) && negb (n =? 173)))%nat.

Definition repr_char (quote c : ascii) : string :=
  if Ascii.eqb c backslash then String backslash (String backslash EmptyString)
  else if Ascii.eqb c quote then String backslash (String quote EmptyString)
  else if (code c =? 9)%nat then String backslash "t"
  else if (code c =? 10)%nat then String backslash "n"
  else if (code c =? 13)%nat then String backslash "r"
  else if is_printable c then String c EmptyString
  else String backslash (String "x" (hex2 c)).

Fixpoint flat_map_chars (f : ascii -> string) (s : string) : string :=
  match s with
  | EmptyString => EmptyString
  | String a s' => (f a ++ flat_map_chars f s')%string
  end.

(** [repr(s)]: single quotes unless the string has a single quote and no
    double quote. *)
Definition repr (s : string) : string :=
  let quote := if contains_char squote s && negb (contains_char dquote s)
               then dquote else squote in
  String quote (flat_map_chars (repr_char quote) s ++ String quote EmptyString)%string.

(** The escape of one character in [json.dumps] (with [ensure_ascii]). *)
Definition json_escape_char (c : ascii) : string :=
  if Ascii.eqb c dquote then String backslash (String dquote EmptyString)
  else if Ascii.eqb c backslash then String backslash (String backslash EmptyString)
  else if (code c =? 10)%nat then String backslash "n"
  else if (code c =? 13)%nat then String backslash "r"
  else if (code c =? 9)%nat then String backslash "t"
  else if (code c =? 8)%nat then String backslash "b"
  else if (code c =? 12)%nat then String backslash "f"
  else if ((32 <=? code c) && (code c <=? 126))%nat then String c EmptyString
  else String backslash (String "u" (String "0" (String "0" (hex2 c)))).

Definition json_string (s : string) : string :=
  String dquote (flat_map_chars json_escape_char s ++ String dquote EmptyString)%string.

End PyStr.

(** ** JSON values *)

Inductive json : Type :=
| JNull
| JBool (b : bool)
| JInt (n : Z)
| JStr (s : string)
| JArr (items : list json)
| JObj (fields : list (string * json)).

Definition dict : Type := list (string * json).

Module Json.

Definition is_none (v : json) : bool :=
  match v with JNull => true | _ => false end.

(** [bool(v)]. *)
Definition truthy (v : json) : bool :=
  match v with
  | JNull => false
  | JBool b => b
  | JInt n => negb (n =? 0)
  | JStr s => PyStr.truthy s
  | JArr items => match items with [] => false | _ :: _ => true end
  | JObj fields => match fields with [] => false | _ :: _ => true end
  end.

(** [d.get(key, default)]. *)
Fixpoint get_default (d : dict) (key : string) (default : json) : json :=
  match d with
  | [] => default
  | (k, v) :: d' => if String.eqb k key then v else get_default d' key default
  end.

(** [d.get(key)]. *)
Definition get (d : dict) (key : string) : json := get_default d key JNull.

(** [key in d]. *)
Fixpoint has_key (d : dict) (key : string) : bool :=
  match d with
  | [] => false
  | (k, _) :: d' => String.eqb k key || has_key d' key
  end.

(** [d[key] = value]: replaces the binding where it stands, or appends. *)
Fixpoint set (d : dict) (key : string) (value : json) : dict :=
  match d with
  | [] => [(key, value)]
  | (k, v) :: d' =>
      if String.eqb k key then (k, value) :: d' else (k, v) :: set d' key value
  end.

(** [d.update(other)]. *)
Definition update (d other : dict) : dict :=
  fold_left (fun acc kv => set acc (fst kv) (snd kv)) other d.

(** [list(d.keys())]. *)
Definition keys (d : dict) : list string := map fst d.

(** [repr(v)]. *)
Fixpoint repr (v : json) : string :=
  match v with
  | JNull => "None"
  | JBool true => "True"
  | JBool false => "False"
  | JInt n => PyStr.str_of_int n
  | JStr s => PyStr.repr s
  | JArr items => PyStr.fstr ["["; PyStr.join ", " (map repr items); "]"]
  | JObj fields =>
      PyStr.fstr ["{";
                  PyStr.join ", "
                    (map (fun kv => match kv with
                                    | (k, x) => PyStr.fstr [PyStr.repr k; ": "; repr x]
                                    end) fields);
                  "}"]
  end.

(** [str(v)]. *)
Definition str (v : json) : string :=
  match v with
  | JStr s => s
  | _ => repr v
  end.

(** [str(keys)] for a list of strings. *)
Definition str_of_keys (ks : list string) : string :=
  PyStr.fstr ["["; PyStr.join ", " (map PyStr.repr ks); "]"].

(** [json.dumps(v)] with the default separators. *)
Fixpoint dumps (v : json) : string :=
  match v with
  | JNull => "null"
  | JBool true => "true"
  | JBool false => "false"
  | JInt n => PyStr.str_of_int n
  | JStr s => PyStr.json_string s
  | JArr items => PyStr.fstr ["["; PyStr.join ", " (map dumps items); "]"]
  | JObj fields =>
      PyStr.fstr ["{";
                  PyStr.join ", "
                    (map (fun kv => match kv with
                                    | (k, x) => PyStr.fstr [PyStr.json_string k; ": "; dumps x]
                                    end) fields);
                  "}"]
  end.

(** [len(json.dumps(v))]. *)
Definition serialized_size (v : json) : Z := Z.of_nat (String.length (dumps v)).

End Json.

(** ** Exceptions *)

Inductive exn : Type :=
| JSONDecodeError (msg : string)
| AttributeError
| TypeError
| ValueError.

Inductive res (A : Type) : Type :=
| Ok (a : A)
| Raise (e : exn).
Arguments Ok {A} a.
Arguments Raise {A} e.

(** ** [rest_agent._get_nested_value] *)

(** The body of [for key in keys], with [current] the value reached. *)
Fixpoint _get_nested_loop (current : json) (keys : list string) : res json :=
  match keys with
  | [] => Ok current
  | key :: keys' =>
      match current with
      | JArr items =>
          if PyStr.isdigit key then
            match PyStr.int_of_digits key with
            | None => Raise ValueError
            | Some idx =>
                if (0 <=? idx) && (idx <? Z.of_nat (length items)) then
                  let next := nth (Z.to_nat idx) items JNull in
                  if Json.is_none next then Ok JNull else _get_nested_loop next keys'
                else Ok JNull
            end
          else Ok JNull
      | JObj fields =>
          let next := Json.get fields key in
          if Json.is_none next then Ok JNull else _get_nested_loop next keys'
      | _ => Ok JNull
      end
  end.

Definition _get_nested_value (data : json) (path : string) : res json :=
  if negb (Json.truthy data) || negb (PyStr.truthy path) then Ok JNull
  else _get_nested_loop data (PyStr.split "." path).

(** The accessor as the specification words it: the path is resolved one
    segment at a time; a segment that is a decimal integer indexes a
    sequence, a segment indexes a mapping by key, and anything else (a
    missing key, an index out of range, a value that is no container, a
    null value on the way) is missing ([JNull]). *)
Definition resolve_segment (current : json) (segment : string) : json :=
  match current with
  | JArr items =>
      match PyStr.decimal segment with
      | Some idx => nth_default JNull items (Z.to_nat idx)
      | None => JNull
      end
  | JObj fields => Json.get fields segment
  | _ => JNull
  end.

Definition resolve_path (data : json) (segments : list string) : json :=
  fold_left resolve_segment segments data.

(** A segment on which [isdigit] and [int] agree: if it passes [isdigit]
    it is made of decimal digits, no more of them than [int] converts. *)
Definition plain_segment (segment : string) : Prop :=
  PyStr.isdigit segment = true ->
  PyStr.all_chars PyStr.is_ascii_digit segment = true
  /\ Z.of_nat (String.length segment) <= PyStr.int_max_str_digits.

(** ** [api_agent/executor.py] *)

Module Executor.

Record summary : Type := {
  rows : Z;
  schema : string;
  hint : string
}.

Record context_view : Type := {
  truncated : bool;
  table : string;
  total_rows : Z;
  data : list json;
  showing : option Z;
  view_schema : option string;
  view_hint : option string
}.

Definition summary_dict (s : summary) : dict :=
  [("rows", JInt (rows s)); ("schema", JStr (schema s)); ("hint", JStr (hint s))].

Definition optional_field {A : Type} (key : string) (f : A -> json) (o : option A) : dict :=
  match o with
  | Some a => [(key, f a)]
  | None => []
  end.

Definition view_dict (v : context_view) : dict :=
  [("truncated", JBool (truncated v)); ("table", JStr (table v));
   ("rows", JInt (total_rows v)); ("data", JArr (data v))]
  ++ optional_field "showing" JInt (showing v)
  ++ optional_field "schema" JStr (view_schema v)
  ++ optional_field "hint" JStr (view_hint v).

Definition is_sequence (v : json) : bool :=
  match v with JArr _ => true | _ => false end.

(** The first direct value of a mapping that is a sequence. *)
Fixpoint first_sequence (fields : dict) : option (list json) :=
  match fields with
  | [] => None
  | (_, JArr items) :: _ => Some items
  | _ :: fields' => first_sequence fields'
  end.

Section Engine.

(** The column types the SQL engine infers for a dataset that is not
    empty, rendered as [col_name TYPE, ...]. *)
Variable infer_schema : list json -> string.
(** The hint of a summary, and the hint of a truncated view, for a
    dataset name. *)
Variable summary_hint : string -> string.
Variable truncation_hint : string -> string.

(** Modelled from the spec: [get_table_schema_summary] of
    [api_agent/executor.py] (section 4.2): the record count, the inferred
    column types (empty for an empty dataset) and a hint that refers to
    the dataset name. *)
Definition get_table_schema_summary (dataset : list json) (name : string) : summary :=
  {| rows := Z.of_nat (length dataset);
     schema := match dataset with
               | [] => EmptyString
               | _ :: _ => infer_schema dataset
               end;
     hint := summary_hint name |}.

(** Modelled from the spec: [extract_tables_from_response] of
    [api_agent/executor.py] (section 4.1): a sequence is the dataset; a
    mapping yields its first sequence-valued direct value, or, when it has
    none, itself wrapped as a single record together with a summary; any
    other value yields nothing. *)
Definition extract_tables_from_response (responseBody : json) (name : string)
  : dict * option summary :=
  match responseBody with
  | JArr items => ([(name, JArr items)], None)
  | JObj fields =>
      match first_sequence fields with
      | Some items => ([(name, JArr items)], None)
      | None =>
          ([(name, JArr [responseBody])],
           Some (get_table_schema_summary [responseBody] name))
      end
  | _ => ([], None)
  end.

(** The scan of the truncator: records are taken in order while the
    serialized size of the records taken so far stays within the budget;
    it stops at the first record that would exceed it. *)
Fixpoint scan_records (max_chars : Z) (acc rest : list json) : list json :=
  match rest with
  | [] => acc
  | record :: rest' =>
      if Json.serialized_size (JArr (acc ++ [record])) <=? max_chars
      then scan_records max_chars (acc ++ [record]) rest'
      else acc
  end.

(** Modelled from the spec: [truncate_for_context] of
    [api_agent/executor.py] (section 4.3). *)
Definition truncate_for_context (dataset : list json) (name : string) (max_chars : Z)
  : context_view :=
  if Json.serialized_size (JArr dataset) <=? max_chars then
    {| truncated := false; table := name;
       total_rows := Z.of_nat (length dataset); data := dataset;
       showing := None; view_schema := None; view_hint := None |}
  else
    let shown := scan_records max_chars [] dataset in
    let info := get_table_schema_summary dataset name in
    {| truncated := true; table := name;
       total_rows := Z.of_nat (length dataset); data := shown;
       showing := Some (Z.of_nat (length shown));
       view_schema := Some (schema info);
       view_hint := Some (truncation_hint name) |}.

End Engine.

End Executor.

(** ** [graphql_agent._format_type] *)

(** An introspection type reference [{kind, name, ofType}].  [NoType] is
    an absent reference ([None]) or an empty one ([{}]); a field that is
    absent or null is [None]. *)
Inductive type_ref : Type :=
| NoType
| TypeRef (kind : option string) (name : option string) (ofType : type_ref).

Definition kind_is (kind : option string) (expected : string) : bool :=
  match kind with
  | Some k => String.eqb k expected
  | None => false
  end.

(** [name or "?"]. *)
Definition name_or_unknown (name : option string) : string :=
  match name with
  | Some n => if PyStr.truthy n then n else "?"
  | None => "?"
  end.

Fixpoint _format_type (t : type_ref) : string :=
  match t with
  | NoType => "?"
  | TypeRef kind name inner =>
      if kind_is kind "NON_NULL" then PyStr.fstr [_format_type inner; "!"]
      else if kind_is kind "LIST" then PyStr.fstr ["["; _format_type inner; "]"]
      else name_or_unknown name
  end.

(** The wrappers the specification speaks of. *)
Definition NON_NULL (inner : type_ref) : type_ref := TypeRef (Some "NON_NULL") None inner.
Definition LIST (inner : type_ref) : type_ref := TypeRef (Some "LIST") None inner.
Definition Named (kind name : string) : type_ref := TypeRef (Some kind) (Some name) NoType.

(** ** The session of one question and the monad of the tools *)

Record RequestContext : Type := {
  target_url : string;
  api_type : string;
  target_headers : dict;
  allow_unsafe_paths : list string;
  base_url : option string;
  include_result : bool;
  poll_paths : list string
}.

(** The arguments of one call of the request capability. *)
Record request : Type := {
  rq_method : string;
  rq_path : string;
  rq_path_params : json;
  rq_query_params : json;
  rq_body : json;
  rq_base_url : string;
  rq_headers : dict;
  rq_allow_unsafe_paths : list string
}.

(** What a tool does to the world: a request (with the result the
    capability gave) or a sleep of so many milliseconds. *)
Inductive event : Type :=
| Requested (rq : request) (result : dict)
| Slept (ms : Z).

(** The context variables of [rest_agent.py] ([None]: the variable is not
    set and [get()] raises [LookupError]) and the trace of the effects. *)
Record session : Type := {
  rest_calls : option (list dict);
  query_results : option dict;
  last_result : option json;
  trace : list event
}.

Definition with_rest_calls (s : session) (calls : option (list dict)) : session :=
  {| rest_calls := calls; query_results := query_results s;
     last_result := last_result s; trace := trace s |}.

Definition with_query_results (s : session) (results : option dict) : session :=
  {| rest_calls := rest_calls s; query_results := results;
     last_result := last_result s; trace := trace s |}.

Definition with_last_result (s : session) (value : option json) : session :=
  {| rest_calls := rest_calls s; query_results := query_results s;
     last_result := value; trace := trace s |}.

Definition with_trace (s : session) (t : list event) : session :=
  {| rest_calls := rest_calls s; query_results := query_results s;
     last_result := last_result s; trace := t |}.

Definition M (A : Type) : Type := session -> res A * session.

Definition ret {A : Type} (a : A) : M A := fun s => (Ok a, s).

Definition bind {A B : Type} (m : M A) (k : A -> M B) : M B :=
  fun s =>
    match m s with
    | (Ok a, s') => k a s'
    | (Raise e, s') => (Raise e, s')
    end.

Definition lift {A : Type} (r : res A) : M A := fun s => (r, s).

Declare Scope tool_scope.
Delimit Scope tool_scope with tool.
Notation "x <- m ;; k" := (bind m (fun x => k))
  (at level 61, m at next level, right associativity) : tool_scope.
Notation "m ;; k" := (bind m (fun _ => k))
  (at level 61, right associativity) : tool_scope.

(** The number of requests in a trace. *)
Definition requests_in (t : list event) : nat :=
  length (filter (fun e => match e with Requested _ _ => true | Slept _ => false end) t).

(** The bodies of the requests in a trace, in order. *)
Definition bodies_sent (t : list event) : list json :=
  flat_map (fun e => match e with Requested rq _ => [rq_body rq] | Slept _ => [] end) t.

(** The terminal states of the polling machine, and the result of a poll:
    the state together with the object the tool serializes as its
    answer. *)
Inductive terminal : Type :=
| DONE
| FIELD_MISSING
| REQUEST_FAILED
| EXHAUSTED
| MALFORMED_BODY.

Definition outcome : Type := (terminal * dict)%type.

(** One turn of the polling loop either returns or goes on with the
    value last seen at [done_field] and the request body. *)
Inductive step : Type :=
| Return (o : outcome)
| Continue (current : json) (body_dict : json).

(** The [settings] object: the two fields [poll_until_done] reads, and
    the default character budget of the truncator (section 4.3 of the
    specification). *)
Record settings : Type := {
  MAX_POLLS : Z;
  DEFAULT_POLL_DELAY_MS : Z;
  MAX_TOOL_RESPONSE_CHARS : Z
}.

(** The result of [json.loads]: the value, or [JSONDecodeError] with its
    [msg]. *)
Inductive decoded : Type :=
| Decoded (v : json)
| NotJson (msg : string).

(** [v.get] on a value that may not be a dict. *)
Definition as_dict (v : json) : res dict :=
  match v with
  | JObj d => Ok d
  | _ => Raise AttributeError
  end.

(** [v + 1]. *)
Definition add_one (v : json) : res json :=
  match v with
  | JInt n => Ok (JInt (n + 1))
  | JBool b => Ok (JInt ((if b then 1 else 0) + 1))
  | _ => Raise TypeError
  end.

(** [v >= k] for an integer [k]. *)
Definition ge_int (v : json) (k : Z) : res bool :=
  match v with
  | JInt n => Ok (k <=? n)
  | JBool b => Ok (k <=? (if b then 1 else 0))
  | _ => Raise TypeError
  end.

(** The last statement of the polling loop:
    [if body_dict.get("polling", {}).get("count") is not None:
         body_dict["polling"]["count"] += 1]. *)
Definition auto_increment (body_dict : json) : res json :=
  match as_dict body_dict with
  | Raise e => Raise e
  | Ok b =>
      match as_dict (Json.get_default b "polling" (JObj [])) with
      | Raise e => Raise e
      | Ok polling =>
          let count := Json.get polling "count" in
          if Json.is_none count then Ok body_dict
          else match add_one count with
               | Raise e => Raise e
               | Ok count' =>
                   Ok (JObj (Json.set b "polling" (JObj (Json.set polling "count" count'))))
               end
      end
  end.

Definition wrap_rows (data : json) : list json :=
  match data with
  | JArr items => items
  | _ => [data]
  end.

Section Tools.

Variable json_loads : string -> decoded.
Variable execute_request : list event -> request -> dict.
Variable cfg : settings.
Variable infer_schema : list json -> string.
Variable summary_hint : string -> string.
Variable truncation_hint : string -> string.

Variable ctx : RequestContext.
Variable the_base_url : string.

Local Open Scope tool_scope.

(** [json.loads(fragment) if fragment else default]. *)
Definition loads_or (fragment : string) (default : json) : res json :=
  if PyStr.truthy fragment then
    match json_loads fragment with
    | Decoded v => Ok v
    | NotJson msg => Raise (JSONDecodeError msg)
    end
  else Ok default.

(** [await execute_request(...)]. *)
Definition do_request (rq : request) : M dict :=
  fun s =>
    let result := execute_request (trace s) rq in
    (Ok result, with_trace s (trace s ++ [Requested rq result])).

(** [await asyncio.sleep(ms / 1000)]. *)
Definition sleep (ms : Z) : M unit :=
  fun s => (Ok tt, with_trace s (trace s ++ [Slept ms])).

(** [try: _rest_calls.get().append(record) except LookupError: pass]. *)
Definition track_call (record : dict) : M unit :=
  fun s =>
    match rest_calls s with
    | Some calls => (Ok tt, with_rest_calls s (Some (calls ++ [record])))
    | None => (Ok tt, s)
    end.

(** The block that stores the tables of a response for [sql_query]
    (both tools have it): it answers the summary and the dataset stored
    under [name], and stops at the first context variable that is not
    set. *)
Definition store_tables (data : json) (name : string)
  : M (option Executor.summary * json) :=
  fun s =>
    match query_results s with
    | None => (Ok (None, JNull), s)
    | Some results =>
        let '(tables, schema_info) :=
          Executor.extract_tables_from_response infer_schema summary_hint data name in
        let s1 := with_query_results s (Some (Json.update results tables)) in
        let stored := Json.get tables name in
        if Json.is_none stored then (Ok (schema_info, stored), s1)
        else match last_result s1 with
             | Some _ => (Ok (schema_info, stored), with_last_result s1 (Some stored))
             | None => (Ok (schema_info, stored), s1)
             end
    end.

Definition truncate_default (dataset : list json) (name : string) : dict :=
  Executor.view_dict
    (Executor.truncate_for_context infer_schema summary_hint truncation_hint
       dataset name (MAX_TOOL_RESPONSE_CHARS cfg)).

(** *** [rest_call] *)

(** The answer [rest_call] gives for a stored dataset: the summary of a
    wrapped single record, or the truncated view of a list. *)
Definition context_answer (name : string) (schema_info : option Executor.summary)
  (stored_data : json) : option dict :=
  match schema_info with
  | Some info =>
      Some (Json.update [("success", JBool true); ("table", JStr name)]
              (Executor.summary_dict info))
  | None =>
      match stored_data with
      | JArr items => Some (Json.update [("success", JBool true)] (truncate_default items name))
      | _ => None
      end
  end.

Definition rest_call (method path path_params query_params body name : string) : M dict :=
  pp <- lift (loads_or path_params JNull) ;;
  qp <- lift (loads_or query_params JNull) ;;
  bd <- lift (loads_or body JNull) ;;
  result <- do_request
    {| rq_method := method; rq_path := path; rq_path_params := pp;
       rq_query_params := qp; rq_body := bd; rq_base_url := the_base_url;
       rq_headers := target_headers ctx;
       rq_allow_unsafe_paths := allow_unsafe_paths ctx |} ;;
  track_call [("method", JStr method); ("path", JStr path);
              ("path_params", JStr path_params);
              ("query_params", JStr query_params); ("body", JStr body)] ;;
  stored <- (if Json.truthy (Json.get result "success")
             then store_tables (Json.get_default result "data" (JObj [])) name
             else ret (None, JNull)) ;;
  let '(schema_info, stored_data) := stored in
  let success := Json.truthy (Json.get result "success") in
  match (if success && Json.truthy stored_data
         then context_answer name schema_info stored_data else None) with
  | Some answer => ret answer
  | None =>
      if negb success then
        hinted <- lift (ge_int (Json.get_default result "status_code" (JInt 0)) 400) ;;
        ret (if (hinted : bool)
             then Json.set result "hint"
                    (JStr "Use search_schema to find valid enum values or field names")
             else result)
      else ret result
  end.

(** *** [poll_until_done] *)

Section Poll.

Variables (method path done_field done_value name : string).
Variables (pp qp : json) (max_polls wait_ms : Z).

Definition exhausted_error (current : json) : string :=
  PyStr.fstr ["max_polls ("; PyStr.str_of_int max_polls; ") exceeded. Last ";
              done_field; " value: "; Json.str current;
              " (expected: "; done_value; ")"].

Definition field_missing_error (data : json) : string :=
  PyStr.fstr ["done_field '"; done_field;
              "' not found in response. Available keys: ";
              Json.str_of_keys (match data with
                                | JObj d => Json.keys d
                                | _ => []
                                end)].

(** [str(current).lower() == done_value.lower()]. *)
Definition is_done (current : json) : bool :=
  String.eqb (PyStr.lower (Json.str current)) (PyStr.lower done_value).

(** The arguments of the request of an attempt, and its record in the
    call log. *)
Definition poll_request (body_dict : json) : request :=
  {| rq_method := method; rq_path := path; rq_path_params := pp;
     rq_query_params := qp;
     rq_body := if Json.truthy body_dict then body_dict else JNull;
     rq_base_url := the_base_url; rq_headers := target_headers ctx;
     rq_allow_unsafe_paths := allow_unsafe_paths ctx |}.

Definition poll_record (attempt : Z) (body_dict : json) : dict :=
  [("method", JStr method); ("path", JStr path);
   ("body", JStr (if Json.truthy body_dict then Json.dumps body_dict
                  else EmptyString));
   ("poll_attempt", JInt attempt)].

(** The body of [while attempt < max_polls], entered with the number of
    the attempts made so far. *)
Definition poll_attempt (attempt : Z) (body_dict : json) : M step :=
  let attempt := attempt + 1 in
  result <- do_request (poll_request body_dict) ;;
  track_call (poll_record attempt body_dict) ;;
  if negb (Json.truthy (Json.get result "success")) then
    ret (Return (REQUEST_FAILED,
                 [("success", JBool false); ("error", Json.get result "error");
                  ("attempt", JInt attempt)]))
  else
    let data := Json.get_default result "data" (JObj []) in
    current <- lift (_get_nested_value data done_field) ;;
    if Json.is_none current && (attempt =? 1) then
      ret (Return (FIELD_MISSING,
                   [("success", JBool false);
                    ("error", JStr (field_missing_error data))]))
    else if is_done current then
      store_tables data name ;;
      ret (Return (DONE,
                   Json.set
                     (Json.update [("success", JBool true)]
                        (truncate_default (wrap_rows data) name))
                     "attempts" (JInt attempt)))
    else
      sleep wait_ms ;;
      body_dict' <- lift (auto_increment body_dict) ;;
      ret (Continue current body_dict').

(** The loop [while attempt < max_polls], by recursion on the number of
    attempts that remain, [max_polls - attempt]. *)
Fixpoint poll_loop (remaining : nat) (attempt : Z) (current body_dict : json)
  : M outcome :=
  match remaining with
  | O =>
      ret (EXHAUSTED,
           [("success", JBool false); ("error", JStr (exhausted_error current));
            ("attempts", JInt attempt)])
  | S remaining' =>
      next <- poll_attempt attempt body_dict ;;
      match next with
      | Return o => ret o
      | Continue current' body_dict' =>
          poll_loop remaining' (attempt + 1) current' body_dict'
      end
  end.

(** The state machine as the tool starts it: no attempt made, no value
    seen. *)
Definition poll_machine (body_dict : json) : M outcome :=
  poll_loop (Z.to_nat max_polls) 0 JNull body_dict.

End Poll.

Definition poll_until_done
  (method path done_field done_value body path_params query_params name : string)
  (delay_ms : Z) : M outcome :=
  pp <- lift (loads_or path_params JNull) ;;
  qp <- lift (loads_or query_params JNull) ;;
  match loads_or body (JObj []) with
  | Raise (JSONDecodeError msg) =>
      ret (MALFORMED_BODY,
           [("success", JBool false);
            ("error", JStr (PyStr.fstr ["Invalid body JSON: "; msg]))])
  | Raise e => lift (Raise e)
  | Ok body_dict =>
      let max_polls := MAX_POLLS cfg in
      let wait_ms := if delay_ms >? 0 then delay_ms else DEFAULT_POLL_DELAY_MS cfg in
      poll_machine method path done_field done_value name pp qp max_polls wait_ms
        body_dict
  end.

End Tools.

(** ** Vocabulary of the statements *)

(** The session after a request was issued and recorded in the call
    log, and after a sleep. *)
Definition after_request (s : session) (rq : request) (result record : dict) : session :=
  with_rest_calls (with_trace s (trace s ++ [Requested rq result]))
    (option_map (fun calls => calls ++ [record]) (rest_calls s)).

Definition after_sleep (s : session) (ms : Z) : session :=
  with_trace s (trace s ++ [Slept ms]).

(** A request body with its [polling.count] set to [m], in place. *)
Definition with_count (body_dict : json) (m : Z) : json :=
  match body_dict with
  | JObj b =>
      match Json.get b "polling" with
      | JObj polling =>
          JObj (Json.set b "polling" (JObj (Json.set polling "count" (JInt m))))
      | _ => body_dict
      end
  | _ => body_dict
  end.

(** [sub] is [full] with some of its elements left out, the others in
    their order. *)
Inductive subsequence {A : Type} : list A -> list A -> Prop :=
| subsequence_nil : subsequence [] []
| subsequence_take (x : A) (sub full : list A) :
    subsequence sub full -> subsequence (x :: sub) (x :: full)
| subsequence_skip (x : A) (sub full : list A) :
    subsequence sub full -> subsequence sub (x :: full).

(** ** Sample data of the test suite *)

Module Samples.

(** [process_rest_query] starts a question with every context variable
    set and empty. *)
Definition fresh_session : session :=
  {| rest_calls := Some []; query_results := Some [];
     last_result := Some JNull; trace := [] |}.

Definition test_context : RequestContext :=
  {| target_url := EmptyString; api_type := "rest"; target_headers := [];
     allow_unsafe_paths := ["/search/*"]; base_url := None;
     include_result := false; poll_paths := [] |}.

Definition test_settings : settings :=
  {| MAX_POLLS := 3; DEFAULT_POLL_DELAY_MS := 3000;
     MAX_TOOL_RESPONSE_CHARS := 32000 |}.

Definition no_schema (dataset : list json) : string := EmptyString.
Definition name_hint (name : string) : string := name.

Definition succeed (data : json) : dict := [("success", JBool true); ("data", data)].

(** [test_numeric_done_field_zero_means_done]: [retry.next] is 2, 1, 0. *)
Definition countdown (t : list event) (rq : request) : dict :=
  succeed (JObj [("retry",
                  JObj [("next", JInt (Z.max 0 (3 - Z.of_nat (S (requests_in t)))))]);
                 ("trips", JArr [])]).

(** [test_max_polls_error_shows_last_value]: never completed. *)
Definition never_completed (t : list event) (rq : request) : dict :=
  succeed (JObj [("polling", JObj [("completed", JBool false)])]).

(** [test_auto_increment_polling_count]: completed at the third call. *)
Definition completed_at_third (t : list event) (rq : request) : dict :=
  succeed (JObj [("polling",
                  JObj [("completed", JBool (3 <=? S (requests_in t))%nat)])]).

(** [test_done_field_not_found_returns_error]. *)
Definition pending_status (t : list event) (rq : request) : dict :=
  succeed (JObj [("status", JStr "pending"); ("results", JArr [])]).

(** A capability whose every request fails. *)
Definition unreachable (t : list event) (rq : request) : dict :=
  [("success", JBool false); ("error", JStr "connection refused")].

(** A decoder for the fragments of the examples: it knows one object
    and rejects everything else as [json.loads] rejects [not-json]. *)
Definition polling_count_body : string :=
  String.concat (String PyStr.dquote EmptyString)
    ["{"; "polling"; ": {"; "count"; ": 1}}"].

Definition polling_null_body : string :=
  String.concat (String PyStr.dquote EmptyString) ["{"; "polling"; ": null}"].

Definition sample_loads (fragment : string) : decoded :=
  if String.eqb fragment polling_count_body
  then Decoded (JObj [("polling", JObj [("count", JInt 1)])])
  else if String.eqb fragment polling_null_body
  then Decoded (JObj [("polling", JNull)])
  else NotJson "Expecting value".

End Samples.

(** ** [rest_agent._set_nested_value] *)

Definition is_dict (v : json) : bool :=
  match v with JObj _ => true | _ => false end.

(** The loop [for key in keys[:-1]] and the final assignment, on the
    mapping reached; the function answers the mapping as the in-place
    assignments leave it. *)
Fixpoint _set_nested_keys (current : dict) (keys : list string) (value : json) : dict :=
  match keys with
  | [] => current
  | [last] => Json.set current last value
  | key :: keys' =>
      let child :=
        if negb (Json.has_key current key) || negb (is_dict (Json.get current key))
        then []
        else match Json.get current key with
             | JObj d => d
             | _ => []
             end in
      Json.set current key (JObj (_set_nested_keys child keys' value))
  end.

Definition _set_nested_value (data : dict) (path : string) (value : json) : dict :=
  if negb (PyStr.truthy path) then data
  else _set_nested_keys data (PyStr.split "." path) value.

(** ** The schema compactor of [graphql_agent.py] *)

Module PyText.

Definition nl : string := String (ascii_of_nat 10) EmptyString.

Definition is_newline (c : ascii) : bool := (PyStr.code c =? 10)%nat.

(** [s.startswith(prefix)]. *)
Definition startswith (prefix s : string) : bool := String.prefix prefix s.

(** [s[:n]]. *)
Definition slice_to (s : string) (n : Z) : string :=
  if 0 <=? n then String.substring 0 (Z.to_nat n) s
  else String.substring 0 (String.length s - Z.to_nat (- n)) s.

(** [len(s)]. *)
Definition len (s : string) : Z := Z.of_nat (String.length s).

(** The last character of a string. *)
Fixpoint last_char (s : string) : option ascii :=
  match s with
  | EmptyString => None
  | String a EmptyString => Some a
  | String _ rest => last_char rest
  end.

(** An occurrence of a space followed by [#]. *)
Fixpoint has_comment (s : string) : bool :=
  match s with
  | EmptyString => false
  | String a rest =>
      (Ascii.eqb a " " && startswith "#" rest) || has_comment rest
  end.

Definition has_newline (s : string) : bool := PyStr.contains_char (ascii_of_nat 10) s.

End PyText.

Module GraphQL.

(** The objects of the introspection result.  A key the code reads with
    a subscript is a field; a key it reads with [get] is optional
    ([None]: absent or null), and a list is empty when the key is
    absent. *)
Record arg : Type := {
  arg_name : string;
  arg_type : type_ref;
  defaultValue : option string
}.

Record field : Type := {
  field_name : string;
  description : option string;
  args : list arg;
  field_type : type_ref
}.

Record input_field : Type := {
  input_name : string;
  input_type : type_ref
}.

Record type_def : Type := {
  type_name : string;
  type_kind : string;
  fields : list field;
  enumValues : list string;
  inputFields : list input_field;
  interfaces : list string;
  possibleTypes : list string
}.

Record schema : Type := {
  query_fields : list field;
  types : list type_def
}.

End GraphQL.

(** [type_def.get("kind") == "NON_NULL" if type_def else False]. *)
Definition _is_required (type_def : type_ref) : bool :=
  match type_def with
  | NoType => false
  | TypeRef kind _ _ => kind_is kind "NON_NULL"
  end.

Definition _format_arg (a : GraphQL.arg) : string :=
  let type_str := _format_type (GraphQL.arg_type a) in
  match GraphQL.defaultValue a with
  | Some default => PyStr.fstr [GraphQL.arg_name a; ": "; type_str; " = "; default]
  | None => PyStr.fstr [GraphQL.arg_name a; ": "; type_str]
  end.

Definition _filter_required_args (args : list GraphQL.arg) : list GraphQL.arg :=
  filter (fun a => _is_required (GraphQL.arg_type a)) args.

(** [f" # {description}" if description else ""]. *)
Definition description_suffix (description : option string) : string :=
  match description with
  | Some d => if PyStr.truthy d then PyStr.fstr [" # "; d] else EmptyString
  | None => EmptyString
  end.

Definition _format_field (fld : GraphQL.field) : string :=
  let arg_str :=
    match GraphQL.args fld with
    | [] => EmptyString
    | _ :: _ =>
        PyStr.fstr ["("; PyStr.join ", " (map _format_arg (GraphQL.args fld)); ")"]
    end in
  PyStr.fstr ["  "; GraphQL.field_name fld; arg_str; ": ";
              _format_type (GraphQL.field_type fld);
              description_suffix (GraphQL.description fld)].

Definition kind_eqb (expected : string) (t : GraphQL.type_def) : bool :=
  String.eqb (GraphQL.type_kind t) expected.

(** [f" # implemented by: ..." if impl else ""] and its like. *)
Definition listed (label sep : string) (names : list string) : string :=
  match names with
  | [] => EmptyString
  | _ :: _ => PyStr.fstr [label; PyStr.join sep names]
  end.

Definition query_line (f : GraphQL.field) : string :=
  PyStr.fstr [GraphQL.field_name f; "(";
              PyStr.join ", " (map _format_arg (_filter_required_args (GraphQL.args f)));
              ") -> "; _format_type (GraphQL.field_type f);
              description_suffix (GraphQL.description f)].

Definition interface_block (t : GraphQL.type_def) : string :=
  PyStr.fstr [GraphQL.type_name t; " {";
              listed " # implemented by: " ", " (GraphQL.possibleTypes t); PyText.nl;
              PyStr.join PyText.nl (map _format_field (GraphQL.fields t));
              PyText.nl; "}"].

Definition union_line (t : GraphQL.type_def) : string :=
  PyStr.fstr [GraphQL.type_name t; ": "; PyStr.join " | " (GraphQL.possibleTypes t)].

Definition object_block (t : GraphQL.type_def) : string :=
  PyStr.fstr [GraphQL.type_name t; listed " implements " ", " (GraphQL.interfaces t);
              " {"; PyText.nl;
              PyStr.join PyText.nl (map _format_field (GraphQL.fields t));
              PyText.nl; "}"].

Definition enum_line (e : GraphQL.type_def) : string :=
  PyStr.fstr [GraphQL.type_name e; ": "; PyStr.join " | " (GraphQL.enumValues e)].

Definition input_line (inp : GraphQL.type_def) : string :=
  let required_fields :=
    filter (fun f => _is_required (GraphQL.input_type f)) (GraphQL.inputFields inp) in
  PyStr.fstr [GraphQL.type_name inp; " { ";
              PyStr.join ", "
                (map (fun f => PyStr.fstr [GraphQL.input_name f; ": ";
                                           _format_type (GraphQL.input_type f)])
                   required_fields);
              " }"].

Definition is_root_operation (name : string) : bool :=
  String.eqb name "Query" || String.eqb name "Mutation" || String.eqb name "Subscription".

(** The list [lines] that [_build_schema_context] joins. *)
Definition schema_lines (schema : GraphQL.schema) : list string :=
  let queries := GraphQL.query_fields schema in
  let all_types :=
    filter (fun t => negb (PyText.startswith "__" (GraphQL.type_name t)))
      (GraphQL.types schema) in
  let objects :=
    filter (fun t => kind_eqb "OBJECT" t && negb (is_root_operation (GraphQL.type_name t)))
      all_types in
  let enums := filter (kind_eqb "ENUM") all_types in
  let inputs := filter (kind_eqb "INPUT_OBJECT") all_types in
  let interfaces := filter (kind_eqb "INTERFACE") all_types in
  let unions := filter (kind_eqb "UNION") all_types in
  ["<queries>"] ++ map query_line queries
  ++ match interfaces with
     | [] => []
     | _ :: _ => (PyText.nl ++ "<interfaces>")%string :: map interface_block interfaces
     end
  ++ match unions with
     | [] => []
     | _ :: _ => (PyText.nl ++ "<unions>")%string :: map union_line unions
     end
  ++ [(PyText.nl ++ "<types>")%string] ++ map object_block objects
  ++ [(PyText.nl ++ "<enums>")%string] ++ map enum_line enums
  ++ [(PyText.nl ++ "<inputs>")%string] ++ map input_line inputs.

Definition _build_schema_context (schema : GraphQL.schema) : string :=
  PyStr.join PyText.nl (schema_lines schema).

(** [re.sub(r" #[^\n]*", "", context)]: the scan is either outside a
    match, or inside one, where it drops characters up to the end of the
    line. *)
Fixpoint strip_from (in_comment : bool) (s : string) : string :=
  match s with
  | EmptyString => EmptyString
  | String a rest =>
      if in_comment then
        if PyText.is_newline a then String a (strip_from false rest)
        else strip_from true rest
      else if Ascii.eqb a " " && PyText.startswith "#" rest then strip_from true rest
      else String a (strip_from false rest)
  end.

Definition _strip_descriptions (context : string) : string := strip_from false context.

Definition schema_truncated_marker : string :=
  (PyText.nl ++ "[SCHEMA TRUNCATED - use search_schema() to explore]")%string.

(** The size governance that ends [_fetch_schema_context]: the
    statements after [context = _build_schema_context(schema)], with
    [settings.MAX_SCHEMA_CHARS] as [max_schema_chars]. *)
Definition cap_schema_context (max_schema_chars : Z) (context : string) : string :=
  if PyText.len context >? max_schema_chars then
    let context := _strip_descriptions context in
    if PyText.len context >? max_schema_chars then
      (PyText.slice_to context max_schema_chars ++ schema_truncated_marker)%string
    else context
  else context.

(** ** More vocabulary for the runs of the polling machine *)

(** The events of attempts that went on: each a request and the sleep
    after it. *)
Definition rounds (ms : Z) (attempts : list (request * dict)) : list event :=
  flat_map (fun a => [Requested (fst a) (snd a); Slept ms]) attempts.

Definition is_sleep (e : event) : bool :=
  match e with Slept _ => true | Requested _ _ => false end.

(** The records of consecutive attempts for the bodies they sent, the
    first numbered [attempt + 1]. *)
Fixpoint poll_records (method path : string) (attempt : Z) (bodies : list json)
  : list dict :=
  match bodies with
  | [] => []
  | body_dict :: bodies' =>
      poll_record method path (attempt + 1) body_dict
      :: poll_records method path (attempt + 1) bodies'
  end.

(** ** [rest_agent.sql_query] *)

Section SqlTool.

(** [execute_sql] of [api_agent/executor.py] runs the SQL engine over the
    registry; it is not code of the modelled files. *)
Variable execute_sql : dict -> string -> dict.
Variable cfg : settings.
Variable infer_schema : list json -> string.
Variable summary_hint : string -> string.
Variable truncation_hint : string -> string.

Definition no_data : dict :=
  [("success", JBool false); ("error", JStr "No data. Call rest_call first.")].

Definition sql_query (sql : string) : M dict :=
  fun s =>
    match query_results s with
    | None => (Ok no_data, s)
    | Some data =>
        if negb (Json.truthy (JObj data)) then (Ok no_data, s)
        else
          let result := execute_sql data sql in
          if Json.truthy (Json.get result "success") then
            let rows := Json.get_default result "result" (JArr []) in
            let s' := match last_result s with
                      | Some _ => with_last_result s (Some rows)
                      | None => s
                      end in
            match rows with
            | JArr items =>
                (Ok (Json.update [("success", JBool true)]
                       (truncate_default cfg infer_schema summary_hint truncation_hint
                          items "sql_result")), s')
            | _ => (Ok result, s')
            end
          else (Ok result, s)
    end.

End SqlTool.

(** ** [rest_agent.process_rest_query] *)

(** The tools handed to the agent; the two REST tools are bound to the
    request context and the base URL. *)
Inductive tool : Type :=
| RestCallTool (ctx : RequestContext) (base_url : string)
| PollTool (ctx : RequestContext) (base_url : string)
| SqlQueryTool
| SearchSchemaTool.

Record Agent : Type := {
  agent_name : string;
  instructions : string;
  tools : list tool
}.

(** The contents of the context variables of one question (all set by
    [process_rest_query] before anything reads them) and the trace. *)
Record question_state : Type := {
  q_rest_calls : list dict;
  q_query_results : dict;
  q_last_result : json;
  q_raw_schema : option string;
  q_trace : list event
}.

(** What [fetch_schema_context] and [Runner.run] can do. *)
Inductive fetched : Type :=
| Fetched (schema_ctx : string) (spec_base_url : option string) (raw_spec_json : string)
| FetchRaised (message : string).

Inductive run_result : Type :=
| Finished (final_output : json)
| MaxTurnsExceeded
| RunRaised (message : string).

(** A run of the agent: how it ended, what [get_turn_context] answers
    after it, and the state it left. *)
Record ran : Type := {
  ran_result : run_result;
  ran_turn_info : string;
  ran_state : question_state
}.

Section Question.

Variable fetch_schema_context : string -> dict -> list event -> fetched.
Variable runner : Agent -> string -> question_state -> ran.
Variable _build_system_prompt : list string -> string.

(** [a or b] on optional strings. *)
Definition or_else (a b : option string) : option string :=
  match a with
  | Some x => if PyStr.truthy x then a else b
  | None => b
  end.

Definition answer (ok : bool) (data result : json) (api_calls : list dict) (error : json)
  : dict :=
  [("ok", JBool ok); ("data", data); ("result", result);
   ("api_calls", JArr (map JObj api_calls)); ("error", error)].

(** The answers that carry no [result] key. *)
Definition early_answer (error : string) : dict :=
  [("ok", JBool false); ("data", JNull); ("api_calls", JArr []); ("error", JStr error)].

Definition process_rest_query (question : string) (ctx : RequestContext)
  (s : question_state) : dict * question_state :=
  let s0 := {| q_rest_calls := []; q_query_results := []; q_last_result := JNull;
               q_raw_schema := q_raw_schema s; q_trace := q_trace s |} in
  match fetch_schema_context (target_url ctx) (target_headers ctx) (q_trace s0) with
  | FetchRaised message => (early_answer message, s0)
  | Fetched schema_ctx spec_base_url raw_spec_json =>
      let s1 := {| q_rest_calls := q_rest_calls s0;
                   q_query_results := q_query_results s0;
                   q_last_result := q_last_result s0;
                   q_raw_schema := Some raw_spec_json; q_trace := q_trace s0 |} in
      match or_else (base_url ctx) spec_base_url with
      | None =>
          (early_answer
             "Could not determine base URL. Set X-Base-URL header or ensure spec has 'servers' field.",
           s1)
      | Some the_base_url =>
          if negb (PyStr.truthy the_base_url) then
            (early_answer
               "Could not determine base URL. Set X-Base-URL header or ensure spec has 'servers' field.",
             s1)
          else
            let rest_tool := RestCallTool ctx the_base_url in
            let tools :=
              match poll_paths ctx with
              | [] => [rest_tool; SqlQueryTool; SearchSchemaTool]
              | _ :: _ =>
                  [rest_tool; PollTool ctx the_base_url; SqlQueryTool; SearchSchemaTool]
              end in
            let agent := {| agent_name := "rest-agent";
                            instructions := _build_system_prompt (poll_paths ctx);
                            tools := tools |} in
            let augmented_query :=
              if PyStr.truthy schema_ctx
              then PyStr.fstr [schema_ctx; PyText.nl; PyText.nl; "Question: "; question]
              else question in
            let run := runner agent augmented_query s1 in
            let s2 := ran_state run in
            let api_calls := q_rest_calls s2 in
            let last_data := q_last_result s2 in
            let turn_info := ran_turn_info run in
            match ran_result run with
            | RunRaised message => (early_answer message, s2)
            | Finished final_output =>
                if negb (Json.truthy final_output) then
                  if Json.truthy last_data then
                    (answer true
                       (JStr (PyStr.fstr ["[Partial - "; turn_info;
                                          "] Data retrieved but agent didn't complete."]))
                       last_data api_calls JNull, s2)
                  else
                    (answer false JNull JNull api_calls
                       (JStr (PyStr.fstr ["No output ("; turn_info; ")"])), s2)
                else
                  (answer true (JStr (Json.str final_output)) last_data api_calls JNull, s2)
            | MaxTurnsExceeded =>
                if Json.truthy last_data then
                  (answer true
                     (JStr (PyStr.fstr ["[Partial - "; turn_info;
                                        "] Max turns exceeded but data retrieved."]))
                     last_data api_calls JNull, s2)
                else
                  (answer false JNull JNull api_calls
                     (JStr (PyStr.fstr ["Max turns exceeded ("; turn_info;
                                        "), no data retrieved"])), s2)
            end
      end
  end.

End Question.

(** * Properties *)

(** ** Strings *)

Lemma append_nil_r (s : string) : (s ++ EmptyString)%string = s.
Proof. induction s as [|a s IH]; simpl; [reflexivity | now rewrite IH]. Qed.

Lemma append_assoc (a b c : string) :
  (a ++ (b ++ c))%string = ((a ++ b) ++ c)%string.
Proof. induction a as [|x a IH]; simpl; [reflexivity | now rewrite IH]. Qed.

Lemma fstr_cons (p : string) (ps : list string) :
  PyStr.fstr (p :: ps) = (p ++ PyStr.fstr ps)%string.
Proof.
  unfold PyStr.fstr. destruct ps as [|q qs]; simpl.
  - now rewrite append_nil_r.
  - reflexivity.
Qed.

Lemma mentions_fstr (piece : string) (pieces : list string) :
  In piece pieces -> PyStr.mentions piece (PyStr.fstr pieces).
Proof.
  induction pieces as [|p ps IH]; intros Hin; [contradiction|].
  rewrite fstr_cons. destruct Hin as [-> | Hin].
  - exists EmptyString, (PyStr.fstr ps). reflexivity.
  - destruct (IH Hin) as (pre & post & E).
    exists (p ++ pre)%string, post. rewrite E. apply append_assoc.
Qed.

Lemma mentions_trans (a b c : string) :
  PyStr.mentions a b -> PyStr.mentions b c -> PyStr.mentions a c.
Proof.
  intros (p1 & q1 & ->) (p2 & q2 & ->).
  exists (p2 ++ p1)%string, (q1 ++ q2)%string.
  now rewrite <- !append_assoc.
Qed.

Lemma mentions_join (sep x : string) (xs : list string) :
  In x xs -> PyStr.mentions x (PyStr.join sep xs).
Proof.
  unfold PyStr.join.
  induction xs as [|y ys IH]; intros Hin; [contradiction|].
  destruct Hin as [-> | Hin].
  - exists EmptyString. destruct ys as [|z zs].
    + exists EmptyString. simpl. now rewrite append_nil_r.
    + exists (sep ++ String.concat sep (z :: zs))%string. reflexivity.
  - destruct (IH Hin) as (pre & post & E).
    destruct ys as [|z zs]; [contradiction|].
    exists (y ++ sep ++ pre)%string, post.
    change (String.concat sep (y :: z :: zs))
      with (y ++ sep ++ String.concat sep (z :: zs))%string.
    rewrite E. now rewrite <- !append_assoc.
Qed.

Lemma split_not_nil (sep : ascii) (s : string) : PyStr.split sep s <> [].
Proof.
  destruct s as [|a s]; simpl; [discriminate|].
  destruct (Ascii.eqb a sep); [discriminate|].
  destruct (PyStr.split sep s); discriminate.
Qed.

Lemma decimal_value_nonneg (s : string) (acc : Z) :
  0 <= acc -> 0 <= PyStr.decimal_value acc s.
Proof.
  revert acc.
  induction s as [|a s IH]; intros acc H; cbn [PyStr.decimal_value]; [assumption|].
  apply IH. lia.
Qed.

Lemma ascii_digits_are_digits (s : string) :
  PyStr.all_chars PyStr.is_ascii_digit s = true ->
  PyStr.all_chars PyStr.is_digit_char s = true.
Proof.
  induction s as [|a s IH]; cbn [PyStr.all_chars]; [reflexivity|].
  intros H. apply andb_true_iff in H as [Ha Hs].
  rewrite (IH Hs), andb_true_r. unfold PyStr.is_digit_char. now rewrite Ha.
Qed.

(** ** GraphQL type folding *)

(** C9.  The renderer of type references: a bare named type renders as
    its name, each [NON_NULL] wrapper appends [!], each [LIST] wrapper
    encloses in brackets, recursing through [ofType], an absent or empty
    reference renders as [?]; the fivefold wrapping of the specification
    renders as [[[X!]!]!]. *)
Theorem format_type_folds :
  (forall kind name inner,
      kind_is kind "NON_NULL" = false -> kind_is kind "LIST" = false ->
      name <> EmptyString ->
      _format_type (TypeRef kind (Some name) inner) = name)
  /\ (forall name inner,
      _format_type (TypeRef (Some "NON_NULL") name inner)
      = (_format_type inner ++ "!")%string)
  /\ (forall name inner,
      _format_type (TypeRef (Some "LIST") name inner)
      = ("[" ++ _format_type inner ++ "]")%string)
  /\ _format_type NoType = "?"
  /\ _format_type (TypeRef None None NoType) = "?"
  /\ (forall kind X,
      kind_is kind "NON_NULL" = false -> kind_is kind "LIST" = false ->
      X <> EmptyString ->
      _format_type
        (NON_NULL (LIST (NON_NULL (LIST (NON_NULL (TypeRef kind (Some X) NoType))))))
      = ("[[" ++ X ++ "!]!]!")%string).
Proof.
  assert (Hnamed : forall kind name inner,
             kind_is kind "NON_NULL" = false -> kind_is kind "LIST" = false ->
             name <> EmptyString ->
             _format_type (TypeRef kind (Some name) inner) = name).
  { intros kind name inner Hn Hl Hname. simpl. rewrite Hn, Hl.
    destruct name as [|a name]; [congruence|reflexivity]. }
  assert (Hnn : forall name inner,
             _format_type (TypeRef (Some "NON_NULL") name inner)
             = (_format_type inner ++ "!")%string).
  { intros name inner.
    change (_format_type (TypeRef (Some "NON_NULL") name inner))
      with (PyStr.fstr [_format_type inner; "!"]).
    rewrite !fstr_cons. reflexivity. }
  assert (Hlist : forall name inner,
             _format_type (TypeRef (Some "LIST") name inner)
             = ("[" ++ _format_type inner ++ "]")%string).
  { intros name inner.
    change (_format_type (TypeRef (Some "LIST") name inner))
      with (PyStr.fstr ["["; _format_type inner; "]"]).
    rewrite !fstr_cons. reflexivity. }
  repeat split; try assumption.
  intros kind X Hn Hl HX. unfold NON_NULL, LIST.
  repeat (rewrite Hnn || rewrite Hlist).
  rewrite (Hnamed kind X NoType Hn Hl HX).
  rewrite <- !append_assoc. reflexivity.
Qed.

Lemma format_type_folds_witness :
  _format_type (TypeRef (Some "OBJECT") (Some "User") NoType) = "User"
  /\ _format_type
       (NON_NULL (LIST (NON_NULL (LIST (NON_NULL (Named "OBJECT" "User"))))))
     = "[[User!]!]!".
Proof.
  split.
  - apply (proj1 format_type_folds); [reflexivity | reflexivity | discriminate].
  - apply (proj2 (proj2 (proj2 (proj2 (proj2 format_type_folds)))));
      [reflexivity | reflexivity | discriminate].
Defined.

(** ** The dotted-path accessor *)

Lemma resolve_path_null (segments : list string) :
  resolve_path JNull segments = JNull.
Proof. induction segments as [|k ks IH]; [reflexivity | exact IH]. Qed.

Lemma resolve_path_cons (data : json) (k : string) (ks : list string) :
  resolve_path data (k :: ks) = resolve_path (resolve_segment data k) ks.
Proof. reflexivity. Qed.

Lemma is_none_true (v : json) : Json.is_none v = true -> v = JNull.
Proof. destruct v; simpl; congruence. Qed.

Lemma is_none_false (v : json) : Json.is_none v = false <-> v <> JNull.
Proof. destruct v; simpl; split; congruence. Qed.

Lemma int_of_digits_plain (k : string) :
  PyStr.isdigit k = true -> plain_segment k ->
  exists idx, PyStr.int_of_digits k = Some idx /\ PyStr.decimal k = Some idx /\ 0 <= idx.
Proof.
  intros Hd Hp. destruct (Hp Hd) as [Ha Hlen].
  unfold PyStr.isdigit in Hd. apply andb_true_iff in Hd as [Ht _].
  exists (PyStr.decimal_value 0 k).
  assert (Hdec : PyStr.decimal k = Some (PyStr.decimal_value 0 k))
    by (unfold PyStr.decimal; now rewrite Ht, Ha).
  split; [|split; [exact Hdec|]].
  - unfold PyStr.int_of_digits.
    now replace (Z.of_nat (String.length k) <=? PyStr.int_max_str_digits) with true
      by (symmetry; now apply Z.leb_le).
  - apply decimal_value_nonneg. lia.
Qed.

Lemma decimal_not_digit (k : string) :
  PyStr.isdigit k = false -> PyStr.decimal k = None.
Proof.
  unfold PyStr.isdigit, PyStr.decimal. intros Hd.
  destruct (PyStr.truthy k); [|reflexivity].
  destruct (PyStr.all_chars PyStr.is_ascii_digit k) eqn:Ha; [|reflexivity].
  apply ascii_digits_are_digits in Ha. rewrite Ha in Hd. discriminate.
Qed.

Lemma int_of_digits_not_digit (k : string) :
  PyStr.isdigit k = false -> PyStr.int_of_digits k = None.
Proof.
  intros Hd. unfold PyStr.int_of_digits. rewrite (decimal_not_digit k Hd).
  now destruct (Z.of_nat (String.length k) <=? PyStr.int_max_str_digits).
Qed.

(** The loop of the accessor computes the segment-wise resolution. *)
Lemma get_nested_loop_resolves (keys : list string) :
  Forall plain_segment keys ->
  forall current, _get_nested_loop current keys = Ok (resolve_path current keys).
Proof.
  induction 1 as [|k ks Hk Hks IH]; intros current; [reflexivity|].
  rewrite resolve_path_cons.
  destruct current as [| b | n | s | items | fields];
    cbn [_get_nested_loop resolve_segment];
    try (now rewrite resolve_path_null).
  - destruct (PyStr.isdigit k) eqn:Hd.
    + destruct (int_of_digits_plain k Hd Hk) as (idx & -> & -> & Hidx).
      rewrite nth_default_eq.
      replace (0 <=? idx) with true by (symmetry; now apply Z.leb_le).
      cbn [andb].
      destruct (idx <? Z.of_nat (length items)) eqn:Hlt.
      * destruct (Json.is_none (nth (Z.to_nat idx) items JNull)) eqn:Hn.
        -- apply is_none_true in Hn. rewrite Hn. now rewrite resolve_path_null.
        -- apply IH.
      * apply Z.ltb_ge in Hlt.
        rewrite nth_overflow by lia. now rewrite resolve_path_null.
    + rewrite (decimal_not_digit k Hd). now rewrite resolve_path_null.
  - destruct (Json.is_none (Json.get fields k)) eqn:Hn.
    + apply is_none_true in Hn. rewrite Hn. now rewrite resolve_path_null.
    + apply IH.
Qed.

Lemma resolve_segment_falsy (data : json) (k : string) :
  Json.truthy data = false -> resolve_segment data k = JNull.
Proof.
  destruct data as [| b | n | s | [|x items] | [|kv fields]];
    cbn [Json.truthy resolve_segment]; intros Ht;
    try reflexivity; try discriminate.
  destruct (PyStr.decimal k) as [idx|]; [|reflexivity].
  unfold nth_default. now destruct (Z.to_nat idx).
Qed.

(** Where the segments are plain the accessor answers the segment-wise
    resolution of the path, on every value and every path that is not
    empty: a decimal segment indexes a sequence, a segment indexes a
    mapping by key, and a missing key, an index out of range, a value
    that is no container and a null on the way all answer missing,
    without an error; the empty path answers missing. *)
Lemma get_nested_value_resolves :
  (forall data path,
      path <> EmptyString ->
      Forall plain_segment (PyStr.split "." path) ->
      _get_nested_value data path = Ok (resolve_path data (PyStr.split "." path)))
  /\ (forall data, _get_nested_value data EmptyString = Ok JNull)
  /\ _get_nested_value
       (JObj [("a", JObj [("b", JObj [("c", JObj [("d", JInt 42)])])])]) "a.b.c.d"
     = Ok (JInt 42)
  /\ _get_nested_value
       (JObj [("trips", JArr [JObj [("id", JInt 1)]; JObj [("id", JInt 2)]])])
       "trips.0.id"
     = Ok (JInt 1)
  /\ _get_nested_value (JObj [("trips", JArr [JObj [("id", JInt 1)]])]) "trips.5.id"
     = Ok JNull
  /\ _get_nested_value (JObj [("foo", JStr "bar")]) "missing" = Ok JNull.
Proof.
  split; [|split; [|repeat split]].
  2: { intros data. unfold _get_nested_value. cbn [PyStr.truthy negb].
       now rewrite orb_true_r. }
  intros data path Hpath Hplain. unfold _get_nested_value.
  destruct path as [|a path]; [congruence|]. cbn [PyStr.truthy negb orb].
  rewrite orb_false_r.
  destruct (Json.truthy data) eqn:Ht; cbn [negb].
  - now apply get_nested_loop_resolves.
  - destruct (PyStr.split "." (String a path)) as [|k ks] eqn:Hs.
    + now apply split_not_nil in Hs.
    + rewrite resolve_path_cons, (resolve_segment_falsy data k Ht).
      now rewrite resolve_path_null.
Qed.

(** The guard of the accessor answers missing at the empty path even
    where its one segment, the empty key, resolves in the mapping. *)
Lemma get_nested_value_empty_path :
  resolve_path (JObj [(EmptyString, JInt 5)]) (PyStr.split "." EmptyString) = JInt 5
  /\ _get_nested_value (JObj [(EmptyString, JInt 5)]) EmptyString = Ok JNull.
Proof. split; reflexivity. Qed.

Lemma digit_char_is_not_dot (a : ascii) :
  PyStr.is_digit_char a = true -> Ascii.eqb a "." = false.
Proof.
  intros Hd. destruct (Ascii.eqb a ".") eqn:E; [|reflexivity].
  apply Ascii.eqb_eq in E. subst a. discriminate Hd.
Qed.

(** A string that passes [isdigit] is one segment. *)
Lemma split_digits (s : string) :
  PyStr.isdigit s = true -> PyStr.split "." s = [s].
Proof.
  unfold PyStr.isdigit. intros H. apply andb_true_iff in H as [_ H].
  induction s as [|a s IH]; [reflexivity|].
  cbn [PyStr.all_chars] in H. apply andb_true_iff in H as [Ha Hs].
  cbn [PyStr.split]. rewrite (digit_char_is_not_dot a Ha), (IH Hs). reflexivity.
Qed.

(** C5.  The accessor raises where the claim promises missing or the
    addressed value.  On a sequence, a segment that passes [isdigit] is
    handed to [int], and [int] raises [ValueError] on a superscript
    digit and on more than 4300 digits; nothing catches the error, so it
    leaves the accessor.  At [trips.] followed by the superscript two,
    which is no decimal integer, the resolution of the path is missing;
    at [trips.] followed by 4301 zeros, a non-negative integer segment,
    it is the element at index 0; the accessor raises at both. *)
Theorem get_nested_value_raises :
  (forall items segment,
      items <> [] ->
      PyStr.isdigit segment = true ->
      PyStr.int_of_digits segment = None ->
      _get_nested_value (JArr items) segment = Raise ValueError)
  /\ (let data := JObj [("trips", JArr [JInt 7])] in
      let path := ("trips." ++ String (ascii_of_nat 178) EmptyString)%string in
      _get_nested_value data path = Raise ValueError
      /\ resolve_path data (PyStr.split "." path) = JNull)
  /\ (let data := JObj [("trips", JArr [JInt 7])] in
      let path := ("trips." ++ PyStr.repeat "0" 4301)%string in
      _get_nested_value data path = Raise ValueError
      /\ resolve_path data (PyStr.split "." path) = JInt 7).
Proof.
  split; [|split; split; vm_compute; reflexivity].
  intros items segment Hitems Hd Hint. unfold _get_nested_value.
  assert (Ht : PyStr.truthy segment = true)
    by (unfold PyStr.isdigit in Hd; now apply andb_true_iff in Hd as [Ht _]).
  rewrite Ht. destruct items as [|x items]; [congruence|].
  cbn [Json.truthy negb orb]. rewrite (split_digits segment Hd).
  cbn [_get_nested_loop]. now rewrite Hd, Hint.
Qed.

Lemma get_nested_value_raises_witness :
  _get_nested_value (JArr [JInt 7]) (String (ascii_of_nat 185) EmptyString)
  = Raise ValueError.
Proof.
  apply (proj1 get_nested_value_raises); [discriminate | reflexivity | reflexivity].
Defined.

(** ** Table extraction and context truncation *)

Lemma subsequence_prefix {A : Type} (l rest : list A) : subsequence l (l ++ rest).
Proof.
  induction l as [|x l IH]; simpl.
  - induction rest; constructor; assumption.
  - now constructor.
Qed.

Section ExecutorFacts.

Variable infer_schema : list json -> string.
Variable summary_hint : string -> string.
Variable truncation_hint : string -> string.

Local Abbreviation extract :=
  (Executor.extract_tables_from_response infer_schema summary_hint).
Local Abbreviation summarize :=
  (Executor.get_table_schema_summary infer_schema summary_hint).
Local Abbreviation truncate :=
  (Executor.truncate_for_context infer_schema summary_hint truncation_hint).

Lemma first_sequence_none (fields : dict) :
  (forall kv, In kv fields -> Executor.is_sequence (snd kv) = false) ->
  Executor.first_sequence fields = None.
Proof.
  induction fields as [|[k v] fields IH]; intros H; [reflexivity|].
  assert (Hv : Executor.is_sequence v = false) by (apply (H (k, v)); now left).
  destruct v; try discriminate; cbn [Executor.first_sequence];
    apply IH; intros kv Hin; apply H; now right.
Qed.

Lemma first_sequence_found (pre post : dict) (k : string) (items : list json) :
  (forall kv, In kv pre -> Executor.is_sequence (snd kv) = false) ->
  Executor.first_sequence (pre ++ (k, JArr items) :: post) = Some items.
Proof.
  induction pre as [|[k' v] pre IH]; intros H; [reflexivity|].
  assert (Hv : Executor.is_sequence v = false) by (apply (H (k', v)); now left).
  destruct v; try discriminate; cbn [app Executor.first_sequence];
    apply IH; intros kv Hin; apply H; now right.
Qed.

(** C7.  The classification of a response body by the table extractor:
    an array is the dataset itself; a mapping with a sequence among its
    direct values yields the first of them (empty or not); a mapping
    with none (the empty mapping too) is wrapped as one record and
    summarized with one row; any other value yields no dataset.  No
    summary in the first, second and last case. *)
Theorem extract_classifies (name : string) :
  (forall A, extract (JArr A) name = ([(name, JArr A)], None))
  /\ (forall pre k L post,
      (forall kv, In kv pre -> Executor.is_sequence (snd kv) = false) ->
      extract (JObj (pre ++ (k, JArr L) :: post)) name = ([(name, JArr L)], None))
  /\ (forall fields,
      (forall kv, In kv fields -> Executor.is_sequence (snd kv) = false) ->
      exists summary,
        extract (JObj fields) name = ([(name, JArr [JObj fields])], Some summary)
        /\ Executor.rows summary = 1)
  /\ extract (JObj []) name
     = ([(name, JArr [JObj []])], Some (summarize [JObj []] name))
  /\ (forall v,
      match v with JArr _ | JObj _ => False | _ => True end ->
      extract v name = ([], None)).
Proof.
  unfold Executor.extract_tables_from_response.
  repeat split.
  - intros pre k L post Hpre. now rewrite first_sequence_found.
  - intros fields Hnone. rewrite (first_sequence_none fields Hnone).
    eexists. split; reflexivity.
  - intros v Hv. destruct v; try reflexivity; contradiction.
Qed.

(** What the scan takes is a prefix of what it reads, and, once it has
    taken a record, fits the budget. *)
Lemma scan_records_prefix (max_chars : Z) (rest acc : list json) :
  exists taken left,
    rest = taken ++ left
    /\ Executor.scan_records max_chars acc rest = acc ++ taken
    /\ (taken <> [] -> Json.serialized_size (JArr (acc ++ taken)) <= max_chars).
Proof.
  revert acc. induction rest as [|r rest IH]; intros acc.
  - exists [], [].
    split; [reflexivity|]. split; [now rewrite app_nil_r|].
    intros H. now contradiction H.
  - cbn [Executor.scan_records].
    destruct (Json.serialized_size (JArr (acc ++ [r])) <=? max_chars) eqn:Hfit.
    + destruct (IH (acc ++ [r])) as (taken & left & -> & Hscan & Hsize).
      exists (r :: taken), left. rewrite Hscan, <- app_assoc.
      split; [reflexivity|]. split; [reflexivity|].
      intros _. destruct taken as [|t taken].
      * apply Z.leb_le. exact Hfit.
      * rewrite <- app_assoc in Hsize. apply Hsize. discriminate.
    + exists [], (r :: rest).
      split; [reflexivity|]. split; [now rewrite app_nil_r|].
      intros H. now contradiction H.
Qed.

(** C6, as the model of the truncator has it.  A dataset whose
    serialized size is within the budget (the bound included) is
    returned whole and not truncated.  Otherwise the view is truncated:
    its records are a prefix, hence a subsequence, of whole records of
    the dataset, [showing] counts them, the summary is that of the full
    dataset, and the serialization of the view fits the budget whenever
    the budget admits the empty sequence, which takes 2 characters. *)
Theorem truncate_keeps_whole_records
  (D : list json) (name : string) (max_chars : Z) :
  let v := truncate D name max_chars in
  (Json.serialized_size (JArr D) <= max_chars ->
     Executor.truncated v = false /\ Executor.data v = D)
  /\ (max_chars < Json.serialized_size (JArr D) ->
      Executor.truncated v = true
      /\ (exists left, D = Executor.data v ++ left)
      /\ subsequence (Executor.data v) D
      /\ Executor.showing v = Some (Z.of_nat (length (Executor.data v)))
      /\ Executor.view_schema v = Some (Executor.schema (summarize D name))
      /\ Executor.total_rows v = Z.of_nat (length D)
      /\ (2 <= max_chars ->
          Json.serialized_size (JArr (Executor.data v)) <= max_chars)).
Proof.
  cbv zeta. unfold Executor.truncate_for_context.
  split; intros Hsize.
  - apply Z.leb_le in Hsize. rewrite Hsize. split; reflexivity.
  - apply Z.leb_gt in Hsize. rewrite Hsize.
    cbn [Executor.truncated Executor.data Executor.showing Executor.view_schema
         Executor.total_rows].
    destruct (scan_records_prefix max_chars D []) as (taken & left & HD & Hscan & Hfit).
    rewrite Hscan. cbn [app].
    split; [reflexivity|]. split; [now exists left|].
    split; [rewrite HD; apply subsequence_prefix|].
    split; [reflexivity|]. split; [reflexivity|]. split; [reflexivity|].
    intros Hempty. destruct taken as [|t taken]; [exact Hempty|].
    apply Hfit. discriminate.
Qed.

End ExecutorFacts.

Lemma extract_classifies_witness :
  Executor.extract_tables_from_response Samples.no_schema Samples.name_hint
    (JObj [("count", JInt 100); ("users", JArr [JObj [("id", JInt 1)]]);
           ("posts", JArr [])]) "api"
  = ([("api", JArr [JObj [("id", JInt 1)]])], None).
Proof.
  apply (proj1 (proj2 (extract_classifies Samples.no_schema Samples.name_hint "api"))
           [("count", JInt 100)] "users" [JObj [("id", JInt 1)]] [("posts", JArr [])]).
  intros kv [<- | []]. reflexivity.
Defined.

Lemma truncate_keeps_whole_records_witness :
  (Executor.truncated
     (Executor.truncate_for_context Samples.no_schema Samples.name_hint
        Samples.name_hint [JObj [("id", JInt 1)]] "test" 11) = false
   /\ Executor.data
        (Executor.truncate_for_context Samples.no_schema Samples.name_hint
           Samples.name_hint [JObj [("id", JInt 1)]] "test" 11)
      = [JObj [("id", JInt 1)]])
  /\ Json.serialized_size
       (JArr (Executor.data
                (Executor.truncate_for_context Samples.no_schema Samples.name_hint
                   Samples.name_hint
                   [JObj [("id", JInt 1)]; JObj [("id", JInt 2)]; JObj [("id", JInt 3)]]
                   "test" 25)))
     <= 25.
Proof.
  split.
  - apply (proj1 (truncate_keeps_whole_records Samples.no_schema Samples.name_hint
                    Samples.name_hint [JObj [("id", JInt 1)]] "test" 11)).
    vm_compute. discriminate.
  - apply (proj2 (truncate_keeps_whole_records Samples.no_schema Samples.name_hint
                    Samples.name_hint
                    [JObj [("id", JInt 1)]; JObj [("id", JInt 2)]; JObj [("id", JInt 3)]]
                    "test" 25)).
    + vm_compute. reflexivity.
    + vm_compute. discriminate.
Defined.

(** C6, as stated, fails for a budget below the size of the empty
    sequence: no view fits it. *)
Lemma truncate_tiny_budget :
  let v := Executor.truncate_for_context Samples.no_schema Samples.name_hint
             Samples.name_hint [JObj [("id", JInt 1)]] "test" 1 in
  Executor.truncated v = true
  /\ Executor.data v = []
  /\ Json.serialized_size (JArr (Executor.data v)) = 2
  /\ ~ Json.serialized_size (JArr (Executor.data v)) <= 1.
Proof.
  vm_compute. split; [reflexivity|]. split; [reflexivity|]. split; [reflexivity|].
  intros H. now apply H.
Qed.

(** ** Dictionaries *)

Lemma get_set_same (d : dict) (k : string) (v : json) :
  Json.get (Json.set d k v) k = v.
Proof.
  unfold Json.get.
  induction d as [|[k' v'] d IH]; cbn [Json.set Json.get_default].
  - now rewrite String.eqb_refl.
  - destruct (String.eqb k' k) eqn:E; cbn [Json.get_default]; rewrite E;
      [reflexivity | exact IH].
Qed.

Lemma set_set_same (d : dict) (k : string) (v w : json) :
  Json.set (Json.set d k v) k w = Json.set d k w.
Proof.
  induction d as [|[k' v'] d IH]; cbn [Json.set].
  - now rewrite String.eqb_refl.
  - destruct (String.eqb k' k) eqn:E; cbn [Json.set]; rewrite E;
      [reflexivity | now rewrite IH].
Qed.

Lemma set_get_same (d : dict) (k : string) (v : json) :
  Json.get d k = v -> v <> JNull -> Json.set d k v = d.
Proof.
  unfold Json.get.
  induction d as [|[k' v'] d IH]; cbn [Json.set Json.get_default]; intros Hg Hv.
  - congruence.
  - destruct (String.eqb k' k) eqn:E.
    + now subst.
    + now rewrite IH.
Qed.

Lemma get_default_found (d : dict) (k : string) (default v : json) :
  Json.get d k = v -> v <> JNull -> Json.get_default d k default = v.
Proof.
  unfold Json.get.
  induction d as [|[k' v'] d IH]; cbn [Json.get_default]; intros Hg Hv.
  - congruence.
  - destruct (String.eqb k' k); [assumption | now apply IH].
Qed.

(** ** The polling state machine *)

Section PollFacts.

Variable execute_request : list event -> request -> dict.
Variable cfg : settings.
Variable infer_schema : list json -> string.
Variable summary_hint : string -> string.
Variable truncation_hint : string -> string.
Variable ctx : RequestContext.
Variable the_base_url : string.
Variables (method path done_field done_value name : string).
Variables (pp qp : json) (max_polls wait_ms : Z).

Local Abbreviation request_of :=
  (poll_request ctx the_base_url method path pp qp).
Local Abbreviation record_of := (poll_record method path).
Local Abbreviation store :=
  (store_tables infer_schema summary_hint).
Local Abbreviation attempt_step :=
  (poll_attempt execute_request cfg infer_schema summary_hint truncation_hint
     ctx the_base_url method path done_field done_value name pp qp wait_ms).
Local Abbreviation loop :=
  (poll_loop execute_request cfg infer_schema summary_hint truncation_hint
     ctx the_base_url method path done_field done_value name pp qp max_polls wait_ms).
Local Abbreviation machine :=
  (poll_machine execute_request cfg infer_schema summary_hint truncation_hint
     ctx the_base_url method path done_field done_value name pp qp max_polls wait_ms).
Local Abbreviation done_payload attempt data :=
  (Json.set
     (Json.update [("success", JBool true)]
        (truncate_default cfg infer_schema summary_hint truncation_hint
           (wrap_rows data) name))
     "attempts" (JInt attempt)).

Lemma store_tables_returns (data : json) (s : session) :
  exists v s',
    store data name s = (Ok v, s')
    /\ trace s' = trace s /\ rest_calls s' = rest_calls s.
Proof.
  unfold store_tables.
  destruct (query_results s) as [results|]; [|now eauto].
  destruct (Executor.extract_tables_from_response infer_schema summary_hint data name)
    as [tables schema_info].
  destruct (Json.is_none (Json.get tables name)); [now eauto|].
  cbn [last_result with_query_results].
  destruct (last_result s); now eauto.
Qed.

Lemma track_call_after (s : session) (rq : request) (result record : dict) :
  track_call record (with_trace s (trace s ++ [Requested rq result]))
  = (Ok tt, after_request s rq result record).
Proof.
  unfold track_call, after_request. cbn [rest_calls with_trace].
  destruct (rest_calls s) as [calls|] eqn:E; cbn [option_map]; [reflexivity|].
  unfold with_rest_calls, with_trace. cbn. now rewrite E.
Qed.

(** One turn of the loop, case by case. *)
Lemma poll_attempt_cases (attempt : Z) (body_dict : json) (s : session) :
  let result := execute_request (trace s) (request_of body_dict) in
  let s1 := after_request s (request_of body_dict) result
              (record_of (attempt + 1) body_dict) in
  let data := Json.get_default result "data" (JObj []) in
  attempt_step attempt body_dict s =
    if negb (Json.truthy (Json.get result "success")) then
      (Ok (Return (REQUEST_FAILED,
                   [("success", JBool false); ("error", Json.get result "error");
                    ("attempt", JInt (attempt + 1))])), s1)
    else
      match _get_nested_value data done_field with
      | Raise e => (Raise e, s1)
      | Ok current =>
          if Json.is_none current && (attempt + 1 =? 1) then
            (Ok (Return (FIELD_MISSING,
                         [("success", JBool false);
                          ("error", JStr (field_missing_error done_field data))])), s1)
          else if is_done done_value current then
            (Ok (Return (DONE, done_payload (attempt + 1) data)),
             snd (store data name s1))
          else
            (match auto_increment body_dict with
             | Ok body_dict' => Ok (Continue current body_dict')
             | Raise e => Raise e
             end, after_sleep s1 wait_ms)
      end.
Proof.
  cbv zeta. unfold poll_attempt, bind at 1, do_request.
  unfold bind at 1. rewrite track_call_after.
  destruct (negb (Json.truthy (Json.get _ "success"))); [reflexivity|].
  unfold bind at 1, lift at 1.
  destruct (_get_nested_value _ done_field) as [current|e]; [|reflexivity].
  destruct (Json.is_none current && (attempt + 1 =? 1)); [reflexivity|].
  destruct (is_done done_value current).
  - unfold bind.
    destruct (store_tables_returns
                (Json.get_default
                   (execute_request (trace s) (request_of body_dict)) "data" (JObj []))
                (after_request s (request_of body_dict)
                   (execute_request (trace s) (request_of body_dict))
                   (record_of (attempt + 1) body_dict)))
      as (v & s' & -> & _). reflexivity.
  - unfold bind, sleep, lift, ret. cbn [fst snd].
    now destruct (auto_increment body_dict).
Qed.

(** The trace and the call log after one turn. *)
Lemma requests_in_app (t u : list event) :
  requests_in (t ++ u) = (requests_in t + requests_in u)%nat.
Proof. unfold requests_in. now rewrite filter_app, length_app. Qed.

Lemma trace_after_request (s : session) (rq : request) (result record : dict) :
  trace (after_request s rq result record) = trace s ++ [Requested rq result].
Proof. reflexivity. Qed.

Lemma trace_after_sleep (s : session) (ms : Z) :
  trace (after_sleep s ms) = trace s ++ [Slept ms].
Proof. reflexivity. Qed.

Lemma rest_calls_after_request (s : session) (rq : request) (result record : dict) :
  rest_calls (after_request s rq result record)
  = option_map (fun calls => calls ++ [record]) (rest_calls s).
Proof. reflexivity. Qed.

Lemma rest_calls_after_sleep (s : session) (ms : Z) :
  rest_calls (after_sleep s ms) = rest_calls s.
Proof. reflexivity. Qed.

Lemma is_done_spec (current : json) :
  is_done done_value current = true
  <-> PyStr.lower (Json.str current) = PyStr.lower done_value.
Proof. unfold is_done. apply String.eqb_eq. Qed.

Lemma first_attempt_guard (current : json) (attempt : Z) :
  current <> JNull \/ attempt + 1 <> 1 ->
  Json.is_none current && (attempt + 1 =? 1) = false.
Proof.
  intros [H | H].
  - apply is_none_false in H. now rewrite H.
  - apply Z.eqb_neq in H. rewrite H. apply andb_false_r.
Qed.

(** The loop goes on after an attempt that neither ends nor raises. *)
Lemma loop_continues (r : nat) (attempt : Z) (current body_dict : json) (s : session)
  (seen body_dict' : json) :
  let result := execute_request (trace s) (request_of body_dict) in
  Json.truthy (Json.get result "success") = true ->
  _get_nested_value (Json.get_default result "data" (JObj [])) done_field = Ok seen ->
  seen <> JNull \/ attempt + 1 <> 1 ->
  is_done done_value seen = false ->
  auto_increment body_dict = Ok body_dict' ->
  loop (S r) attempt current body_dict s
  = loop r (attempt + 1) seen body_dict'
      (after_sleep
         (after_request s (request_of body_dict) result
            (record_of (attempt + 1) body_dict)) wait_ms).
Proof.
  cbv zeta. intros Hs Hv Hg Hd Hi.
  cbn [poll_loop]. unfold bind at 1. rewrite poll_attempt_cases. cbv zeta.
  now rewrite Hs, Hv, (first_attempt_guard _ _ Hg), Hd, Hi.
Qed.

(** The loop ends [DONE] at an attempt whose value matches. *)
Lemma loop_done (r : nat) (attempt : Z) (current body_dict : json) (s : session)
  (seen : json) :
  let result := execute_request (trace s) (request_of body_dict) in
  let data := Json.get_default result "data" (JObj []) in
  Json.truthy (Json.get result "success") = true ->
  _get_nested_value data done_field = Ok seen ->
  seen <> JNull \/ attempt + 1 <> 1 ->
  is_done done_value seen = true ->
  loop (S r) attempt current body_dict s
  = (Ok (DONE, done_payload (attempt + 1) data),
     snd (store data name
            (after_request s (request_of body_dict) result
               (record_of (attempt + 1) body_dict)))).
Proof.
  cbv zeta. intros Hs Hv Hg Hd.
  cbn [poll_loop]. unfold bind at 1. rewrite poll_attempt_cases. cbv zeta.
  now rewrite Hs, Hv, (first_attempt_guard _ _ Hg), Hd.
Qed.

(** An attempt that reaches the comparison ends [DONE] exactly when the
    lowercased string forms are equal. *)
Lemma attempt_done_iff (attempt : Z) (body_dict : json) (s : session) (current : json) :
  let result := execute_request (trace s) (request_of body_dict) in
  Json.truthy (Json.get result "success") = true ->
  _get_nested_value (Json.get_default result "data" (JObj [])) done_field = Ok current ->
  current <> JNull \/ attempt + 1 <> 1 ->
  (exists payload s',
      attempt_step attempt body_dict s = (Ok (Return (DONE, payload)), s'))
  <-> PyStr.lower (Json.str current) = PyStr.lower done_value.
Proof.
  cbv zeta. intros Hs Hv Hg.
  rewrite poll_attempt_cases. cbv zeta.
  rewrite Hs, Hv, (first_attempt_guard _ _ Hg). cbn [negb].
  rewrite <- is_done_spec.
  destruct (is_done done_value current); split.
  - reflexivity.
  - intros _. eauto.
  - intros (payload & s' & H). destruct (auto_increment body_dict); discriminate.
  - discriminate.
Qed.

(** A capability that shows 2, 1 and 0 at [done_field] on the first three
    requests of the run, polled for [0]. *)
Lemma countdown_done_at_third (s : session) :
  done_value = "0" ->
  3 <= max_polls ->
  (forall k t rq,
      (k < 3)%nat -> requests_in t = (requests_in (trace s) + k)%nat ->
      Json.truthy (Json.get (execute_request t rq) "success") = true
      /\ _get_nested_value
           (Json.get_default (execute_request t rq) "data" (JObj [])) done_field
         = Ok (JInt (2 - Z.of_nat k))) ->
  exists payload s',
    machine (JObj []) s = (Ok (DONE, payload), s')
    /\ Json.get payload "attempts" = JInt 3
    /\ requests_in (trace s') = (requests_in (trace s) + 3)%nat.
Proof.
  intros Hdv Hmax Hcap. unfold poll_machine.
  destruct (Z.to_nat max_polls) as [|[|[|r]]] eqn:Hn; try lia.
  destruct (Hcap 0%nat (trace s) (request_of (JObj []))) as [Hs0 Hv0];
    [lia | lia |].
  erewrite loop_continues;
    [ | exact Hs0 | exact Hv0 | left; discriminate
      | rewrite Hdv; reflexivity | reflexivity ].
  set (s1 := after_sleep _ wait_ms).
  assert (Hr1 : requests_in (trace s1) = (requests_in (trace s) + 1)%nat).
  { subst s1. rewrite trace_after_sleep, trace_after_request, !requests_in_app.
    cbn. lia. }
  destruct (Hcap 1%nat (trace s1) (request_of (JObj []))) as [Hs1 Hv1];
    [lia | exact Hr1 |].
  erewrite loop_continues;
    [ | exact Hs1 | exact Hv1 | left; discriminate
      | rewrite Hdv; reflexivity | reflexivity ].
  set (s2 := after_sleep _ wait_ms).
  assert (Hr2 : requests_in (trace s2) = (requests_in (trace s) + 2)%nat).
  { subst s2. rewrite trace_after_sleep, trace_after_request, !requests_in_app.
    rewrite Hr1. cbn. lia. }
  destruct (Hcap 2%nat (trace s2) (request_of (JObj []))) as [Hs2 Hv2];
    [lia | exact Hr2 |].
  erewrite loop_done;
    [ | exact Hs2 | exact Hv2 | left; discriminate | rewrite Hdv; reflexivity ].
  eexists. eexists. split; [reflexivity|]. split.
  - apply get_set_same.
  - match goal with
    | |- context [store ?d name ?x] =>
        destruct (store_tables_returns d x) as (v & s' & -> & Ht & _)
    end.
    cbn [snd]. rewrite Ht, trace_after_request, requests_in_app, Hr2. cbn. lia.
Qed.

End PollFacts.

(** ** Whole runs of the machine *)

Section PollRuns.

Variable execute_request : list event -> request -> dict.
Variable cfg : settings.
Variable infer_schema : list json -> string.
Variable summary_hint : string -> string.
Variable truncation_hint : string -> string.
Variable ctx : RequestContext.
Variable the_base_url : string.
Variables (method path done_field done_value name : string).
Variables (pp qp : json) (max_polls wait_ms : Z).

Local Abbreviation request_of :=
  (poll_request ctx the_base_url method path pp qp).
Local Abbreviation record_of := (poll_record method path).
Local Abbreviation store :=
  (store_tables infer_schema summary_hint).
Local Abbreviation attempt_step :=
  (poll_attempt execute_request cfg infer_schema summary_hint truncation_hint
     ctx the_base_url method path done_field done_value name pp qp wait_ms).
Local Abbreviation loop :=
  (poll_loop execute_request cfg infer_schema summary_hint truncation_hint
     ctx the_base_url method path done_field done_value name pp qp max_polls wait_ms).
Local Abbreviation machine :=
  (poll_machine execute_request cfg infer_schema summary_hint truncation_hint
     ctx the_base_url method path done_field done_value name pp qp max_polls wait_ms).
Local Abbreviation response s body_dict :=
  (execute_request (trace s) (request_of body_dict)).
Local Abbreviation data_of result := (Json.get_default result "data" (JObj [])).

(** The text of the [FIELD_MISSING] error. *)
Lemma field_missing_error_mentions (data : json) :
  PyStr.mentions done_field (field_missing_error done_field data)
  /\ (forall d k,
      data = JObj d -> In k (Json.keys d) ->
      PyStr.mentions (PyStr.repr k) (field_missing_error done_field data)).
Proof.
  unfold field_missing_error. split.
  - apply mentions_fstr. cbn. tauto.
  - intros d k -> Hk.
    apply (mentions_trans _ (Json.str_of_keys (Json.keys d)));
      [|apply mentions_fstr; cbn; tauto].
    unfold Json.str_of_keys.
    apply (mentions_trans _ (PyStr.join ", " (map PyStr.repr (Json.keys d))));
      [|apply mentions_fstr; cbn; tauto].
    apply mentions_join. now apply in_map.
Qed.

(** The first attempt ends [FIELD_MISSING] when its response has no
    value at the done field. *)
Lemma first_attempt_field_missing (r : nat) (current body_dict : json) (s : session) :
  Json.truthy (Json.get (response s body_dict) "success") = true ->
  _get_nested_value (data_of (response s body_dict)) done_field = Ok JNull ->
  loop (S r) 0 current body_dict s
  = (Ok (FIELD_MISSING,
         [("success", JBool false);
          ("error",
           JStr (field_missing_error done_field (data_of (response s body_dict))))]),
     after_request s (request_of body_dict) (response s body_dict)
       (record_of 1 body_dict)).
Proof.
  intros Hs Hv. cbn [poll_loop]. unfold bind at 1.
  rewrite poll_attempt_cases. cbv zeta. now rewrite Hs, Hv.
Qed.

(** No attempt but the first ends [FIELD_MISSING]. *)
Lemma later_attempt_not_field_missing (attempt : Z) (body_dict : json) (s : session) :
  attempt <> 0 ->
  forall payload s',
    attempt_step attempt body_dict s <> (Ok (Return (FIELD_MISSING, payload)), s').
Proof.
  intros Ha payload s'. rewrite poll_attempt_cases. cbv zeta.
  destruct (negb _); [discriminate|].
  destruct (_get_nested_value _ done_field) as [current|e]; [|discriminate].
  replace (attempt + 1 =? 1) with false by (symmetry; apply Z.eqb_neq; lia).
  rewrite andb_false_r.
  destruct (is_done done_value current); [discriminate|].
  destruct (auto_increment body_dict); discriminate.
Qed.

Lemma later_loop_not_field_missing (r : nat) :
  forall attempt current body_dict s payload s',
    0 < attempt ->
    loop r attempt current body_dict s <> (Ok (FIELD_MISSING, payload), s').
Proof.
  induction r as [|r IH]; intros attempt current body_dict s payload s' Ha.
  - discriminate.
  - cbn [poll_loop]. unfold bind at 1.
    destruct (attempt_step attempt body_dict s) as [[[o|seen body']|e] s1] eqn:E.
    + unfold ret. intros H. injection H as -> ->.
      eapply (later_attempt_not_field_missing attempt); [lia | exact E].
    + apply IH. lia.
    + discriminate.
Qed.

(** A run that ends [FIELD_MISSING] has issued one request. *)
Lemma field_missing_after_one_request (r : nat) (current body_dict : json)
  (s s' : session) (payload : dict) :
  loop r 0 current body_dict s = (Ok (FIELD_MISSING, payload), s') ->
  trace s' = trace s ++ [Requested (request_of body_dict) (response s body_dict)].
Proof.
  destruct r as [|r]; [discriminate|].
  cbn [poll_loop]. unfold bind at 1.
  destruct (attempt_step 0 body_dict s) as [[[o|seen body']|e] s1] eqn:E.
  - unfold ret. intros H. injection H as -> ->.
    rewrite poll_attempt_cases in E. cbv zeta in E.
    destruct (negb _); [discriminate|].
    destruct (_get_nested_value _ done_field) as [seen|e]; [|discriminate].
    destruct (Json.is_none seen && (0 + 1 =? 1)).
    + now injection E as _ <-.
    + destruct (is_done done_value seen); [discriminate|].
      destruct (auto_increment body_dict); discriminate.
  - intros H. now apply later_loop_not_field_missing in H.
  - discriminate.
Qed.

(** C2.  A run whose first response succeeds and has no value at the
    done field ends [FIELD_MISSING] at attempt 1, after that one
    request, with an error that has the path and the top-level keys of
    the response in it; no attempt after the first ends
    [FIELD_MISSING]. *)
Theorem poll_field_missing_first_only :
  (forall body_dict s,
      0 < max_polls ->
      Json.truthy (Json.get (response s body_dict) "success") = true ->
      _get_nested_value (data_of (response s body_dict)) done_field = Ok JNull ->
      let error := field_missing_error done_field (data_of (response s body_dict)) in
      machine body_dict s
      = (Ok (FIELD_MISSING, [("success", JBool false); ("error", JStr error)]),
         after_request s (request_of body_dict) (response s body_dict)
           (record_of 1 body_dict))
      /\ PyStr.mentions done_field error
      /\ (forall d k,
          data_of (response s body_dict) = JObj d -> In k (Json.keys d) ->
          PyStr.mentions (PyStr.repr k) error))
  /\ (forall attempt body_dict s payload s',
      attempt <> 0 ->
      attempt_step attempt body_dict s <> (Ok (Return (FIELD_MISSING, payload)), s'))
  /\ (forall body_dict s payload s',
      machine body_dict s = (Ok (FIELD_MISSING, payload), s') ->
      trace s' = trace s ++ [Requested (request_of body_dict) (response s body_dict)]).
Proof.
  split; [|split].
  - intros body_dict s Hmax Hs Hv error. unfold poll_machine.
    destruct (Z.to_nat max_polls) as [|r] eqn:Hn; [lia|].
    split; [now apply first_attempt_field_missing|].
    apply field_missing_error_mentions.
  - intros attempt body_dict s payload s' Ha.
    now apply later_attempt_not_field_missing.
  - intros body_dict s payload s'. apply field_missing_after_one_request.
Qed.

(** The auto-increment step. *)
Lemma get_default_set_same (d : dict) (k : string) (v default : json) :
  Json.get_default (Json.set d k v) k default = v.
Proof.
  induction d as [|[k' v'] d IH]; cbn [Json.set Json.get_default].
  - now rewrite String.eqb_refl.
  - destruct (String.eqb k' k) eqn:E; cbn [Json.get_default]; rewrite E;
      [reflexivity | exact IH].
Qed.

Lemma add_one_shape (v w : json) : add_one v = Ok w -> exists m, w = JInt m.
Proof.
  destruct v; cbn [add_one]; intros H; try discriminate;
    injection H as <-; eauto.
Qed.

(** A body that came out of the auto-increment goes through it again. *)
Lemma auto_increment_again (prev body_dict : json) :
  auto_increment prev = Ok body_dict ->
  exists body_dict', auto_increment body_dict = Ok body_dict'.
Proof.
  unfold auto_increment at 1.
  destruct (as_dict prev) as [b|e] eqn:Hb; [|discriminate].
  destruct (as_dict (Json.get_default b "polling" (JObj []))) as [p|e] eqn:Hp;
    [|discriminate].
  destruct (Json.is_none (Json.get p "count")) eqn:Hc.
  - intros H. injection H as <-. unfold auto_increment.
    rewrite Hb, Hp, Hc. eauto.
  - destruct (add_one (Json.get p "count")) as [c'|e] eqn:Ha; [|discriminate].
    intros H. injection H as <-.
    destruct (add_one_shape _ _ Ha) as (m & ->).
    unfold auto_increment. cbn [as_dict].
    rewrite get_default_set_same. cbn [as_dict].
    rewrite get_set_same. cbn [Json.is_none add_one]. eauto.
Qed.




(** *** The bodies a run sends *)


Lemma set_not_nil (d : dict) (k : string) (v : json) : Json.set d k v <> [].
Proof.
  destruct d as [|[k' v'] d]; cbn [Json.set]; [discriminate|].
  destruct (String.eqb k' k); discriminate.
Qed.

Lemma get_default_not_default (d : dict) (k : string) (default v : json) :
  Json.get_default d k default = v -> v <> default -> Json.get d k = v.
Proof.
  unfold Json.get.
  induction d as [|[k' v'] d IH]; cbn [Json.get_default]; intros Hg Hv.
  - congruence.
  - destruct (String.eqb k' k); [assumption | now apply IH].
Qed.

(** A body has the number [n] at [polling.count] exactly when it is a
    mapping whose [polling] is a mapping with [count] bound to [n]. *)
Lemma has_count_shape (body_dict : json) (n : Z) :
  _get_nested_value body_dict "polling.count" = Ok (JInt n) ->
  exists b polling,
    body_dict = JObj b
    /\ Json.get b "polling" = JObj polling
    /\ Json.get polling "count" = JInt n.
Proof.
  unfold _get_nested_value.
  change (PyStr.split "." "polling.count") with ["polling"; "count"].
  destruct (negb (Json.truthy body_dict) || negb (PyStr.truthy "polling.count"));
    [discriminate|].
  destruct body_dict as [| x | x | x | items | b]; try discriminate.
  cbn [_get_nested_loop].
  destruct (Json.is_none (Json.get b "polling")); [discriminate|].
  destruct (Json.get b "polling") as [| x | x | x | items | polling] eqn:Hp;
    try discriminate.
  cbn [_get_nested_loop].
  destruct (Json.is_none (Json.get polling "count")); [discriminate|].
  intros H. injection H as H. now exists b, polling.
Qed.

Lemma with_count_at (b polling : dict) (m : Z) :
  Json.get b "polling" = JObj polling ->
  with_count (JObj b) m
  = JObj (Json.set b "polling" (JObj (Json.set polling "count" (JInt m)))).
Proof. intros H. unfold with_count. now rewrite H. Qed.

Lemma with_count_again (b polling : dict) (m m' : Z) :
  Json.get b "polling" = JObj polling ->
  with_count (with_count (JObj b) m) m' = with_count (JObj b) m'.
Proof.
  intros H. rewrite !(with_count_at b polling) by assumption.
  unfold with_count. rewrite get_set_same, !set_set_same. reflexivity.
Qed.

Lemma with_count_same (b polling : dict) (n : Z) :
  Json.get b "polling" = JObj polling ->
  Json.get polling "count" = JInt n ->
  with_count (JObj b) n = JObj b.
Proof.
  intros Hp Hc. rewrite (with_count_at b polling) by assumption.
  rewrite (set_get_same polling "count" (JInt n) Hc) by discriminate.
  rewrite (set_get_same b "polling" (JObj polling) Hp) by discriminate.
  reflexivity.
Qed.

Lemma get_count_with_count (b polling : dict) (m : Z) :
  Json.get b "polling" = JObj polling ->
  _get_nested_value (with_count (JObj b) m) "polling.count" = Ok (JInt m).
Proof.
  intros Hp. rewrite (with_count_at b polling) by assumption.
  unfold _get_nested_value.
  change (PyStr.split "." "polling.count") with ["polling"; "count"].
  cbn [Json.truthy PyStr.truthy].
  destruct (Json.set b "polling" (JObj (Json.set polling "count" (JInt m))))
    as [|kv d] eqn:E; [now apply set_not_nil in E|].
  rewrite <- E. cbn [negb orb _get_nested_loop].
  rewrite get_set_same. cbn [Json.is_none _get_nested_loop].
  rewrite get_set_same. reflexivity.
Qed.

Lemma truthy_with_count (b polling : dict) (m : Z) :
  Json.get b "polling" = JObj polling ->
  Json.truthy (with_count (JObj b) m) = true.
Proof.
  intros Hp. rewrite (with_count_at b polling) by assumption.
  cbn [Json.truthy].
  destruct (Json.set b "polling" (JObj (Json.set polling "count" (JInt m))))
    as [|kv d] eqn:E; [now apply set_not_nil in E | reflexivity].
Qed.

(** The auto-increment adds one to the count, in place. *)
Lemma auto_increment_count (body_dict : json) (n : Z) :
  _get_nested_value body_dict "polling.count" = Ok (JInt n) ->
  auto_increment body_dict = Ok (with_count body_dict (n + 1)).
Proof.
  intros H. destruct (has_count_shape _ _ H) as (b & polling & -> & Hp & Hc).
  unfold auto_increment. cbn [as_dict].
  rewrite (get_default_found b "polling" (JObj []) (JObj polling) Hp) by discriminate.
  cbn [as_dict]. rewrite Hc. cbn [Json.is_none add_one].
  now rewrite (with_count_at b polling).
Qed.

(** The auto-increment leaves a body without [polling.count] as it is. *)
Lemma auto_increment_no_count (body_dict body_dict' : json) :
  _get_nested_value body_dict "polling.count" = Ok JNull ->
  auto_increment body_dict = Ok body_dict' ->
  body_dict' = body_dict.
Proof.
  intros Hget. unfold auto_increment.
  destruct (as_dict body_dict) as [b|e] eqn:Hb; [|discriminate].
  destruct (as_dict (Json.get_default b "polling" (JObj []))) as [polling|e] eqn:Hp;
    [|discriminate].
  destruct (Json.is_none (Json.get polling "count")) eqn:Hc; [congruence|].
  exfalso.
  destruct body_dict as [| x | x | x | items | b0]; try discriminate.
  injection Hb as ->.
  destruct (Json.get_default b "polling" (JObj [])) as [| x | x | x | items | p0] eqn:Hd;
    try discriminate.
  injection Hp as ->.
  assert (Hne : JObj polling <> JObj []).
  { intros E. injection E as ->. discriminate. }
  pose proof (get_default_not_default b "polling" (JObj []) (JObj polling) Hd Hne)
    as Hg.
  assert (Hb : b <> []) by (intros ->; discriminate).
  revert Hget. unfold _get_nested_value.
  change (PyStr.split "." "polling.count") with ["polling"; "count"].
  cbn [Json.truthy PyStr.truthy].
  destruct b as [|kv b]; [congruence|]. cbn [negb orb _get_nested_loop].
  rewrite Hg. cbn [Json.is_none _get_nested_loop]. rewrite Hc.
  intros H. injection H as H. rewrite H in Hc. discriminate.
Qed.

(** The bodies of the requests of a run, when the auto-increment takes
    the body along the sequence [f]. *)
Lemma loop_bodies (f : nat -> json) :
  (forall k b', auto_increment (f k) = Ok b' -> b' = f (S k)) ->
  forall r attempt current j s,
  exists new,
    trace (snd (loop r attempt current (f j) s)) = trace s ++ new
    /\ forall k bk,
        nth_error (bodies_sent new) k = Some bk ->
        bk = rq_body (request_of (f (j + k)%nat)).
Proof.
  intros Hf. induction r as [|r IH]; intros attempt current j s.
  - exists []. cbn [poll_loop ret snd]. rewrite app_nil_r. split; [reflexivity|].
    intros [|k] bk; discriminate.
  - cbn [poll_loop]. unfold bind at 1.
    rewrite poll_attempt_cases. cbv zeta.
    set (result := response s (f j)).
    set (s1 := after_request s (request_of (f j)) result (record_of (attempt + 1) (f j))).
    assert (Hone : forall s', trace s' = trace s1 ->
              exists new,
                trace s' = trace s ++ new
                /\ forall k bk,
                    nth_error (bodies_sent new) k = Some bk ->
                    bk = rq_body (request_of (f (j + k)%nat))).
    { intros s' Hs'. exists [Requested (request_of (f j)) result].
      split; [now rewrite Hs'|].
      intros [|[|k]] bk; cbn; intros H; try discriminate.
      injection H as <-. now rewrite Nat.add_0_r. }
    destruct (negb (Json.truthy (Json.get result "success")));
      [now apply Hone|].
    destruct (_get_nested_value (data_of result) done_field) as [seen|e];
      [|now apply Hone].
    destruct (Json.is_none seen && (attempt + 1 =? 1)); [now apply Hone|].
    destruct (is_done done_value seen).
    + apply Hone. unfold ret. cbn [snd].
      destruct (store_tables_returns infer_schema summary_hint name
                  (data_of result) s1) as (v & s' & -> & Ht & _).
      exact Ht.
    + destruct (auto_increment (f j)) as [b'|e] eqn:Hinc.
      * rewrite (Hf j b' Hinc).
        destruct (IH (attempt + 1) seen (S j) (after_sleep s1 wait_ms))
          as (new & Hnew & Hbodies).
        exists ([Requested (request_of (f j)) result; Slept wait_ms] ++ new).
        split.
        -- rewrite Hnew. unfold s1.
           rewrite trace_after_sleep, trace_after_request, <- !app_assoc.
           reflexivity.
        -- intros [|k] bk; cbn; intros H.
           ++ injection H as <-. now rewrite Nat.add_0_r.
           ++ rewrite (Hbodies k bk H). now rewrite Nat.add_succ_r.
      * exists [Requested (request_of (f j)) result; Slept wait_ms].
        split.
        -- cbn [snd]. unfold s1.
           rewrite trace_after_sleep, trace_after_request, <- !app_assoc.
           reflexivity.
        -- intros [|[|k]] bk; cbn; intros H; try discriminate.
           injection H as <-. now rewrite Nat.add_0_r.
Qed.

(** A body with the number [n] at [polling.count]: the requests of a run
    carry [n], [n + 1], [n + 2], ... there, the rest of the body
    unchanged. *)
Lemma count_run (body_dict : json) (n : Z) :
  _get_nested_value body_dict "polling.count" = Ok (JInt n) ->
  forall r attempt current s,
  exists new,
    trace (snd (loop r attempt current body_dict s)) = trace s ++ new
    /\ forall k bk,
        nth_error (bodies_sent new) k = Some bk ->
        bk = with_count body_dict (n + Z.of_nat k).
Proof.
  intros H r attempt current s.
  destruct (has_count_shape _ _ H) as (b & polling & -> & Hp & Hc).
  destruct (loop_bodies (fun k => with_count (JObj b) (n + Z.of_nat k))) with
    (r := r) (attempt := attempt) (current := current) (j := 0%nat) (s := s)
    as (new & Hnew & Hbodies).
  - intros k b' Hinc. cbn beta in Hinc |- *.
    pose proof (auto_increment_count _ (n + Z.of_nat k)
                  (get_count_with_count b polling (n + Z.of_nat k) Hp)) as Hexp.
    assert (E : b' = with_count (with_count (JObj b) (n + Z.of_nat k))
                       (n + Z.of_nat k + 1)) by congruence.
    rewrite E, (with_count_again b polling) by assumption.
    f_equal. lia.
  - cbn beta in Hnew. rewrite Z.add_0_r in Hnew.
    rewrite (with_count_same b polling n Hp Hc) in Hnew.
    exists new. split; [exact Hnew|].
    intros k bk Hk. rewrite (Hbodies k bk Hk). cbn [rq_body poll_request Nat.add].
    now rewrite (truthy_with_count b polling).
Qed.

Lemma count_step (body_dict : json) (n : Z) (attempt : Z) (s s' : session)
  (seen body_dict' : json) :
  _get_nested_value body_dict "polling.count" = Ok (JInt n) ->
  attempt_step attempt body_dict s = (Ok (Continue seen body_dict'), s') ->
  body_dict' = with_count body_dict (n + 1)
  /\ _get_nested_value body_dict' "polling.count" = Ok (JInt (n + 1))
  /\ rq_body (request_of body_dict) = body_dict
  /\ trace s'
     = trace s ++ [Requested (request_of body_dict) (response s body_dict);
                   Slept wait_ms].
Proof.
  intros H. rewrite poll_attempt_cases. cbv zeta.
  destruct (negb _); [discriminate|].
  destruct (_get_nested_value _ done_field) as [v|e]; [|discriminate].
  destruct (Json.is_none v && (attempt + 1 =? 1)); [discriminate|].
  destruct (is_done done_value v); [discriminate|].
  rewrite (auto_increment_count _ _ H).
  intros E. injection E as <- <- <-.
  destruct (has_count_shape _ _ H) as (b & polling & -> & Hp & Hc).
  split; [reflexivity|].
  split; [now apply (get_count_with_count b polling)|].
  split.
  - cbn [rq_body poll_request]. destruct b; [discriminate Hp | reflexivity].
  - rewrite trace_after_sleep, trace_after_request, <- app_assoc. reflexivity.
Qed.

(** A body without [polling.count] is sent as it is at every attempt. *)
Lemma no_count_run (body_dict : json) :
  _get_nested_value body_dict "polling.count" = Ok JNull ->
  forall r attempt current s,
  exists new,
    trace (snd (loop r attempt current body_dict s)) = trace s ++ new
    /\ forall k bk,
        nth_error (bodies_sent new) k = Some bk ->
        bk = rq_body (request_of body_dict).
Proof.
  intros H r attempt current s.
  destruct (loop_bodies (fun _ => body_dict)) with
    (r := r) (attempt := attempt) (current := current) (j := 0%nat) (s := s)
    as (new & Hnew & Hbodies).
  - intros _ b' Hinc. now apply auto_increment_no_count.
  - now exists new.
Qed.

Lemma no_count_step (body_dict : json) (attempt : Z) (s s' : session)
  (seen body_dict' : json) :
  _get_nested_value body_dict "polling.count" = Ok JNull ->
  attempt_step attempt body_dict s = (Ok (Continue seen body_dict'), s') ->
  body_dict' = body_dict.
Proof.
  intros H. rewrite poll_attempt_cases. cbv zeta.
  destruct (negb _); [discriminate|].
  destruct (_get_nested_value _ done_field) as [v|e]; [|discriminate].
  destruct (Json.is_none v && (attempt + 1 =? 1)); [discriminate|].
  destruct (is_done done_value v); [discriminate|].
  destruct (auto_increment body_dict) as [b'|e] eqn:Hinc; [|discriminate].
  intros E. injection E as _ <- _. now apply auto_increment_no_count.
Qed.

(** *** The call log of a run *)

Lemma option_map_app (calls : option (list dict)) (recs more : list dict) :
  option_map (fun c => c ++ more) (option_map (fun c => c ++ recs) calls)
  = option_map (fun c => c ++ recs ++ more) calls.
Proof. destruct calls; cbn; [now rewrite <- app_assoc | reflexivity]. Qed.

Lemma exhausted_error_mentions (current : json) :
  let error := exhausted_error done_field done_value max_polls current in
  PyStr.mentions (Json.str current) error
  /\ PyStr.mentions done_field error
  /\ PyStr.mentions done_value error
  /\ PyStr.mentions (PyStr.str_of_int max_polls) error.
Proof.
  cbv zeta. unfold exhausted_error.
  repeat split; apply mentions_fstr; cbn; tauto.
Qed.

(** Every attempt is recorded, whatever its outcome: a run of at most
    [r] attempts appends one record per request, at most [r] of them,
    and exactly [r] when it ends [EXHAUSTED]; the error then carries the
    value seen at the last attempt. *)
Lemma loop_log (r : nat) :
  forall attempt current body_dict s,
  exists recs new,
    rest_calls (snd (loop r attempt current body_dict s))
    = option_map (fun calls => calls ++ recs) (rest_calls s)
    /\ trace (snd (loop r attempt current body_dict s)) = trace s ++ new
    /\ length recs = requests_in new
    /\ (length recs <= r)%nat
    /\ forall payload,
        fst (loop r attempt current body_dict s) = Ok (EXHAUSTED, payload) ->
        length recs = r
        /\ exists last,
            payload
            = [("success", JBool false);
               ("error", JStr (exhausted_error done_field done_value max_polls last));
               ("attempts", JInt (attempt + Z.of_nat r))]
            /\ (r = 0%nat -> last = current)
            /\ (r <> 0%nat ->
                exists earlier rq result,
                  new = earlier ++ [Requested rq result; Slept wait_ms]
                  /\ _get_nested_value (data_of result) done_field = Ok last).
Proof.
  induction r as [|r IH]; intros attempt current body_dict s.
  - exists [], []. cbn [poll_loop ret snd fst].
    split; [now destruct (rest_calls s); cbn; rewrite ?app_nil_r|].
    split; [now rewrite app_nil_r|].
    split; [reflexivity|]. split; [reflexivity|].
    intros payload H. injection H as <-.
    split; [reflexivity|]. exists current.
    split; [now rewrite Z.add_0_r|]. split; [reflexivity | congruence].
  - cbn [poll_loop]. unfold bind at 1 2 3.
    rewrite poll_attempt_cases. cbv zeta.
    set (result := response s body_dict).
    set (record := record_of (attempt + 1) body_dict).
    set (s1 := after_request s (request_of body_dict) result record).
    assert (Hone : forall (o : res outcome) s',
              rest_calls s' = rest_calls s1 -> trace s' = trace s1 ->
              (forall payload, o <> Ok (EXHAUSTED, payload)) ->
              exists recs new,
                rest_calls s' = option_map (fun calls => calls ++ recs) (rest_calls s)
                /\ trace s' = trace s ++ new
                /\ length recs = requests_in new
                /\ (length recs <= S r)%nat
                /\ forall payload,
                    o = Ok (EXHAUSTED, payload) ->
                    length recs = S r
                    /\ exists last,
                        payload
                        = [("success", JBool false);
                           ("error",
                            JStr (exhausted_error done_field done_value max_polls last));
                           ("attempts", JInt (attempt + Z.of_nat (S r)))]
                        /\ (S r = 0%nat -> last = current)
                        /\ (S r <> 0%nat ->
                            exists earlier rq result0,
                              new = earlier ++ [Requested rq result0; Slept wait_ms]
                              /\ _get_nested_value (data_of result0) done_field
                                 = Ok last)).
    { intros o s' Hc Ht Hne. exists [record], [Requested (request_of body_dict) result].
      split; [now rewrite Hc|]. split; [now rewrite Ht|].
      split; [reflexivity|]. split; [cbn; lia|].
      intros payload H. now apply Hne in H. }
    destruct (negb (Json.truthy (Json.get result "success")));
      [apply Hone; [reflexivity | reflexivity | discriminate]|].
    destruct (_get_nested_value (data_of result) done_field) as [seen|e] eqn:Hseen;
      [|apply Hone; [reflexivity | reflexivity | discriminate]].
    destruct (Json.is_none seen && (attempt + 1 =? 1));
      [apply Hone; [reflexivity | reflexivity | discriminate]|].
    destruct (is_done done_value seen).
    + destruct (store_tables_returns infer_schema summary_hint name
                  (data_of result) s1) as (v & s' & Hst & Ht & Hc).
      unfold ret. cbn [snd fst]. rewrite Hst. cbn [snd].
      apply Hone; [exact Hc | exact Ht | discriminate].
    + destruct (auto_increment body_dict) as [b'|e].
      * destruct (IH (attempt + 1) seen b' (after_sleep s1 wait_ms))
          as (recs & new & Hc & Ht & Hlen & Hle & Hex).
        exists (record :: recs),
          ([Requested (request_of body_dict) result; Slept wait_ms] ++ new).
        split.
        { rewrite Hc, rest_calls_after_sleep. unfold s1.
          rewrite rest_calls_after_request. apply option_map_app. }
        split.
        { rewrite Ht, trace_after_sleep. unfold s1.
          rewrite trace_after_request, <- !app_assoc. reflexivity. }
        split; [rewrite requests_in_app; cbn; now rewrite Hlen|].
        split; [cbn; lia|].
        intros payload H. destruct (Hex payload H) as (Hr & last & Hp & H0 & Hpos).
        split; [cbn; now rewrite Hr|].
        exists last.
        split;
          [rewrite Hp;
           now replace (attempt + Z.of_nat (S r)) with (attempt + 1 + Z.of_nat r) by lia|].
        split; [discriminate|]. intros _.
        destruct r as [|r'].
        -- rewrite (H0 eq_refl).
           destruct recs; [|discriminate]. destruct new as [|ev new].
           ++ exists [], (request_of body_dict), result. split; [reflexivity | exact Hseen].
           ++ exfalso. clear - Hlen Hle Ht Hex H.
              cbn [poll_loop ret snd] in Ht.
              apply (f_equal (@length event)) in Ht.
              rewrite length_app in Ht. cbn in Ht. lia.
        -- destruct Hpos as (earlier & rq & result0 & -> & Hlast); [discriminate|].
           exists ([Requested (request_of body_dict) result; Slept wait_ms] ++ earlier),
             rq, result0.
           split; [now rewrite <- app_assoc | exact Hlast].
      * exists [record], [Requested (request_of body_dict) result; Slept wait_ms].
        cbn [snd fst].
        split; [now rewrite rest_calls_after_sleep|].
        split.
        { rewrite trace_after_sleep. unfold s1.
          rewrite trace_after_request, <- app_assoc. reflexivity. }
        split; [reflexivity|]. split; [cbn; lia|]. discriminate.
Qed.

(** With responses that never match and never lack the done field, the
    loop runs to exhaustion, provided the body passes the
    auto-increment. *)
Lemma never_match_exhausts (r : nat) :
  (forall t rq,
      Json.truthy (Json.get (execute_request t rq) "success") = true
      /\ exists seen,
          _get_nested_value (data_of (execute_request t rq)) done_field = Ok seen
          /\ seen <> JNull /\ is_done done_value seen = false) ->
  forall attempt current body_dict s,
    (exists body_dict', auto_increment body_dict = Ok body_dict') ->
    exists payload s',
      loop r attempt current body_dict s = (Ok (EXHAUSTED, payload), s').
Proof.
  intros Hcap. induction r as [|r IH]; intros attempt current body_dict s (b' & Hinc).
  - cbn [poll_loop]. unfold ret. eauto.
  - destruct (Hcap (trace s) (request_of body_dict))
      as (Hs & seen & Hv & Hnn & Hnd).
    rewrite (loop_continues execute_request cfg infer_schema summary_hint
               truncation_hint ctx the_base_url method path done_field done_value
               name pp qp max_polls wait_ms r attempt current body_dict s seen b'
               Hs Hv (or_introl Hnn) Hnd Hinc).
    apply IH. now apply (auto_increment_again body_dict).
Qed.

(** The call log of a run of the machine: at most [max_polls] records,
    one per request; exactly [max_polls] when the run ends [EXHAUSTED],
    whose error has the last value, the path, the done value and the
    count in it; and responses that never match exhaust the machine when
    the body passes the auto-increment. *)
Lemma poll_logs_every_attempt (body_dict : json) (s : session) (calls : list dict) :
  0 <= max_polls ->
  rest_calls s = Some calls ->
  exists recs new,
    rest_calls (snd (machine body_dict s)) = Some (calls ++ recs)
    /\ trace (snd (machine body_dict s)) = trace s ++ new
    /\ length recs = requests_in new
    /\ Z.of_nat (length recs) <= max_polls
    /\ (forall payload,
        fst (machine body_dict s) = Ok (EXHAUSTED, payload) ->
        Z.of_nat (length recs) = max_polls
        /\ exists last,
            payload
            = [("success", JBool false);
               ("error", JStr (exhausted_error done_field done_value max_polls last));
               ("attempts", JInt max_polls)]
            /\ PyStr.mentions (Json.str last)
                 (exhausted_error done_field done_value max_polls last)
            /\ PyStr.mentions done_field
                 (exhausted_error done_field done_value max_polls last)
            /\ PyStr.mentions done_value
                 (exhausted_error done_field done_value max_polls last)
            /\ PyStr.mentions (PyStr.str_of_int max_polls)
                 (exhausted_error done_field done_value max_polls last)
            /\ (0 < max_polls ->
                exists earlier rq result,
                  new = earlier ++ [Requested rq result; Slept wait_ms]
                  /\ _get_nested_value (data_of result) done_field = Ok last))
    /\ ((forall t rq,
           Json.truthy (Json.get (execute_request t rq) "success") = true
           /\ exists seen,
               _get_nested_value (data_of (execute_request t rq)) done_field = Ok seen
               /\ seen <> JNull /\ is_done done_value seen = false) ->
        (exists body_dict', auto_increment body_dict = Ok body_dict') ->
        exists payload, fst (machine body_dict s) = Ok (EXHAUSTED, payload)).
Proof.
  intros Hmax Hcalls. unfold poll_machine.
  destruct (loop_log (Z.to_nat max_polls) 0 JNull body_dict s)
    as (recs & new & Hc & Ht & Hlen & Hle & Hex).
  exists recs, new. rewrite Hcalls in Hc.
  split; [exact Hc|]. split; [exact Ht|]. split; [exact Hlen|]. split; [lia|].
  split.
  - intros payload H. destruct (Hex payload H) as (Hr & last & Hp & _ & Hpos).
    split; [lia|]. exists last.
    replace (0 + Z.of_nat (Z.to_nat max_polls)) with max_polls in Hp by lia.
    split; [exact Hp|].
    destruct (exhausted_error_mentions last) as (M1 & M2 & M3 & M4).
    repeat (split; [assumption|]).
    intros Hpos'. apply Hpos. lia.
  - intros Hcap Hsafe.
    destruct (never_match_exhausts (Z.to_nat max_polls) Hcap 0 JNull body_dict s Hsafe)
      as (payload & s' & ->).
    now exists payload.
Qed.

End PollRuns.

(** C1.  An attempt whose response carries a value at the done field is
    compared with the done value by lowercased string form, and the
    machine ends [DONE] at that attempt exactly when the two are equal.
    With a capability that shows 2, 1, 0 on three attempts and the done
    value [0], the machine ends [DONE] at attempt 3, after three
    requests. *)
Theorem poll_done_iff_equal
  (execute_request : list event -> request -> dict) (cfg : settings)
  (infer_schema : list json -> string) (summary_hint truncation_hint : string -> string)
  (ctx : RequestContext) (the_base_url method path done_field name : string)
  (pp qp : json) (max_polls wait_ms : Z) :
  (forall done_value attempt body_dict s current,
      let result :=
        execute_request (trace s)
          (poll_request ctx the_base_url method path pp qp body_dict) in
      Json.truthy (Json.get result "success") = true ->
      _get_nested_value (Json.get_default result "data" (JObj [])) done_field
      = Ok current ->
      current <> JNull \/ attempt + 1 <> 1 ->
      (exists payload s',
          poll_attempt execute_request cfg infer_schema summary_hint truncation_hint
            ctx the_base_url method path done_field done_value name pp qp wait_ms
            attempt body_dict s
          = (Ok (Return (DONE, payload)), s'))
      <-> PyStr.lower (Json.str current) = PyStr.lower done_value)
  /\ (forall s,
      3 <= max_polls ->
      (forall k t rq,
          (k < 3)%nat -> requests_in t = (requests_in (trace s) + k)%nat ->
          Json.truthy (Json.get (execute_request t rq) "success") = true
          /\ _get_nested_value
               (Json.get_default (execute_request t rq) "data" (JObj [])) done_field
             = Ok (JInt (2 - Z.of_nat k))) ->
      exists payload s',
        poll_machine execute_request cfg infer_schema summary_hint truncation_hint
          ctx the_base_url method path done_field "0" name pp qp max_polls wait_ms
          (JObj []) s
        = (Ok (DONE, payload), s')
        /\ Json.get payload "attempts" = JInt 3
        /\ requests_in (trace s') = (requests_in (trace s) + 3)%nat).
Proof.
  split.
  - intros done_value attempt body_dict s current. apply attempt_done_iff.
  - intros s Hmax Hcap. now apply countdown_done_at_third.
Qed.

Lemma poll_done_iff_equal_witness :
  ((exists payload s',
       poll_attempt Samples.countdown Samples.test_settings Samples.no_schema
         Samples.name_hint Samples.name_hint Samples.test_context
         "https://api.example.com" "POST" "/flights/search" "retry.next" "2"
         "poll_result" JNull JNull 1 0 (JObj []) Samples.fresh_session
       = (Ok (Return (DONE, payload)), s'))
   <-> PyStr.lower (Json.str (JInt 2)) = PyStr.lower "2")
  /\ exists payload s',
      poll_machine Samples.countdown Samples.test_settings Samples.no_schema
        Samples.name_hint Samples.name_hint Samples.test_context
        "https://api.example.com" "POST" "/flights/search" "retry.next" "0"
        "poll_result" JNull JNull 3 1 (JObj []) Samples.fresh_session
      = (Ok (DONE, payload), s')
      /\ Json.get payload "attempts" = JInt 3
      /\ requests_in (trace s') = (requests_in (trace Samples.fresh_session) + 3)%nat.
Proof.
  split.
  - apply (proj1 (poll_done_iff_equal Samples.countdown Samples.test_settings
                    Samples.no_schema Samples.name_hint Samples.name_hint
                    Samples.test_context "https://api.example.com" "POST"
                    "/flights/search" "retry.next" "poll_result" JNull JNull 3 1)
             "2" 0 (JObj []) Samples.fresh_session (JInt 2));
      [reflexivity | reflexivity | left; discriminate].
  - apply (proj2 (poll_done_iff_equal Samples.countdown Samples.test_settings
                    Samples.no_schema Samples.name_hint Samples.name_hint
                    Samples.test_context "https://api.example.com" "POST"
                    "/flights/search" "retry.next" "poll_result" JNull JNull 3 1)).
    + lia.
    + intros k t rq Hk Ht. cbn in Ht.
      destruct k as [|[|[|k]]]; [| | | lia];
        unfold Samples.countdown; rewrite Ht; split; reflexivity.
Defined.

Lemma poll_field_missing_first_only_witness :
  poll_machine Samples.pending_status Samples.test_settings Samples.no_schema
    Samples.name_hint Samples.name_hint Samples.test_context
    "https://api.example.com" "POST" "/search/flights" "polling.completed" "true"
    "poll_result" JNull JNull 3 3000 (JObj []) Samples.fresh_session
  = (Ok (FIELD_MISSING,
         [("success", JBool false);
          ("error",
           JStr "done_field 'polling.completed' not found in response. Available keys: ['status', 'results']")]),
     after_request Samples.fresh_session
       (poll_request Samples.test_context "https://api.example.com" "POST"
          "/search/flights" JNull JNull (JObj []))
       (Samples.pending_status [] 
          (poll_request Samples.test_context "https://api.example.com" "POST"
             "/search/flights" JNull JNull (JObj [])))
       (poll_record "POST" "/search/flights" 1 (JObj []))).
Proof.
  apply (proj1 (poll_field_missing_first_only Samples.pending_status
                  Samples.test_settings Samples.no_schema Samples.name_hint
                  Samples.name_hint Samples.test_context "https://api.example.com"
                  "POST" "/search/flights" "polling.completed" "true" "poll_result"
                  JNull JNull 3 3000) (JObj []) Samples.fresh_session);
    [lia | reflexivity | reflexivity].
Defined.


(** C4.  A request body with a number at [polling.count]: after an
    attempt that does not end the run, the machine sleeps and then adds
    one to the count in place, so that the requests of a run carry the
    count [n], [n + 1], [n + 2], ... and the same body otherwise.  A body
    without [polling.count] is sent unchanged at every attempt.  With the
    body [{polling: {count: 1}}] and a capability that completes at the
    third request, the bodies sent carry the counts 1, 2, 3. *)
Theorem polling_count_auto_increments
  (execute_request : list event -> request -> dict) (cfg : settings)
  (infer_schema : list json -> string) (summary_hint truncation_hint : string -> string)
  (ctx : RequestContext)
  (the_base_url method path done_field done_value name : string)
  (pp qp : json) (max_polls wait_ms : Z) :
  (forall body_dict n,
      _get_nested_value body_dict "polling.count" = Ok (JInt n) ->
      (forall attempt s seen body_dict' s',
          poll_attempt execute_request cfg infer_schema summary_hint truncation_hint
            ctx the_base_url method path done_field done_value name pp qp wait_ms
            attempt body_dict s
          = (Ok (Continue seen body_dict'), s') ->
          body_dict' = with_count body_dict (n + 1)
          /\ _get_nested_value body_dict' "polling.count" = Ok (JInt (n + 1))
          /\ rq_body (poll_request ctx the_base_url method path pp qp body_dict)
             = body_dict
          /\ trace s'
             = trace s
               ++ [Requested (poll_request ctx the_base_url method path pp qp body_dict)
                     (execute_request (trace s)
                        (poll_request ctx the_base_url method path pp qp body_dict));
                   Slept wait_ms])
      /\ (forall r attempt current s,
          exists new,
            trace (snd (poll_loop execute_request cfg infer_schema summary_hint
                          truncation_hint ctx the_base_url method path done_field
                          done_value name pp qp max_polls wait_ms
                          r attempt current body_dict s))
            = trace s ++ new
            /\ forall k bk,
                nth_error (bodies_sent new) k = Some bk ->
                bk = with_count body_dict (n + Z.of_nat k)))
  /\ (forall body_dict,
      _get_nested_value body_dict "polling.count" = Ok JNull ->
      (forall attempt s seen body_dict' s',
          poll_attempt execute_request cfg infer_schema summary_hint truncation_hint
            ctx the_base_url method path done_field done_value name pp qp wait_ms
            attempt body_dict s
          = (Ok (Continue seen body_dict'), s') ->
          body_dict' = body_dict)
      /\ (forall r attempt current s,
          exists new,
            trace (snd (poll_loop execute_request cfg infer_schema summary_hint
                          truncation_hint ctx the_base_url method path done_field
                          done_value name pp qp max_polls wait_ms
                          r attempt current body_dict s))
            = trace s ++ new
            /\ forall k bk,
                nth_error (bodies_sent new) k = Some bk ->
                bk = rq_body (poll_request ctx the_base_url method path pp qp
                                body_dict)))
  /\ (let run :=
        poll_until_done Samples.sample_loads Samples.completed_at_third
          Samples.test_settings Samples.no_schema Samples.name_hint Samples.name_hint
          Samples.test_context "https://api.example.com" "POST" "/search/flights"
          "polling.completed" "true" Samples.polling_count_body EmptyString
          EmptyString "poll_result" 1 Samples.fresh_session in
      bodies_sent (trace (snd run))
      = [JObj [("polling", JObj [("count", JInt 1)])];
         JObj [("polling", JObj [("count", JInt 2)])];
         JObj [("polling", JObj [("count", JInt 3)])]]
      /\ exists payload,
          fst run = Ok (DONE, payload) /\ Json.get payload "attempts" = JInt 3).
Proof.
  split; [|split].
  - intros body_dict n Hn. split.
    + intros attempt s seen body_dict' s' Hstep.
      now apply (count_step execute_request cfg infer_schema summary_hint
                   truncation_hint ctx the_base_url method path done_field done_value
                   name pp qp wait_ms body_dict n attempt s s' seen body_dict').
    + intros r attempt current s. now apply count_run.
  - intros body_dict Hn. split.
    + intros attempt s seen body_dict' s' Hstep.
      now apply (no_count_step execute_request cfg infer_schema summary_hint
                   truncation_hint ctx the_base_url method path done_field done_value
                   name pp qp wait_ms body_dict attempt s s' seen body_dict').
    + intros r attempt current s. now apply no_count_run.
  - cbv zeta. split; [vm_compute; reflexivity|].
    eexists. split; vm_compute; reflexivity.
Qed.

Lemma polling_count_auto_increments_witness :
  exists new,
    trace (snd (poll_loop Samples.completed_at_third Samples.test_settings
                  Samples.no_schema Samples.name_hint Samples.name_hint
                  Samples.test_context "https://api.example.com" "POST"
                  "/search/flights" "polling.completed" "true" "poll_result"
                  JNull JNull 3 1 3 0 JNull
                  (JObj [("polling", JObj [("count", JInt 1)])])
                  Samples.fresh_session))
    = trace Samples.fresh_session ++ new
    /\ forall k bk,
        nth_error (bodies_sent new) k = Some bk ->
        bk = with_count (JObj [("polling", JObj [("count", JInt 1)])])
               (1 + Z.of_nat k).
Proof.
  apply (proj2 (proj1 (polling_count_auto_increments Samples.completed_at_third
                         Samples.test_settings Samples.no_schema Samples.name_hint
                         Samples.name_hint Samples.test_context
                         "https://api.example.com" "POST" "/search/flights"
                         "polling.completed" "true" "poll_result" JNull JNull 3 1)
                  (JObj [("polling", JObj [("count", JInt 1)])]) 1 eq_refl)).
Defined.

(** ** Runs of the test suite *)

(** [test_max_polls_error_shows_last_value]: three attempts, three
    records, and the last value in the error. *)
Example never_completed_exhausts :
  let run :=
    poll_until_done Samples.sample_loads Samples.never_completed
      Samples.test_settings Samples.no_schema Samples.name_hint Samples.name_hint
      Samples.test_context "https://api.example.com" "POST" "/search/flights"
      "polling.completed" "true" EmptyString EmptyString EmptyString
      "poll_result" 1 Samples.fresh_session in
  fst run
  = Ok (EXHAUSTED,
        [("success", JBool false);
         ("error",
          JStr "max_polls (3) exceeded. Last polling.completed value: False (expected: true)");
         ("attempts", JInt 3)])
  /\ option_map (@length dict) (rest_calls (snd run)) = Some 3%nat.
Proof. split; vm_compute; reflexivity. Qed.

(** C3 at a body whose [polling] is null.  The responses never match and
    three attempts are allowed, yet the auto-increment raises after the
    first attempt: the run ends with an exception and one record in the
    call log. *)
Theorem null_polling_stops_the_run :
  let run :=
    poll_until_done Samples.sample_loads Samples.never_completed
      Samples.test_settings Samples.no_schema Samples.name_hint Samples.name_hint
      Samples.test_context "https://api.example.com" "POST" "/search/flights"
      "polling.completed" "true" Samples.polling_null_body EmptyString EmptyString
      "poll_result" 1 Samples.fresh_session in
  MAX_POLLS Samples.test_settings = 3
  /\ fst run = Raise AttributeError
  /\ option_map (@length dict) (rest_calls (snd run)) = Some 1%nat
  /\ requests_in (trace (snd run)) = 1%nat
  /\ run
     = poll_machine Samples.never_completed Samples.test_settings Samples.no_schema
         Samples.name_hint Samples.name_hint Samples.test_context
         "https://api.example.com" "POST" "/search/flights" "polling.completed"
         "true" "poll_result" JNull JNull 3 1 (JObj [("polling", JNull)])
         Samples.fresh_session
  /\ auto_increment (JObj [("polling", JNull)]) = Raise AttributeError.
Proof. repeat split; vm_compute; reflexivity. Qed.

(** ** Malformed fragments *)

Section FragmentFacts.

Variable json_loads : string -> decoded.
Variable execute_request : list event -> request -> dict.
Variable cfg : settings.
Variable infer_schema : list json -> string.
Variable summary_hint : string -> string.
Variable truncation_hint : string -> string.
Variable ctx : RequestContext.
Variable the_base_url : string.

Local Abbreviation parse := (loads_or json_loads).
Local Abbreviation call :=
  (rest_call json_loads execute_request cfg infer_schema summary_hint
     truncation_hint ctx the_base_url).
Local Abbreviation poll :=
  (poll_until_done json_loads execute_request cfg infer_schema summary_hint
     truncation_hint ctx the_base_url).

Lemma loads_or_rejects (fragment msg : string) (default : json) :
  PyStr.truthy fragment = true ->
  json_loads fragment = NotJson msg ->
  parse fragment default = Raise (JSONDecodeError msg).
Proof. intros Ht Hl. unfold loads_or. now rewrite Ht, Hl. Qed.

(** A body that is not JSON is answered with the error of the tool,
    before any request and any record, when the other two fragments
    parse. *)
Lemma poll_malformed_body_fails_fast
  (method path done_field done_value body path_params query_params name msg : string)
  (delay_ms : Z) (pp qp : json) (s : session) :
  parse path_params JNull = Ok pp ->
  parse query_params JNull = Ok qp ->
  PyStr.truthy body = true ->
  json_loads body = NotJson msg ->
  poll method path done_field done_value body path_params query_params name delay_ms s
  = (Ok (MALFORMED_BODY,
         [("success", JBool false);
          ("error", JStr (PyStr.fstr ["Invalid body JSON: "; msg]))]), s).
Proof.
  intros Hpp Hqp Ht Hl. unfold poll_until_done, bind, lift.
  now rewrite Hpp, Hqp, (loads_or_rejects body msg _ Ht Hl).
Qed.

(** With fragments that parse, the tool runs the machine. *)
Lemma poll_until_done_runs_machine
  (method path done_field done_value body path_params query_params name : string)
  (delay_ms : Z) (pp qp body_dict : json) (s : session) :
  parse path_params JNull = Ok pp ->
  parse query_params JNull = Ok qp ->
  parse body (JObj []) = Ok body_dict ->
  poll method path done_field done_value body path_params query_params name delay_ms s
  = poll_machine execute_request cfg infer_schema summary_hint truncation_hint
      ctx the_base_url method path done_field done_value name pp qp (MAX_POLLS cfg)
      (if delay_ms >? 0 then delay_ms else DEFAULT_POLL_DELAY_MS cfg) body_dict s.
Proof.
  intros Hpp Hqp Hb. unfold poll_until_done, bind, lift.
  now rewrite Hpp, Hqp, Hb.
Qed.

(** C8 on the code.  A fragment that [json.loads] rejects makes
    [rest_call] raise the decoding error, whichever of the three
    fragments it is, and so do the path and query parameters of
    [poll_until_done]; nothing is requested and nothing is recorded.
    None of these is answered with a failure value. *)
Theorem malformed_fragment_raises
  (method path done_field done_value body path_params query_params name msg : string)
  (delay_ms : Z) (s : session) :
  (PyStr.truthy path_params = true -> json_loads path_params = NotJson msg ->
   call method path path_params query_params body name s
   = (Raise (JSONDecodeError msg), s))
  /\ (forall pp,
      parse path_params JNull = Ok pp ->
      PyStr.truthy query_params = true -> json_loads query_params = NotJson msg ->
      call method path path_params query_params body name s
      = (Raise (JSONDecodeError msg), s))
  /\ (forall pp qp,
      parse path_params JNull = Ok pp ->
      parse query_params JNull = Ok qp ->
      PyStr.truthy body = true -> json_loads body = NotJson msg ->
      call method path path_params query_params body name s
      = (Raise (JSONDecodeError msg), s))
  /\ (PyStr.truthy path_params = true -> json_loads path_params = NotJson msg ->
      poll method path done_field done_value body path_params query_params name
        delay_ms s
      = (Raise (JSONDecodeError msg), s))
  /\ (forall pp,
      parse path_params JNull = Ok pp ->
      PyStr.truthy query_params = true -> json_loads query_params = NotJson msg ->
      poll method path done_field done_value body path_params query_params name
        delay_ms s
      = (Raise (JSONDecodeError msg), s)).
Proof.
  split; [|split; [|split; [|split]]].
  - intros Ht Hl. unfold rest_call, bind, lift.
    now rewrite (loads_or_rejects path_params msg _ Ht Hl).
  - intros pp Hpp Ht Hl. unfold rest_call, bind, lift.
    now rewrite Hpp, (loads_or_rejects query_params msg _ Ht Hl).
  - intros pp qp Hpp Hqp Ht Hl. unfold rest_call, bind, lift.
    now rewrite Hpp, Hqp, (loads_or_rejects body msg _ Ht Hl).
  - intros Ht Hl. unfold poll_until_done, bind, lift.
    now rewrite (loads_or_rejects path_params msg _ Ht Hl).
  - intros pp Hpp Ht Hl. unfold poll_until_done, bind, lift.
    now rewrite Hpp, (loads_or_rejects query_params msg _ Ht Hl).
Qed.

End FragmentFacts.

Lemma malformed_fragment_raises_witness :
  rest_call Samples.sample_loads Samples.never_completed Samples.test_settings
    Samples.no_schema Samples.name_hint Samples.name_hint Samples.test_context
    "https://api.example.com" "GET" "/users/{id}" "not-json" EmptyString EmptyString
    "data" Samples.fresh_session
  = (Raise (JSONDecodeError "Expecting value"), Samples.fresh_session).
Proof.
  apply (proj1 (malformed_fragment_raises Samples.sample_loads
                  Samples.never_completed Samples.test_settings Samples.no_schema
                  Samples.name_hint Samples.name_hint Samples.test_context
                  "https://api.example.com" "GET" "/users/{id}" EmptyString
                  EmptyString EmptyString "not-json" EmptyString "data"
                  "Expecting value" 0 Samples.fresh_session));
    reflexivity.
Defined.

(** [test_invalid_body_json_returns_error]. *)
Example invalid_body_is_answered :
  poll_until_done Samples.sample_loads Samples.never_completed Samples.test_settings
    Samples.no_schema Samples.name_hint Samples.name_hint Samples.test_context
    "https://api.example.com" "POST" "/search/flights" "polling.completed" "true"
    "not-json" EmptyString EmptyString "poll_result" 0 Samples.fresh_session
  = (Ok (MALFORMED_BODY,
         [("success", JBool false);
          ("error", JStr "Invalid body JSON: Expecting value")]),
     Samples.fresh_session).
Proof. reflexivity. Qed.

(** * Further properties of the code *)

(** ** Setting and getting by path *)

Lemma get_set_other (d : dict) (k k' : string) (v : json) :
  k <> k' -> Json.get (Json.set d k v) k' = Json.get d k'.
Proof.
  intros Hk. unfold Json.get.
  induction d as [|[k0 v0] d IH]; cbn [Json.set Json.get_default].
  - apply String.eqb_neq in Hk. now rewrite Hk.
  - destruct (String.eqb k0 k) eqn:E; cbn [Json.get_default].
    + apply String.eqb_eq in E. subst k0.
      apply String.eqb_neq in Hk. now rewrite Hk.
    + destruct (String.eqb k0 k'); [reflexivity | exact IH].
Qed.

Lemma has_key_set (d : dict) (k : string) (v : json) :
  Json.has_key (Json.set d k v) k = true.
Proof.
  induction d as [|[k0 v0] d IH]; cbn [Json.set Json.has_key].
  - now rewrite String.eqb_refl.
  - destruct (String.eqb k0 k) eqn:E; cbn [Json.has_key]; rewrite E;
      [reflexivity | exact IH].
Qed.

Lemma keys_set (d : dict) (k : string) (v : json) :
  Json.keys (Json.set d k v)
  = if Json.has_key d k then Json.keys d else Json.keys d ++ [k].
Proof.
  unfold Json.keys.
  induction d as [|[k0 v0] d IH]; cbn [Json.set Json.has_key map app]; [reflexivity|].
  destruct (String.eqb k0 k) eqn:E; cbn [map orb fst]; [reflexivity|].
  rewrite IH. now destruct (Json.has_key d k).
Qed.

Lemma set_nested_keys_not_nil (keys : list string) (d : dict) (v : json) :
  keys <> [] -> _set_nested_keys d keys v <> [].
Proof.
  destruct keys as [|k [|k2 ks]]; intros H; [congruence | |];
    cbn [_set_nested_keys]; apply set_not_nil.
Qed.

Lemma get_nested_loop_after_set (keys : list string) :
  keys <> [] ->
  forall d v,
    v <> JNull ->
    _get_nested_loop (JObj (_set_nested_keys d keys v)) keys = Ok v.
Proof.
  induction keys as [|k ks IH]; intros Hne d v Hv; [congruence|].
  destruct ks as [|k2 ks].
  - cbn [_set_nested_keys _get_nested_loop]. rewrite get_set_same.
    apply is_none_false in Hv. now rewrite Hv.
  - cbn [_get_nested_loop].
    change (_set_nested_keys d (k :: k2 :: ks) v)
      with (Json.set d k
              (JObj (_set_nested_keys
                       (if negb (Json.has_key d k) || negb (is_dict (Json.get d k))
                        then []
                        else match Json.get d k with JObj d0 => d0 | _ => [] end)
                       (k2 :: ks) v))).
    rewrite get_set_same. cbn [Json.is_none].
    apply IH; [discriminate | exact Hv].
Qed.

(** X1.  What [_set_nested_value] writes, [_get_nested_value] reads
    back: after setting a value that is not [None] at a path that is not
    empty, the accessor answers that value at the same path, whatever
    the mapping held before (missing or scalar intermediates are
    replaced by mappings). *)
Theorem set_then_get (d : dict) (path : string) (v : json) :
  path <> EmptyString -> v <> JNull ->
  _get_nested_value (JObj (_set_nested_value d path v)) path = Ok v.
Proof.
  intros Hp Hv. unfold _set_nested_value, _get_nested_value.
  destruct path as [|a path]; [congruence|]. cbn [PyStr.truthy negb orb].
  assert (Hk := split_not_nil "." (String a path)).
  destruct (_set_nested_keys d (PyStr.split "." (String a path)) v) as [|kv d'] eqn:E.
  - now apply set_nested_keys_not_nil in E.
  - cbn [Json.truthy negb orb]. rewrite <- E.
    now apply get_nested_loop_after_set.
Qed.

Lemma set_then_get_witness :
  _get_nested_value
    (JObj (_set_nested_value [("a", JInt 1)] "a.b.c" (JInt 42))) "a.b.c"
  = Ok (JInt 42).
Proof. apply set_then_get; discriminate. Defined.

Lemma set_nested_keys_head (keys : list string) (d : dict) (v : json) (k : string) :
  hd_error keys = Some k ->
  exists child, _set_nested_keys d keys v = Json.set d k child.
Proof.
  destruct keys as [|k0 [|k2 ks]]; cbn [hd_error]; intros H; try discriminate;
    injection H as ->; cbn [_set_nested_keys]; eauto.
Qed.

(** X2.  [_set_nested_value] touches one top-level key only: the first
    segment of the path.  The top-level keys keep their order (the
    segment is appended when it is new), and every path that starts with
    another segment reads as before. *)
Theorem set_keeps_other_paths (d : dict) (path : string) (v : json) (k : string) :
  path <> EmptyString ->
  hd_error (PyStr.split "." path) = Some k ->
  Json.keys (_set_nested_value d path v)
  = (if Json.has_key d k then Json.keys d else Json.keys d ++ [k])
  /\ forall other,
      hd_error (PyStr.split "." other) <> Some k ->
      _get_nested_value (JObj (_set_nested_value d path v)) other
      = _get_nested_value (JObj d) other.
Proof.
  intros Hp Hk. unfold _set_nested_value.
  destruct path as [|a path]; [congruence|]. cbn [PyStr.truthy negb].
  destruct (set_nested_keys_head _ d v k Hk) as (child & ->).
  split; [apply keys_set|].
  intros other Ho. unfold _get_nested_value.
  destruct (PyStr.truthy other); cbn [negb orb]; [|now rewrite !orb_true_r].
  rewrite !orb_false_r.
  destruct (PyStr.split "." other) as [|k' ks] eqn:Hs; [now apply split_not_nil in Hs|].
  assert (Hkk : k <> k') by (cbn in Ho; congruence).
  assert (Ht : Json.truthy (JObj (Json.set d k child)) = true).
  { cbn [Json.truthy].
    destruct (Json.set d k child) eqn:E; [now apply set_not_nil in E | reflexivity]. }
  rewrite Ht. cbn [negb _get_nested_loop]. rewrite (get_set_other d k k' child Hkk).
  destruct d as [|kv0 d0]; reflexivity.
Qed.

Lemma set_keeps_other_paths_witness :
  Json.keys (_set_nested_value [("x", JInt 1); ("polling", JObj [])] "polling.count" (JInt 2))
  = ["x"; "polling"].
Proof.
  apply (proj1 (set_keeps_other_paths [("x", JInt 1); ("polling", JObj [])]
                  "polling.count" (JInt 2) "polling" ltac:(discriminate) eq_refl)).
Defined.

Lemma set_nested_keys_cons (k k2 : string) (ks : list string) (d : dict) (v : json) :
  _set_nested_keys d (k :: k2 :: ks) v
  = Json.set d k
      (JObj (_set_nested_keys
               (if negb (Json.has_key d k) || negb (is_dict (Json.get d k))
                then []
                else match Json.get d k with JObj d0 => d0 | _ => [] end)
               (k2 :: ks) v)).
Proof. reflexivity. Qed.

Lemma set_nested_keys_twice (keys : list string) :
  forall d v w,
    _set_nested_keys (_set_nested_keys d keys v) keys w = _set_nested_keys d keys w.
Proof.
  induction keys as [|k ks IH]; intros d v w; [reflexivity|].
  destruct ks as [|k2 ks].
  - cbn [_set_nested_keys]. apply set_set_same.
  - rewrite (set_nested_keys_cons k k2 ks d v).
    rewrite (set_nested_keys_cons k k2 ks (Json.set d k _) w).
    rewrite has_key_set, get_set_same. cbn [negb orb is_dict].
    rewrite IH, set_set_same. symmetry. apply set_nested_keys_cons.
Qed.

(** X3.  The last write wins: setting a path twice leaves the mapping
    as setting it once to the second value. *)
Theorem set_twice (d : dict) (path : string) (v w : json) :
  _set_nested_value (_set_nested_value d path v) path w = _set_nested_value d path w.
Proof.
  unfold _set_nested_value. destruct (negb (PyStr.truthy path)); [reflexivity|].
  apply set_nested_keys_twice.
Qed.

Lemma split_app (p q : string) :
  PyStr.split "." (p ++ "." ++ q) = PyStr.split "." p ++ PyStr.split "." q.
Proof.
  induction p as [|a p IH].
  - reflexivity.
  - change ((String a p ++ "." ++ q)%string) with (String a (p ++ "." ++ q)).
    cbn [PyStr.split]. rewrite IH.
    destruct (Ascii.eqb a "."); [reflexivity|].
    destruct (PyStr.split "." p) as [|w ws] eqn:E; [now apply split_not_nil in E|].
    reflexivity.
Qed.

Lemma get_nested_loop_null (keys : list string) : _get_nested_loop JNull keys = Ok JNull.
Proof. now destruct keys. Qed.

Lemma get_nested_loop_app (ks1 ks2 : list string) :
  forall current,
    _get_nested_loop current (ks1 ++ ks2)
    = match _get_nested_loop current ks1 with
      | Ok v => _get_nested_loop v ks2
      | Raise e => Raise e
      end.
Proof.
  induction ks1 as [|k ks1 IH]; intros current; [reflexivity|].
  cbn [app _get_nested_loop].
  destruct current as [| b | n | s | items | fields];
    try (now rewrite get_nested_loop_null).
  - destruct (PyStr.isdigit k); [|now rewrite get_nested_loop_null].
    destruct (PyStr.int_of_digits k) as [idx|]; [|reflexivity].
    destruct ((0 <=? idx) && (idx <? Z.of_nat (length items)));
      [|now rewrite get_nested_loop_null].
    destruct (Json.is_none (nth (Z.to_nat idx) items JNull));
      [now rewrite get_nested_loop_null | apply IH].
  - destruct (Json.is_none (Json.get fields k));
      [now rewrite get_nested_loop_null | apply IH].
Qed.

Lemma get_nested_loop_falsy (v : json) (k : string) (ks : list string) :
  Json.truthy v = false -> plain_segment k ->
  _get_nested_loop v (k :: ks) = Ok JNull.
Proof.
  intros Hv Hk.
  destruct v as [| b | n | s | [|x items] | [|kv fields]];
    try reflexivity; try discriminate.
  cbn [_get_nested_loop].
  destruct (PyStr.isdigit k) eqn:Hd; [|reflexivity].
  destruct (int_of_digits_plain k Hd Hk) as (idx & -> & _ & Hidx).
  cbn [length]. replace (idx <? Z.of_nat 0) with false by (symmetry; apply Z.ltb_ge; lia).
  now rewrite andb_false_r.
Qed.

(** X4.  Paths compose: for two paths that are not empty, where every
    segment of [q] that passes [isdigit] is one that [int] converts (at
    most 4300 decimal digits), reading [p.q] is reading [q] in what [p]
    reads, and an error of reading [p] is the same error; so whatever is
    missing at [p] is missing at every such extension of [p]. *)
Theorem get_nested_value_composes (data : json) (p q : string) :
  p <> EmptyString -> q <> EmptyString ->
  Forall plain_segment (PyStr.split "." q) ->
  _get_nested_value data (p ++ "." ++ q)
  = match _get_nested_value data p with
    | Ok v => _get_nested_value v q
    | Raise e => Raise e
    end.
Proof.
  intros Hp Hq Hplain. unfold _get_nested_value at 1 2.
  assert (Hpq : PyStr.truthy (p ++ "." ++ q) = true) by (destruct p; [congruence | reflexivity]).
  assert (Hpt : PyStr.truthy p = true) by (destruct p; [congruence | reflexivity]).
  assert (Hqt : PyStr.truthy q = true) by (destruct q; [congruence | reflexivity]).
  rewrite Hpq, Hpt. cbn [negb]. rewrite !orb_false_r.
  destruct (Json.truthy data); cbn [negb].
  2:{ unfold _get_nested_value. cbn. reflexivity. }
  rewrite split_app, get_nested_loop_app.
  destruct (_get_nested_loop data (PyStr.split "." p)) as [v|e]; [|reflexivity].
  unfold _get_nested_value. rewrite Hqt. cbn [negb]. rewrite orb_false_r.
  destruct (Json.truthy v) eqn:Hv; cbn [negb]; [reflexivity|].
  destruct (PyStr.split "." q) as [|k ks] eqn:E; [now apply split_not_nil in E|].
  apply get_nested_loop_falsy; [exact Hv|]. now inversion Hplain.
Qed.

Lemma get_nested_value_composes_witness :
  _get_nested_value
    (JObj [("trips", JArr [JObj [("id", JInt 1)]])]) ("trips" ++ "." ++ "0.id")
  = match _get_nested_value (JObj [("trips", JArr [JObj [("id", JInt 1)]])]) "trips" with
    | Ok v => _get_nested_value v "0.id"
    | Raise e => Raise e
    end.
Proof.
  apply get_nested_value_composes; try discriminate.
  apply Forall_cons; [|apply Forall_cons; [|constructor]].
  - intros _. split; [reflexivity | vm_compute; discriminate].
  - intros H. discriminate H.
Defined.

(** ** The schema compactor *)

Lemma last_char_app (s : string) (c : ascii) :
  PyText.last_char (s ++ String c EmptyString) = Some c.
Proof.
  induction s as [|a s IH]; [reflexivity|].
  cbn [String.append PyText.last_char]. rewrite IH.
  now destruct (s ++ String c EmptyString)%string eqn:E; [destruct s; discriminate|].
Qed.

Lemma last_char_cons (a : ascii) (s : string) :
  s <> EmptyString -> PyText.last_char (String a s) = PyText.last_char s.
Proof. destruct s; [congruence | reflexivity]. Qed.

Lemma format_type_non_null (name : option string) (inner : type_ref) :
  _format_type (TypeRef (Some "NON_NULL") name inner)
  = (_format_type inner ++ "!")%string.
Proof.
  change (_format_type (TypeRef (Some "NON_NULL") name inner))
    with (PyStr.fstr [_format_type inner; "!"]).
  rewrite !fstr_cons. reflexivity.
Qed.

Lemma kind_is_true (kind : option string) (expected : string) :
  kind_is kind expected = true -> kind = Some expected.
Proof.
  destruct kind as [k|]; cbn [kind_is]; [|discriminate].
  intros H. apply String.eqb_eq in H. now subst.
Qed.

(** X5.  [_is_required] and [_format_type] agree: the rendering of a
    type reference ends with [!] exactly when the reference is required
    (a top-level [NON_NULL]), provided the name of a bare named type does
    not itself end with [!]. *)
Theorem required_iff_rendered_with_bang (t : type_ref) :
  (forall kind name inner,
      t = TypeRef kind (Some name) inner -> PyText.last_char name <> Some "!"%char) ->
  _is_required t = true <-> PyText.last_char (_format_type t) = Some "!"%char.
Proof.
  intros Hname. destruct t as [|kind name inner]; cbn [_is_required].
  - split; discriminate.
  - destruct (kind_is kind "NON_NULL") eqn:Hn.
    + apply kind_is_true in Hn. subst kind. rewrite format_type_non_null.
      split; [intros _; apply last_char_app | reflexivity].
    + split; [discriminate|]. cbn [_format_type]. rewrite Hn.
      destruct (kind_is kind "LIST").
      * rewrite !fstr_cons.
        change (PyStr.fstr []) with EmptyString.
        rewrite append_assoc.
        change ((("[" ++ _format_type inner) ++ "]" ++ EmptyString)%string)
          with ((("[" ++ _format_type inner) ++ String "]" EmptyString)%string).
        rewrite last_char_app. discriminate.
      * destruct name as [n|]; cbn [name_or_unknown]; [|discriminate].
        destruct (PyStr.truthy n); [|discriminate].
        intros H. exfalso. exact (Hname kind n inner eq_refl H).
Qed.

Lemma required_iff_rendered_with_bang_witness :
  _is_required (NON_NULL (LIST (Named "OBJECT" "User"))) = true
  <-> PyText.last_char (_format_type (NON_NULL (LIST (Named "OBJECT" "User"))))
      = Some "!"%char.
Proof. apply required_iff_rendered_with_bang. intros kind name inner H. discriminate H. Defined.

Lemma filter_none {A : Type} (p : A -> bool) (l : list A) :
  (forall a, In a l -> p a = false) -> filter p l = [].
Proof.
  induction l as [|x l IH]; intros H; [reflexivity|].
  cbn [filter]. rewrite (H x) by now left. apply IH. intros a Ha. apply H. now right.
Qed.

Lemma filter_without {A : Type} (p : A -> bool) (pre post : list A) (x : A) :
  p x = false -> filter p (pre ++ x :: post) = filter p (pre ++ post).
Proof. intros H. rewrite !filter_app. cbn [filter]. now rewrite H. Qed.

Lemma filter_filter_without {A : Type} (q p : A -> bool) (pre post : list A) (x : A) :
  q x && p x = false ->
  filter p (filter q (pre ++ x :: post)) = filter p (filter q (pre ++ post)).
Proof.
  intros H. rewrite !filter_app. cbn [filter].
  destruct (q x); [|reflexivity]. cbn [andb] in H. cbn [filter]. now rewrite H.
Qed.

(** X6.  Optional arguments do not show in the query listing: an
    argument that is not required can be dropped from a query field
    without changing its line, and a query all of whose arguments are
    optional is listed with empty parentheses. *)
Theorem optional_arguments_are_elided
  (name : string) (description : option string) (type : type_ref) :
  (forall pre post a,
      _is_required (GraphQL.arg_type a) = false ->
      query_line {| GraphQL.field_name := name; GraphQL.description := description;
                    GraphQL.args := pre ++ a :: post; GraphQL.field_type := type |}
      = query_line {| GraphQL.field_name := name; GraphQL.description := description;
                      GraphQL.args := pre ++ post; GraphQL.field_type := type |})
  /\ (forall args,
      (forall a, In a args -> _is_required (GraphQL.arg_type a) = false) ->
      query_line {| GraphQL.field_name := name; GraphQL.description := description;
                    GraphQL.args := args; GraphQL.field_type := type |}
      = (name ++ "() -> " ++ _format_type type ++ description_suffix description)%string).
Proof.
  split.
  - intros pre post a Ha. unfold query_line, _filter_required_args.
    cbn [GraphQL.args GraphQL.field_name GraphQL.field_type GraphQL.description].
    now rewrite (filter_without _ pre post a Ha).
  - intros args Hargs. unfold query_line, _filter_required_args.
    cbn [GraphQL.args GraphQL.field_name GraphQL.field_type GraphQL.description].
    rewrite (filter_none _ args Hargs). cbn [map PyStr.join String.concat].
    rewrite !fstr_cons. change (PyStr.fstr []) with EmptyString.
    rewrite append_nil_r. reflexivity.
Qed.

Lemma optional_arguments_are_elided_witness :
  query_line
    {| GraphQL.field_name := "teams"; GraphQL.description := None;
       GraphQL.args := [{| GraphQL.arg_name := "ids";
                           GraphQL.arg_type := LIST (Named "SCALAR" "ID");
                           GraphQL.defaultValue := None |}];
       GraphQL.field_type := LIST (Named "OBJECT" "Team") |}
  = "teams() -> [Team]".
Proof.
  apply (proj2 (optional_arguments_are_elided "teams" None (LIST (Named "OBJECT" "Team")))).
  intros a [<- | []]. reflexivity.
Defined.

(** X7.  Types that have no place in the compact schema leave it as it
    is: an introspection type (a name that starts with two underscores),
    a root operation object ([Query], [Mutation], [Subscription]) and a
    type of a kind other than the five the compactor lists can be added
    anywhere among the types without changing the text. *)
Theorem hidden_types_leave_no_trace
  (queries : list GraphQL.field) (pre post : list GraphQL.type_def)
  (t : GraphQL.type_def) :
  PyText.startswith "__" (GraphQL.type_name t) = true
  \/ (GraphQL.type_kind t = "OBJECT" /\ is_root_operation (GraphQL.type_name t) = true)
  \/ (GraphQL.type_kind t <> "OBJECT" /\ GraphQL.type_kind t <> "ENUM"
      /\ GraphQL.type_kind t <> "INPUT_OBJECT" /\ GraphQL.type_kind t <> "INTERFACE"
      /\ GraphQL.type_kind t <> "UNION") ->
  _build_schema_context
    {| GraphQL.query_fields := queries; GraphQL.types := pre ++ t :: post |}
  = _build_schema_context
      {| GraphQL.query_fields := queries; GraphQL.types := pre ++ post |}.
Proof.
  intros H. unfold _build_schema_context, schema_lines.
  cbn [GraphQL.types GraphQL.query_fields].
  set (vis := fun t : GraphQL.type_def =>
                negb (PyText.startswith "__" (GraphQL.type_name t))).
  set (obj := fun t : GraphQL.type_def =>
                kind_eqb "OBJECT" t && negb (is_root_operation (GraphQL.type_name t))).
  assert (Hkind : forall k,
             k <> "OBJECT" -> In k ["ENUM"; "INPUT_OBJECT"; "INTERFACE"; "UNION"] ->
             vis t && kind_eqb k t = false).
  { intros k Hko Hk. unfold vis, kind_eqb.
    destruct H as [H | [[Hobj Hr] | (H1 & H2 & H3 & H4 & H5)]].
    - now rewrite H.
    - rewrite Hobj. apply not_eq_sym, String.eqb_neq in Hko. rewrite Hko.
      apply andb_false_r.
    - assert (Hne : GraphQL.type_kind t <> k).
      { cbn in Hk. destruct Hk as [<- | [<- | [<- | [<- | []]]]]; assumption. }
      apply String.eqb_neq in Hne. rewrite Hne. apply andb_false_r. }
  assert (Hobj : vis t && obj t = false).
  { unfold vis, obj, kind_eqb.
    destruct H as [H | [[Hobj Hr] | (H1 & H2 & H3 & H4 & H5)]].
    - now rewrite H.
    - rewrite Hr. cbn [negb]. now rewrite !andb_false_r.
    - apply String.eqb_neq in H1. rewrite H1. cbn [andb]. apply andb_false_r. }
  rewrite !(filter_filter_without vis (kind_eqb "INTERFACE") pre post t)
    by (apply Hkind; [discriminate | cbn; tauto]).
  rewrite !(filter_filter_without vis (kind_eqb "UNION") pre post t)
    by (apply Hkind; [discriminate | cbn; tauto]).
  rewrite !(filter_filter_without vis (kind_eqb "ENUM") pre post t)
    by (apply Hkind; [discriminate | cbn; tauto]).
  rewrite !(filter_filter_without vis (kind_eqb "INPUT_OBJECT") pre post t)
    by (apply Hkind; [discriminate | cbn; tauto]).
  rewrite !(filter_filter_without vis obj pre post t) by exact Hobj.
  reflexivity.
Qed.

Lemma hidden_types_leave_no_trace_witness :
  _build_schema_context
    {| GraphQL.query_fields := [];
       GraphQL.types :=
         [] ++ {| GraphQL.type_name := "__Schema"; GraphQL.type_kind := "OBJECT";
                  GraphQL.fields := []; GraphQL.enumValues := [];
                  GraphQL.inputFields := []; GraphQL.interfaces := [];
                  GraphQL.possibleTypes := [] |} :: [] |}
  = _build_schema_context {| GraphQL.query_fields := []; GraphQL.types := [] ++ [] |}.
Proof. apply hidden_types_leave_no_trace. left. reflexivity. Defined.

(** *** Stripping descriptions *)

Lemma startswith_hash (a : ascii) (rest : string) :
  PyText.startswith "#" (String a rest) = Ascii.eqb a "#".
Proof.
  unfold PyText.startswith. cbn [String.prefix].
  destruct (ascii_dec "#" a) as [<- | Hne]; [now destruct rest|].
  symmetry. apply Ascii.eqb_neq. congruence.
Qed.

Lemma has_comment_mentions (s : string) :
  PyText.has_comment s = true <-> PyStr.mentions " #" s.
Proof.
  split.
  - induction s as [|a rest IH]; [discriminate|].
    cbn [PyText.has_comment]. intros H. apply orb_true_iff in H as [H | H].
    + apply andb_true_iff in H as [Ha Hr]. apply Ascii.eqb_eq in Ha. subst a.
      destruct rest as [|b rest]; [discriminate|].
      rewrite startswith_hash in Hr. apply Ascii.eqb_eq in Hr. subst b.
      exists EmptyString, rest. reflexivity.
    + destruct (IH H) as (pre & post & ->).
      exists (String a pre), post. reflexivity.
  - intros (pre & post & ->). induction pre as [|a pre IH]; [now destruct post|].
    change ((String a pre ++ " #" ++ post)%string) with (String a (pre ++ " #" ++ post)).
    cbn [PyText.has_comment]. rewrite IH. apply orb_true_r.
Qed.

Lemma newline_is_not_comment (a : ascii) :
  PyText.is_newline a = true -> Ascii.eqb a " " = false /\ Ascii.eqb a "#" = false.
Proof.
  unfold PyText.is_newline, PyStr.code. intros H. apply Nat.eqb_eq in H.
  assert (Ha : a = ascii_of_nat 10) by (rewrite <- H; now rewrite ascii_nat_embedding).
  subst a. split; reflexivity.
Qed.

Lemma strip_from_invariant (s : string) :
  (PyText.has_comment (strip_from true s) = false
   /\ PyText.startswith "#" (strip_from true s) = false)
  /\ (PyText.has_comment (strip_from false s) = false
      /\ (PyText.startswith "#" (strip_from false s) = true ->
          PyText.startswith "#" s = true)).
Proof.
  induction s as [|a rest [[IHc IHs] [IHn IHh]]]; [repeat split; discriminate|].
  cbn [strip_from]. split.
  - destruct (PyText.is_newline a) eqn:Hnl; [|now split].
    destruct (newline_is_not_comment a Hnl) as [Hsp Hh].
    cbn [PyText.has_comment]. rewrite startswith_hash, Hsp, Hh, IHn. now split.
  - destruct (Ascii.eqb a " " && PyText.startswith "#" rest) eqn:Hc.
    + split; [exact IHc|]. rewrite IHs. discriminate.
    + cbn [PyText.has_comment]. rewrite !startswith_hash, IHn. split; [|tauto].
      rewrite orb_false_r.
      destruct (Ascii.eqb a " "); [|reflexivity]. cbn [andb] in Hc |- *.
      destruct (PyText.startswith "#" (strip_from false rest)) eqn:E; [|reflexivity].
      rewrite (IHh eq_refl) in Hc. discriminate.
Qed.

Lemma strip_from_clean (s : string) :
  PyText.has_comment s = false -> strip_from false s = s.
Proof.
  induction s as [|a rest IH]; [reflexivity|].
  cbn [PyText.has_comment strip_from]. intros H.
  apply orb_false_iff in H as [Hc Hr]. rewrite Hc. now rewrite IH.
Qed.

Lemma strip_from_length (s : string) (in_comment : bool) :
  (String.length (strip_from in_comment s) <= String.length s)%nat.
Proof.
  revert in_comment. induction s as [|a rest IH]; intros in_comment; [reflexivity|].
  cbn [strip_from]. destruct in_comment.
  - destruct (PyText.is_newline a); cbn [String.length];
      [specialize (IH false) | specialize (IH true)]; lia.
  - destruct (Ascii.eqb a " " && PyText.startswith "#" rest); cbn [String.length];
      [specialize (IH true) | specialize (IH false)]; lia.
Qed.

(** X8.  [_strip_descriptions] removes every description: no space
    followed by [#] is left in its result.  A text without one is left
    as it is, so stripping twice is stripping once, and the result is
    never longer than the text. *)
Theorem strip_descriptions_removes_all (context : string) :
  ~ PyStr.mentions " #" (_strip_descriptions context)
  /\ (~ PyStr.mentions " #" context -> _strip_descriptions context = context)
  /\ _strip_descriptions (_strip_descriptions context) = _strip_descriptions context
  /\ PyText.len (_strip_descriptions context) <= PyText.len context.
Proof.
  unfold _strip_descriptions.
  destruct (strip_from_invariant context) as [_ [Hclean _]].
  split; [|split; [|split]].
  - intros H. apply has_comment_mentions in H. congruence.
  - intros H. apply strip_from_clean.
    destruct (PyText.has_comment context) eqn:E; [|reflexivity].
    now apply has_comment_mentions in E.
  - now apply strip_from_clean.
  - unfold PyText.len. pose proof (strip_from_length context false). lia.
Qed.

Lemma strip_descriptions_removes_all_witness :
  _strip_descriptions "  team: Team" = "  team: Team".
Proof.
  apply (proj1 (proj2 (strip_descriptions_removes_all "  team: Team"))).
  intros H. apply has_comment_mentions in H. discriminate H.
Defined.

Lemma strip_from_comment_line (d : string) :
  PyText.has_newline d = false -> strip_from true d = EmptyString.
Proof.
  induction d as [|a d IH]; [reflexivity|].
  unfold PyText.has_newline. cbn [PyStr.contains_char strip_from]. intros H.
  apply orb_false_iff in H as [Ha Hd].
  replace (PyText.is_newline a) with false; [now apply IH|].
  unfold PyText.is_newline, PyStr.code. symmetry. apply Nat.eqb_neq. intros E.
  apply Ascii.eqb_neq in Ha. apply Ha.
  rewrite <- (ascii_nat_embedding a). now rewrite E.
Qed.

Lemma strip_from_appended_comment (line d : string) :
  PyText.has_comment line = false ->
  PyText.has_newline d = false ->
  strip_from false (line ++ " #" ++ d) = line.
Proof.
  intros Hline Hd. induction line as [|a line IH].
  - cbn [String.append strip_from]. rewrite startswith_hash. cbn [Ascii.eqb andb].
    change (strip_from true (String "#" d)) with (strip_from true d).
    now apply strip_from_comment_line.
  - cbn [PyText.has_comment] in Hline. apply orb_false_iff in Hline as [Hc Hl].
    change ((String a line ++ " #" ++ d)%string) with (String a (line ++ " #" ++ d)).
    cbn [strip_from].
    replace (Ascii.eqb a " " && PyText.startswith "#" (line ++ " #" ++ d)) with false.
    + now rewrite IH.
    + symmetry. destruct (Ascii.eqb a " "); [|reflexivity]. cbn [andb] in Hc |- *.
      destruct line as [|b line]; [reflexivity|].
      change ((String b line ++ " #" ++ d)%string) with (String b (line ++ " #" ++ d)).
      rewrite startswith_hash in Hc |- *. exact Hc.
Qed.

(** X9.  Stripping undoes the description of a field: for a field whose
    description has no line break and whose line without the description
    has no space followed by [#], [_strip_descriptions] turns the line of
    the field into the line of the same field without description. *)
Theorem strip_format_field (fld : GraphQL.field) (d : string) :
  GraphQL.description fld = Some d ->
  PyText.has_newline d = false ->
  let bare := {| GraphQL.field_name := GraphQL.field_name fld;
                 GraphQL.description := None;
                 GraphQL.args := GraphQL.args fld;
                 GraphQL.field_type := GraphQL.field_type fld |} in
  PyText.has_comment (_format_field bare) = false ->
  _strip_descriptions (_format_field fld) = _format_field bare.
Proof.
  intros Hd Hnl bare Hbare.
  assert (Hsplit : forall suffix,
             PyStr.fstr ["  "; GraphQL.field_name fld;
                         match GraphQL.args fld with
                         | [] => EmptyString
                         | _ :: _ =>
                             PyStr.fstr ["(";
                                         PyStr.join ", "
                                           (map _format_arg (GraphQL.args fld)); ")"]
                         end; ": "; _format_type (GraphQL.field_type fld); suffix]
             = (_format_field bare ++ suffix)%string).
  { intros suffix. unfold _format_field, bare.
    cbn [GraphQL.field_name GraphQL.args GraphQL.field_type GraphQL.description
         description_suffix].
    rewrite !fstr_cons. change (PyStr.fstr []) with EmptyString.
    rewrite !append_nil_r. now rewrite <- !append_assoc. }
  unfold _format_field at 1. rewrite Hd. cbn [description_suffix].
  destruct (PyStr.truthy d) eqn:Ht.
  - rewrite Hsplit, !fstr_cons. change (PyStr.fstr []) with EmptyString.
    rewrite append_nil_r.
    change ((" # " ++ d)%string) with ((" #" ++ String " " d)%string).
    apply strip_from_appended_comment; [exact Hbare|].
    unfold PyText.has_newline in *. cbn [PyStr.contains_char]. now rewrite Hnl.
  - rewrite Hsplit, append_nil_r. now apply strip_from_clean.
Qed.

Lemma strip_format_field_witness :
  _strip_descriptions
    (_format_field {| GraphQL.field_name := "team"; GraphQL.description := Some "Owner team";
                      GraphQL.args := []; GraphQL.field_type := Named "OBJECT" "Team" |})
  = "  team: Team".
Proof.
  apply (strip_format_field
           {| GraphQL.field_name := "team"; GraphQL.description := Some "Owner team";
              GraphQL.args := []; GraphQL.field_type := Named "OBJECT" "Team" |}
           "Owner team" eq_refl eq_refl eq_refl).
Defined.

(** *** The size cap *)

Lemma substring_length (n : nat) (s : string) :
  String.length (String.substring 0 n s) = Nat.min n (String.length s).
Proof.
  revert s. induction n as [|n IH]; intros s.
  - now destruct s.
  - destruct s as [|a s]; [reflexivity|]. cbn [String.substring String.length Nat.min].
    now rewrite IH.
Qed.

(** X10.  The size cap of the schema text, for a limit that is not
    negative: a text within the limit is returned as it is; a text over
    the limit is stripped of its descriptions and returned if that is
    within the limit; otherwise the result is exactly the first
    [max_schema_chars] characters of the stripped text followed by the
    marker.  The result is never longer than the limit plus the marker,
    and a result over the limit is of the third form. *)
Theorem schema_cap_bounds (max_schema_chars : Z) (context : string) :
  0 <= max_schema_chars ->
  let capped := cap_schema_context max_schema_chars context in
  let stripped := _strip_descriptions context in
  let cut :=
    (String.substring 0 (Z.to_nat max_schema_chars) stripped
     ++ schema_truncated_marker)%string in
  (PyText.len context <= max_schema_chars -> capped = context)
  /\ (max_schema_chars < PyText.len context ->
      PyText.len stripped <= max_schema_chars ->
      capped = stripped)
  /\ (max_schema_chars < PyText.len stripped ->
      capped = cut
      /\ PyText.len capped = max_schema_chars + PyText.len schema_truncated_marker)
  /\ PyText.len capped <= max_schema_chars + PyText.len schema_truncated_marker
  /\ (max_schema_chars < PyText.len capped -> capped = cut).
Proof.
  intros Hmax capped stripped cut. subst capped stripped cut.
  unfold cap_schema_context.
  assert (Hslice : forall s,
             PyText.slice_to s max_schema_chars
             = String.substring 0 (Z.to_nat max_schema_chars) s).
  { intros s. unfold PyText.slice_to.
    now replace (0 <=? max_schema_chars) with true by (symmetry; now apply Z.leb_le). }
  assert (Hcut : forall s,
             max_schema_chars < PyText.len s ->
             PyText.len (String.substring 0 (Z.to_nat max_schema_chars) s)
             = max_schema_chars).
  { intros s Hs. unfold PyText.len in *. rewrite substring_length. lia. }
  assert (Hlen : forall a b, PyText.len (a ++ b) = PyText.len a + PyText.len b).
  { intros a b. unfold PyText.len.
    assert (H : forall x y,
               String.length (x ++ y) = (String.length x + String.length y)%nat)
      by (induction x as [|c x IH]; intros y; cbn; [reflexivity | now rewrite IH]).
    rewrite H. lia. }
  assert (Hmarker : 0 <= PyText.len schema_truncated_marker) by (unfold PyText.len; lia).
  assert (Hshorter : PyText.len (_strip_descriptions context) <= PyText.len context).
  { unfold PyText.len, _strip_descriptions.
    pose proof (strip_from_length context false). lia. }
  rewrite Hslice.
  destruct (PyText.len context >? max_schema_chars) eqn:E1.
  - apply Z.gtb_lt in E1.
    destruct (PyText.len (_strip_descriptions context) >? max_schema_chars) eqn:E2.
    + apply Z.gtb_lt in E2.
      split; [lia|]. split; [lia|].
      split; [intros _; split; [reflexivity | now rewrite Hlen, Hcut]|].
      split; [rewrite Hlen, Hcut by lia; lia | reflexivity].
    + assert (E2' : PyText.len (_strip_descriptions context) <= max_schema_chars).
      { destruct (Z.gtb_spec (PyText.len (_strip_descriptions context)) max_schema_chars);
          [discriminate | lia]. }
      split; [lia|]. split; [reflexivity|]. split; [lia|]. split; lia.
  - assert (E1' : PyText.len context <= max_schema_chars).
    { destruct (Z.gtb_spec (PyText.len context) max_schema_chars); [discriminate | lia]. }
    split; [reflexivity|]. split; [lia|]. split; [lia|]. split; lia.
Qed.

Lemma schema_cap_bounds_witness :
  cap_schema_context 12 "<queries> # all of them" = "<queries>"
  /\ cap_schema_context 4 "<queries> # all of them"
     = ("<que" ++ schema_truncated_marker)%string.
Proof.
  split.
  - apply (proj1 (proj2 (schema_cap_bounds 12 "<queries> # all of them" ltac:(lia))));
      vm_compute; [reflexivity | discriminate].
  - apply (proj2 (proj2 (proj2 (proj2
             (schema_cap_bounds 4 "<queries> # all of them" ltac:(lia)))))).
    vm_compute. reflexivity.
Defined.

(** ** The shape of a run of the polling machine *)

Lemma requests_in_rounds (ms : Z) (attempts : list (request * dict)) :
  requests_in (rounds ms attempts) = length attempts.
Proof.
  induction attempts as [|a attempts IH]; [reflexivity|].
  change (rounds ms (a :: attempts))
    with ([Requested (fst a) (snd a); Slept ms] ++ rounds ms attempts).
  rewrite requests_in_app, IH. reflexivity.
Qed.

Lemma sleeps_in_rounds (ms : Z) (attempts : list (request * dict)) :
  length (filter is_sleep (rounds ms attempts)) = length attempts.
Proof.
  induction attempts as [|a attempts IH]; [reflexivity|].
  change (rounds ms (a :: attempts))
    with ([Requested (fst a) (snd a); Slept ms] ++ rounds ms attempts).
  rewrite filter_app, length_app, IH. reflexivity.
Qed.

Lemma rounds_sleep (ms ms' : Z) (attempts : list (request * dict)) :
  In (Slept ms') (rounds ms attempts) -> ms' = ms.
Proof.
  induction attempts as [|a attempts IH]; [intros []|].
  cbn [rounds flat_map app In]. intros [H | [H | H]];
    [discriminate | congruence | now apply IH].
Qed.

Section PollShape.

Variable execute_request : list event -> request -> dict.
Variable cfg : settings.
Variable infer_schema : list json -> string.
Variable summary_hint : string -> string.
Variable truncation_hint : string -> string.
Variable ctx : RequestContext.
Variable the_base_url : string.
Variables (method path done_field done_value name : string).
Variables (pp qp : json) (max_polls wait_ms : Z).

Local Abbreviation request_of :=
  (poll_request ctx the_base_url method path pp qp).
Local Abbreviation record_of := (poll_record method path).
Local Abbreviation loop :=
  (poll_loop execute_request cfg infer_schema summary_hint truncation_hint
     ctx the_base_url method path done_field done_value name pp qp max_polls wait_ms).
Local Abbreviation machine :=
  (poll_machine execute_request cfg infer_schema summary_hint truncation_hint
     ctx the_base_url method path done_field done_value name pp qp max_polls wait_ms).
Local Abbreviation went attempts :=
  (rounds wait_ms (map (fun a : json * dict => (request_of (fst a), snd a)) attempts)).
Local Abbreviation last_of attempts :=
  (map (fun a : json * dict => Requested (request_of (fst a)) (snd a)) attempts).
Local Abbreviation succeeded :=
  (fun a : json * dict => Json.truthy (Json.get (snd a) "success") = true).

(** A run of the loop, attempt by attempt: the attempts that went on,
    each a request and a sleep, and at most one last attempt that ended
    the run at its response. *)
Lemma loop_shape (r : nat) :
  forall attempt current body_dict s o s',
    loop r attempt current body_dict s = (o, s') ->
    exists went_on final : list (json * dict),
      trace s' = trace s ++ went went_on ++ last_of final
      /\ rest_calls s'
         = option_map
             (fun calls => calls ++ poll_records method path attempt
                                      (map fst (went_on ++ final)))
             (rest_calls s)
      /\ (length went_on + length final <= r)%nat
      /\ (length final <= 1)%nat
      /\ Forall succeeded went_on
      /\ (forall t payload,
          o = Ok (t, payload) ->
          match t with
          | DONE =>
              length final = 1%nat
              /\ Json.get payload "attempts"
                 = JInt (attempt + Z.of_nat (length went_on + length final))
          | REQUEST_FAILED =>
              length final = 1%nat
              /\ Json.get payload "attempt"
                 = JInt (attempt + Z.of_nat (length went_on + length final))
          | FIELD_MISSING =>
              length final = 1%nat
              /\ attempt + Z.of_nat (length went_on + length final) = 1
          | EXHAUSTED =>
              final = [] /\ length went_on = r
              /\ Json.get payload "attempts"
                 = JInt (attempt + Z.of_nat (length went_on + length final))
          | MALFORMED_BODY => False
          end)
      /\ ((forall payload, o <> Ok (DONE, payload)) ->
          query_results s' = query_results s /\ last_result s' = last_result s).
Proof.
  induction r as [|r IH]; intros attempt current body_dict s o s' Hrun.
  - cbn [poll_loop] in Hrun. unfold ret in Hrun. injection Hrun as <- <-.
    exists [], []. cbn [map rounds flat_map app length poll_records].
    split; [now rewrite app_nil_r|].
    split; [now destruct (rest_calls s); cbn; rewrite ?app_nil_r|].
    split; [lia|]. split; [lia|]. split; [constructor|].
    split; [|now intros _].
    intros t payload H. injection H as <- <-.
    split; [reflexivity|]. split; [reflexivity|]. cbn. now rewrite Z.add_0_r.
  - cbn [poll_loop] in Hrun. unfold bind at 1 in Hrun.
    rewrite poll_attempt_cases in Hrun. cbv zeta in Hrun.
    set (result := execute_request (trace s) (request_of body_dict)) in *.
    set (record := record_of (attempt + 1) body_dict) in *.
    set (s1 := after_request s (request_of body_dict) result record) in *.
    assert (Hone : trace s' = trace s1 -> rest_calls s' = rest_calls s1 ->
              exists went_on final : list (json * dict),
                (went_on = [] /\ final = [(body_dict, result)])
                /\ trace s' = trace s ++ went went_on ++ last_of final
                /\ rest_calls s'
                   = option_map
                       (fun calls => calls ++ poll_records method path attempt
                                                (map fst (went_on ++ final)))
                       (rest_calls s)
                /\ (length went_on + length final <= S r)%nat
                /\ (length final <= 1)%nat
                /\ Forall succeeded went_on).
    { intros Ht Hc. exists [], [(body_dict, result)].
      split; [now split|]. split; [now rewrite Ht|]. split; [now rewrite Hc|].
      split; [cbn; lia|]. split; [cbn; lia | constructor]. }
    assert (Hframe : query_results s1 = query_results s
                     /\ last_result s1 = last_result s) by now split.
    destruct (negb (Json.truthy (Json.get result "success"))) eqn:Hsucc.
    { injection Hrun as <- <-.
      destruct (Hone eq_refl eq_refl) as (w & f & [-> ->] & Ht & Hc & Hle & Hf & Hall).
      exists [], [(body_dict, result)].
      repeat (split; [assumption|]). split; [|now intros _].
      intros t payload H. injection H as <- <-. split; reflexivity. }
    destruct (_get_nested_value (Json.get_default result "data" (JObj [])) done_field)
      as [seen|e] eqn:Hseen.
    2:{ injection Hrun as <- <-.
        destruct (Hone eq_refl eq_refl) as (w & f & [-> ->] & Ht & Hc & Hle & Hf & Hall).
        exists [], [(body_dict, result)].
        repeat (split; [assumption|]). split; [discriminate | now intros _]. }
    destruct (Json.is_none seen && (attempt + 1 =? 1)) eqn:Hfirst.
    { injection Hrun as <- <-.
      destruct (Hone eq_refl eq_refl) as (w & f & [-> ->] & Ht & Hc & Hle & Hf & Hall).
      exists [], [(body_dict, result)].
      repeat (split; [assumption|]). split; [|now intros _].
      intros t payload H. injection H as <- <-. split; [reflexivity|].
      apply andb_true_iff in Hfirst as [_ Hfirst]. apply Z.eqb_eq in Hfirst.
      cbn [length Nat.add Z.of_nat]. lia. }
    destruct (is_done done_value seen) eqn:Hdone.
    { destruct (store_tables_returns infer_schema summary_hint name
                  (Json.get_default result "data" (JObj [])) s1)
        as (v & s2 & Hst & Ht2 & Hc2).
      rewrite Hst in Hrun. cbn [snd] in Hrun. injection Hrun as <- <-.
      destruct (Hone Ht2 Hc2) as (w & f & [-> ->] & Ht & Hc & Hle & Hf & Hall).
      exists [], [(body_dict, result)].
      repeat (split; [assumption|]). split.
      - intros t payload H. injection H as <- <-. split; [reflexivity|].
        rewrite get_set_same. reflexivity.
      - intros Hnot. exfalso. eapply Hnot. reflexivity. }
    destruct (auto_increment body_dict) as [b'|e].
    + destruct (IH (attempt + 1) seen b' (after_sleep s1 wait_ms) o s' Hrun)
        as (w & f & Ht & Hc & Hle & Hf & Hall & Hout & Hfr).
      exists ((body_dict, result) :: w), f.
      split.
      { rewrite Ht, trace_after_sleep. unfold s1.
        rewrite trace_after_request. cbn [map rounds flat_map fst snd].
        rewrite <- !app_assoc. reflexivity. }
      split.
      { rewrite Hc, rest_calls_after_sleep. unfold s1.
        rewrite rest_calls_after_request, option_map_app. reflexivity. }
      split; [cbn [length]; lia|]. split; [exact Hf|].
      split.
      { constructor; [|exact Hall]. cbn [snd].
        now destruct (Json.truthy (Json.get result "success")). }
      split; [|exact Hfr].
      intros t payload H. specialize (Hout t payload H).
      replace (attempt + Z.of_nat (length ((body_dict, result) :: w) + length f))
        with (attempt + 1 + Z.of_nat (length w + length f)) by (cbn [length]; lia).
      destruct t; try exact Hout.
      destruct Hout as (Hf0 & Hw & Hp). split; [exact Hf0|].
      split; [cbn [length]; now rewrite Hw | exact Hp].
    + injection Hrun as <- <-.
      exists [(body_dict, result)], [].
      split.
      { rewrite trace_after_sleep. unfold s1. rewrite trace_after_request.
        cbn [map rounds flat_map fst snd app]. rewrite <- !app_assoc. reflexivity. }
      split; [now rewrite rest_calls_after_sleep|].
      split; [cbn; lia|]. split; [cbn; lia|].
      split.
      { constructor; [|constructor]. cbn [snd].
        now destruct (Json.truthy (Json.get result "success")). }
      split; [discriminate | now intros _].
Qed.

Lemma requests_in_last (final : list (json * dict)) :
  requests_in (last_of final) = length final.
Proof.
  unfold requests_in. induction final as [|a final IH]; [reflexivity|].
  cbn [map filter length]. now rewrite IH.
Qed.

Lemma sleeps_in_last (final : list (json * dict)) :
  filter is_sleep (last_of final) = [].
Proof. induction final as [|a final IH]; [reflexivity | exact IH]. Qed.

(** X11.  A run of the machine alternates requests and sleeps: its
    events are, for each attempt that went on, the request and a sleep
    of [wait_ms], followed by at most one last request.  Every request
    is the one of the tool's arguments with some body, only a request
    that succeeded is followed by another, at most [max_polls] requests
    are made, an answer other than [EXHAUSTED] comes straight after a
    response, and [EXHAUSTED] comes after [max_polls] rounds. *)
Theorem poll_alternates_requests_and_sleeps (body_dict : json) (s : session) :
  exists went_on final : list (json * dict),
    trace (snd (machine body_dict s))
    = trace s
        ++ rounds wait_ms
             (map (fun a => (poll_request ctx the_base_url method path pp qp (fst a), snd a))
                went_on)
        ++ map (fun a => Requested (poll_request ctx the_base_url method path pp qp (fst a))
                           (snd a)) final
    /\ (length final <= 1)%nat
    /\ Z.of_nat (length went_on + length final) <= Z.max 0 max_polls
    /\ Forall (fun a => Json.truthy (Json.get (snd a) "success") = true) went_on
    /\ forall t payload,
        fst (machine body_dict s) = Ok (t, payload) ->
        if match t with EXHAUSTED => true | _ => false end
        then final = [] /\ Z.of_nat (length went_on) = Z.max 0 max_polls
        else length final = 1%nat.
Proof.
  unfold poll_machine.
  destruct (loop (Z.to_nat max_polls) 0 JNull body_dict s) as [o s'] eqn:Hrun.
  destruct (loop_shape _ _ _ _ _ _ _ Hrun)
    as (w & f & Ht & _ & Hle & Hf & Hall & Hout & _).
  exists w, f. cbn [fst snd].
  split; [exact Ht|]. split; [exact Hf|]. split; [lia|]. split; [exact Hall|].
  intros t payload ->. specialize (Hout t payload eq_refl).
  destruct t; try tauto. destruct Hout as (-> & Hw & _). split; [reflexivity | lia].
Qed.




(** X13.  The machine stores a dataset only when it answers [DONE]: a
    run that ends any other way, or raises, leaves the table registry
    and the last result as they were. *)
Theorem poll_stores_only_when_done (body_dict : json) (s : session) :
  (forall payload, fst (machine body_dict s) <> Ok (DONE, payload)) ->
  query_results (snd (machine body_dict s)) = query_results s
  /\ last_result (snd (machine body_dict s)) = last_result s.
Proof.
  unfold poll_machine.
  destruct (loop (Z.to_nat max_polls) 0 JNull body_dict s) as [o s'] eqn:Hrun.
  destruct (loop_shape _ _ _ _ _ _ _ Hrun) as (w & f & _ & _ & _ & _ & _ & _ & Hfr).
  exact Hfr.
Qed.

(** X14.  The number an answer reports is the number of requests the
    run made: [attempts] of a [DONE] or [EXHAUSTED] answer and [attempt]
    of a [REQUEST_FAILED] answer; a [FIELD_MISSING] answer comes after
    exactly one request. *)
Theorem poll_reports_the_requests_made
  (body_dict : json) (s : session) (t : terminal) (payload : dict) (new : list event) :
  fst (machine body_dict s) = Ok (t, payload) ->
  trace (snd (machine body_dict s)) = trace s ++ new ->
  match t with
  | DONE | EXHAUSTED => Json.get payload "attempts" = JInt (Z.of_nat (requests_in new))
  | REQUEST_FAILED => Json.get payload "attempt" = JInt (Z.of_nat (requests_in new))
  | FIELD_MISSING => requests_in new = 1%nat
  | MALFORMED_BODY => False
  end.
Proof.
  unfold poll_machine.
  destruct (loop (Z.to_nat max_polls) 0 JNull body_dict s) as [o s'] eqn:Hrun.
  destruct (loop_shape _ _ _ _ _ _ _ Hrun) as (w & f & Ht & _ & _ & _ & _ & Hout & _).
  cbn [fst snd]. intros -> Hnew. rewrite Ht in Hnew. apply app_inv_head in Hnew.
  subst new. rewrite requests_in_app, requests_in_rounds, requests_in_last, length_map.
  specialize (Hout t payload eq_refl).
  destruct t; [apply Hout | | apply Hout | apply Hout | exact Hout].
  destruct Hout as [_ Hout]. lia.
Qed.

End PollShape.

Lemma poll_stores_only_when_done_witness :
  let run :=
    poll_machine Samples.unreachable Samples.test_settings Samples.no_schema
      Samples.name_hint Samples.name_hint Samples.test_context
      "https://api.example.com" "POST" "/search/flights" "polling.completed" "true"
      "poll_result" JNull JNull 3 3000 (JObj []) Samples.fresh_session in
  query_results (snd run) = Some [] /\ last_result (snd run) = Some JNull.
Proof.
  apply (poll_stores_only_when_done Samples.unreachable Samples.test_settings
           Samples.no_schema Samples.name_hint Samples.name_hint Samples.test_context
           "https://api.example.com" "POST" "/search/flights" "polling.completed" "true"
           "poll_result" JNull JNull 3 3000 (JObj []) Samples.fresh_session).
  intros payload. vm_compute. discriminate.
Defined.

Lemma poll_reports_the_requests_made_witness :
  Json.get
    [("success", JBool false);
     ("error",
      JStr "max_polls (3) exceeded. Last polling.completed value: False (expected: true)");
     ("attempts", JInt 3)] "attempts"
  = JInt 3.
Proof.
  apply (poll_reports_the_requests_made Samples.never_completed Samples.test_settings
           Samples.no_schema Samples.name_hint Samples.name_hint Samples.test_context
           "https://api.example.com" "POST" "/search/flights" "polling.completed" "true"
           "poll_result" JNull JNull 3 3000 (JObj []) Samples.fresh_session EXHAUSTED
           [("success", JBool false);
            ("error",
             JStr "max_polls (3) exceeded. Last polling.completed value: False (expected: true)");
            ("attempts", JInt 3)]
           (let rq := poll_request Samples.test_context "https://api.example.com" "POST"
                        "/search/flights" JNull JNull JNull in
            let result := Samples.never_completed [] rq in
            [Requested rq result; Slept 3000; Requested rq result; Slept 3000;
             Requested rq result; Slept 3000]));
    vm_compute; reflexivity.
Defined.

(** ** The tools, call by call *)

Section ToolRuns.

Variable json_loads : string -> decoded.
Variable execute_request : list event -> request -> dict.
Variable cfg : settings.
Variable infer_schema : list json -> string.
Variable summary_hint : string -> string.
Variable truncation_hint : string -> string.
Variable ctx : RequestContext.
Variable the_base_url : string.

Local Abbreviation parse := (loads_or json_loads).
Local Abbreviation call :=
  (rest_call json_loads execute_request cfg infer_schema summary_hint
     truncation_hint ctx the_base_url).
Local Abbreviation poll :=
  (poll_until_done json_loads execute_request cfg infer_schema summary_hint
     truncation_hint ctx the_base_url).
Local Abbreviation request_for method path pp qp bd :=
  {| rq_method := method; rq_path := path; rq_path_params := pp;
     rq_query_params := qp; rq_body := bd; rq_base_url := the_base_url;
     rq_headers := target_headers ctx;
     rq_allow_unsafe_paths := allow_unsafe_paths ctx |}.
Local Abbreviation record_for method path path_params query_params body :=
  [("method", JStr method); ("path", JStr path);
   ("path_params", JStr path_params);
   ("query_params", JStr query_params); ("body", JStr body)].
Local Abbreviation hint :=
  (JStr "Use search_schema to find valid enum values or field names").

(** X15.  [poll_until_done] sleeps the delay it was given when that is
    positive and the default delay otherwise, never more often than it
    requests, and it makes at most [MAX_POLLS] requests. *)
Theorem poll_waits_the_chosen_delay
  (method path done_field done_value body path_params query_params name : string)
  (delay_ms : Z) (s : session) :
  let run :=
    poll method path done_field done_value body path_params query_params name delay_ms s in
  exists new,
    trace (snd run) = trace s ++ new
    /\ (forall ms, In (Slept ms) new ->
        ms = if delay_ms >? 0 then delay_ms else DEFAULT_POLL_DELAY_MS cfg)
    /\ (length (filter is_sleep new) <= requests_in new)%nat
    /\ Z.of_nat (requests_in new) <= Z.max 0 (MAX_POLLS cfg).
Proof.
  cbv zeta.
  assert (Hnone : forall (o : res outcome),
             exists new,
               trace (snd (o, s)) = trace s ++ new
               /\ (forall ms, In (Slept ms) new ->
                   ms = if delay_ms >? 0 then delay_ms else DEFAULT_POLL_DELAY_MS cfg)
               /\ (length (filter is_sleep new) <= requests_in new)%nat
               /\ Z.of_nat (requests_in new) <= Z.max 0 (MAX_POLLS cfg)).
  { intros o. exists []. cbn [snd]. split; [now rewrite app_nil_r|].
    split; [intros ms []|]. split; [reflexivity|]. cbn. lia. }
  unfold poll_until_done, bind, lift.
  destruct (parse path_params JNull) as [pp|e]; [|apply Hnone].
  destruct (parse query_params JNull) as [qp|e]; [|apply Hnone].
  destruct (parse body (JObj [])) as [body_dict|[msg| | |]]; try apply Hnone.
  unfold poll_machine.
  set (wait_ms := if delay_ms >? 0 then delay_ms else DEFAULT_POLL_DELAY_MS cfg).
  destruct (poll_loop execute_request cfg infer_schema summary_hint truncation_hint ctx
              the_base_url method path done_field done_value name pp qp (MAX_POLLS cfg)
              wait_ms (Z.to_nat (MAX_POLLS cfg)) 0 JNull body_dict s)
    as [o s'] eqn:Hrun.
  destruct (loop_shape _ _ _ _ _ _ _ _ _ _ _ _ _ _ _ _ _ _ _ _ _ _ _ Hrun)
    as (w & f & Ht & _ & Hle & _).
  eexists. cbn [snd]. split; [exact Ht|].
  split.
  { intros ms Hin. apply in_app_or in Hin as [Hin | Hin].
    - now apply rounds_sleep in Hin.
    - apply in_map_iff in Hin as (a & Ha & _). discriminate. }
  rewrite filter_app, length_app, requests_in_app, sleeps_in_rounds, requests_in_rounds.
  rewrite sleeps_in_last, requests_in_last, length_map.
  split; [cbn [length]; lia | lia].
Qed.

(** X16.  Whenever its three fragments parse, [rest_call] makes exactly
    one request, with the parsed fragments, the base URL and the headers
    of the context, and appends exactly one record to the call log, with
    the fragments as they were given; this holds whatever the response
    is and whatever the tool answers. *)
Theorem rest_call_makes_one_request
  (method path path_params query_params body name : string) (pp qp bd : json)
  (s : session) :
  parse path_params JNull = Ok pp ->
  parse query_params JNull = Ok qp ->
  parse body JNull = Ok bd ->
  let rq := request_for method path pp qp bd in
  let run := call method path path_params query_params body name s in
  trace (snd run) = trace s ++ [Requested rq (execute_request (trace s) rq)]
  /\ rest_calls (snd run)
     = option_map
         (fun calls => calls ++ [record_for method path path_params query_params body])
         (rest_calls s).
Proof.
  intros Hpp Hqp Hbd. cbv zeta. unfold rest_call, bind, lift.
  rewrite Hpp, Hqp, Hbd. unfold do_request. rewrite track_call_after.
  set (rq := request_for method path pp qp bd).
  set (result := execute_request (trace s) rq).
  set (s1 := after_request s rq result
               (record_for method path path_params query_params body)).
  destruct (Json.truthy (Json.get result "success")).
  - destruct (store_tables_returns infer_schema summary_hint name
                (Json.get_default result "data" (JObj [])) s1)
      as ([schema_info stored_data] & s2 & -> & Ht & Hc).
    cbn [andb negb].
    destruct (if Json.truthy stored_data
              then context_answer cfg infer_schema summary_hint truncation_hint
                     name schema_info stored_data
              else None); unfold ret; cbn [snd]; now rewrite Ht, Hc.
  - unfold ret. cbn [andb negb].
    destruct (ge_int (Json.get_default result "status_code" (JInt 0)) 400);
      cbn [snd]; now split.
Qed.

Lemma get_default_absent (d : dict) (k : string) (default : json) :
  Json.has_key d k = false -> Json.get_default d k default = default.
Proof.
  induction d as [|[k' v'] d IH]; cbn [Json.has_key Json.get_default]; [reflexivity|].
  intros H. apply orb_false_iff in H as [-> H]. now apply IH.
Qed.

Lemma get_default_present (d : dict) (k : string) (default : json) :
  Json.has_key d k = true -> Json.get_default d k default = Json.get d k.
Proof.
  unfold Json.get.
  induction d as [|[k' v'] d IH]; cbn [Json.has_key Json.get_default]; [discriminate|].
  destruct (String.eqb k' k); [reflexivity | exact IH].
Qed.

(** X17.  A response that did not succeed is never stored: the registry
    and the last result stay as they were.  The tool answers the
    response itself, with the hint added exactly when its [status_code]
    is at least 400; a response without a [status_code] gets no hint,
    and one whose [status_code] is null, a string, a list or an object
    makes the tool raise [TypeError]. *)
Theorem rest_call_failure_is_not_stored
  (method path path_params query_params body name : string) (pp qp bd : json)
  (s : session) :
  parse path_params JNull = Ok pp ->
  parse query_params JNull = Ok qp ->
  parse body JNull = Ok bd ->
  let result := execute_request (trace s) (request_for method path pp qp bd) in
  let run := call method path path_params query_params body name s in
  Json.truthy (Json.get result "success") = false ->
  (query_results (snd run) = query_results s /\ last_result (snd run) = last_result s)
  /\ (Json.has_key result "status_code" = false -> fst run = Ok result)
  /\ (forall n,
      Json.get result "status_code" = JInt n ->
      fst run = Ok (if 400 <=? n then Json.set result "hint" hint else result))
  /\ (Json.has_key result "status_code" = true ->
      match Json.get result "status_code" with
      | JInt _ | JBool _ => True
      | _ => fst run = Raise TypeError
      end).
Proof.
  intros Hpp Hqp Hbd. cbv zeta. intros Hfail. unfold rest_call, bind, lift.
  rewrite Hpp, Hqp, Hbd. unfold do_request. rewrite track_call_after.
  set (rq := request_for method path pp qp bd) in *.
  set (result := execute_request (trace s) rq) in *.
  rewrite Hfail. unfold ret. cbn [andb negb].
  split; [|split; [|split]].
  - now destruct (ge_int (Json.get_default result "status_code" (JInt 0)) 400).
  - intros Habsent. rewrite (get_default_absent _ _ _ Habsent). reflexivity.
  - intros n Hn. rewrite (get_default_found _ _ (JInt 0) _ Hn) by discriminate.
    cbn [ge_int]. now destruct (400 <=? n).
  - intros Hpresent. rewrite (get_default_present _ _ _ Hpresent).
    now destruct (Json.get result "status_code").
Qed.

(** X21.  Without a table registry (the context variable is not set)
    [rest_call] still makes its request: a response that succeeded is
    answered as it is, and the registry and the last result stay as they
    were. *)
Theorem rest_call_without_registry
  (method path path_params query_params body name : string) (pp qp bd : json)
  (s : session) :
  parse path_params JNull = Ok pp ->
  parse query_params JNull = Ok qp ->
  parse body JNull = Ok bd ->
  query_results s = None ->
  let result := execute_request (trace s) (request_for method path pp qp bd) in
  let run := call method path path_params query_params body name s in
  Json.truthy (Json.get result "success") = true ->
  fst run = Ok result
  /\ query_results (snd run) = None
  /\ last_result (snd run) = last_result s.
Proof.
  intros Hpp Hqp Hbd Hunset. cbv zeta. intros Hsucc. unfold rest_call, bind, lift.
  rewrite Hpp, Hqp, Hbd. unfold do_request. rewrite track_call_after.
  set (rq := request_for method path pp qp bd) in *.
  set (result := execute_request (trace s) rq) in *.
  rewrite Hsucc. unfold store_tables.
  set (s1 := after_request s rq result
               (record_for method path path_params query_params body)).
  assert (Hq : query_results s1 = None) by exact Hunset.
  rewrite Hq. unfold ret. cbn [Json.truthy andb negb fst snd].
  split; [reflexivity|]. split; [exact Hq | reflexivity].
Qed.

End ToolRuns.

Lemma rest_call_makes_one_request_witness :
  let rq := {| rq_method := "GET"; rq_path := "/users"; rq_path_params := JNull;
               rq_query_params := JNull; rq_body := JNull;
               rq_base_url := "https://api.example.com";
               rq_headers := []; rq_allow_unsafe_paths := ["/search/*"] |} in
  let run :=
    rest_call Samples.sample_loads Samples.unreachable Samples.test_settings
      Samples.no_schema Samples.name_hint Samples.name_hint Samples.test_context
      "https://api.example.com" "GET" "/users" EmptyString EmptyString EmptyString
      "data" Samples.fresh_session in
  trace (snd run) = [Requested rq (Samples.unreachable [] rq)]
  /\ rest_calls (snd run)
     = Some [[("method", JStr "GET"); ("path", JStr "/users");
              ("path_params", JStr EmptyString); ("query_params", JStr EmptyString);
              ("body", JStr EmptyString)]].
Proof.
  apply (rest_call_makes_one_request Samples.sample_loads Samples.unreachable
           Samples.test_settings Samples.no_schema Samples.name_hint Samples.name_hint
           Samples.test_context "https://api.example.com" "GET" "/users"
           EmptyString EmptyString EmptyString "data" JNull JNull JNull
           Samples.fresh_session eq_refl eq_refl eq_refl).
Defined.

Lemma rest_call_failure_is_not_stored_witness :
  fst (rest_call Samples.sample_loads Samples.unreachable Samples.test_settings
         Samples.no_schema Samples.name_hint Samples.name_hint Samples.test_context
         "https://api.example.com" "GET" "/users" EmptyString EmptyString EmptyString
         "data" Samples.fresh_session)
  = Ok [("success", JBool false); ("error", JStr "connection refused")].
Proof.
  apply (proj1 (proj2 (rest_call_failure_is_not_stored Samples.sample_loads
                         Samples.unreachable Samples.test_settings Samples.no_schema
                         Samples.name_hint Samples.name_hint Samples.test_context
                         "https://api.example.com" "GET" "/users"
                         EmptyString EmptyString EmptyString "data" JNull JNull JNull
                         Samples.fresh_session eq_refl eq_refl eq_refl eq_refl))).
  reflexivity.
Defined.

(** ** [sql_query] *)

(** X18.  [sql_query] always answers and never raises.  It leaves the
    call log, the table registry and the trace as they were, and
    replaces the last result only when the registry holds a table, the
    last result is set and the engine reports success; the new last
    result is then the rows of the engine.  With the registry unset or
    empty the answer is the no-data error, whatever the engine would
    say. *)
Theorem sql_query_changes_only_the_last_result
  (execute_sql : dict -> string -> dict) (cfg : settings)
  (infer_schema : list json -> string) (summary_hint truncation_hint : string -> string)
  (sql : string) (s : session) :
  let run := sql_query execute_sql cfg infer_schema summary_hint truncation_hint sql s in
  (exists answer, fst run = Ok answer)
  /\ rest_calls (snd run) = rest_calls s
  /\ query_results (snd run) = query_results s
  /\ trace (snd run) = trace s
  /\ (last_result (snd run) = last_result s
      \/ exists data previous,
          query_results s = Some data /\ data <> []
          /\ last_result s = Some previous
          /\ Json.truthy (Json.get (execute_sql data sql) "success") = true
          /\ last_result (snd run)
             = Some (Json.get_default (execute_sql data sql) "result" (JArr [])))
  /\ (query_results s = None \/ query_results s = Some [] -> run = (Ok no_data, s)).
Proof.
  cbv zeta. unfold sql_query.
  destruct (query_results s) as [data|] eqn:Hq.
  2:{ cbn [fst snd]. repeat (split; [now eauto|]). now intros _. }
  destruct data as [|kv data].
  { cbn [Json.truthy negb fst snd]. repeat (split; [now eauto|]). now intros _. }
  cbn [Json.truthy negb].
  set (registry := kv :: data) in *.
  destruct (Json.truthy (Json.get (execute_sql registry sql) "success")) eqn:Hs.
  2:{ cbn [fst snd]. repeat (split; [now eauto|]). intros [H | H]; discriminate. }
  assert (Hstate :
            forall s', s' = match last_result s with
                            | Some _ =>
                                with_last_result s
                                  (Some (Json.get_default (execute_sql registry sql)
                                           "result" (JArr [])))
                            | None => s
                            end ->
            rest_calls s' = rest_calls s
            /\ query_results s' = Some registry
            /\ trace s' = trace s
            /\ (last_result s' = last_result s
                \/ exists data0 previous,
                    Some registry = Some data0 /\ data0 <> []
                    /\ last_result s = Some previous
                    /\ Json.truthy (Json.get (execute_sql data0 sql) "success") = true
                    /\ last_result s'
                       = Some (Json.get_default (execute_sql data0 sql) "result"
                                 (JArr [])))).
  { intros s' ->. destruct (last_result s) as [previous|] eqn:Hl.
    - split; [reflexivity|]. split; [exact Hq|]. split; [reflexivity|].
      right. exists registry, previous.
      split; [reflexivity|]. split; [discriminate|]. split; [reflexivity|].
      split; [exact Hs | reflexivity].
    - split; [reflexivity|]. split; [exact Hq|]. split; [reflexivity|]. now left. }
  destruct (Json.get_default (execute_sql registry sql) "result" (JArr [])) eqn:Hrows;
    cbn [fst snd];
    (split; [now eauto|]);
    destruct (Hstate _ eq_refl) as (H1 & H2 & H3 & H4);
    (split; [exact H1|]); (split; [exact H2|]); (split; [exact H3|]);
    (split; [exact H4|]); intros [H | H]; discriminate.
Qed.

(** ** [process_rest_query] *)

Section QuestionFacts.

Variable fetch_schema_context : string -> dict -> list event -> fetched.
Variable runner : Agent -> string -> question_state -> ran.
Variable _build_system_prompt : list string -> string.

Local Abbreviation process :=
  (process_rest_query fetch_schema_context runner _build_system_prompt).

(** X19.  The answer of a question is coherent: either [ok] is true,
    [error] is null and [data] is a text, or [ok] is false, [data] and
    [result] are null and [error] is a text.  An answer without the
    [result] key reports no API calls. *)
Theorem answer_is_coherent (question : string) (ctx : RequestContext) (s : question_state) :
  let a := fst (process question ctx s) in
  ((Json.get a "ok" = JBool true /\ Json.get a "error" = JNull
    /\ exists text, Json.get a "data" = JStr text)
   \/ (Json.get a "ok" = JBool false /\ Json.get a "data" = JNull
       /\ Json.get a "result" = JNull
       /\ exists message, Json.get a "error" = JStr message))
  /\ (Json.has_key a "result" = false -> Json.get a "api_calls" = JArr []).
Proof.
  cbv zeta. unfold process_rest_query.
  assert (Hearly : forall message,
             let a := early_answer message in
             ((Json.get a "ok" = JBool true /\ Json.get a "error" = JNull
               /\ exists text, Json.get a "data" = JStr text)
              \/ (Json.get a "ok" = JBool false /\ Json.get a "data" = JNull
                  /\ Json.get a "result" = JNull
                  /\ exists message, Json.get a "error" = JStr message))
             /\ (Json.has_key a "result" = false -> Json.get a "api_calls" = JArr []))
    by (intros message; split; [right; cbn; eauto 6 | reflexivity]).
  assert (Hgood : forall text result calls,
             let a := answer true (JStr text) result calls JNull in
             ((Json.get a "ok" = JBool true /\ Json.get a "error" = JNull
               /\ exists text, Json.get a "data" = JStr text)
              \/ (Json.get a "ok" = JBool false /\ Json.get a "data" = JNull
                  /\ Json.get a "result" = JNull
                  /\ exists message, Json.get a "error" = JStr message))
             /\ (Json.has_key a "result" = false -> Json.get a "api_calls" = JArr []))
    by (intros text result calls; split; [left; cbn; eauto 6 | discriminate]).
  assert (Hbad : forall message calls,
             let a := answer false JNull JNull calls (JStr message) in
             ((Json.get a "ok" = JBool true /\ Json.get a "error" = JNull
               /\ exists text, Json.get a "data" = JStr text)
              \/ (Json.get a "ok" = JBool false /\ Json.get a "data" = JNull
                  /\ Json.get a "result" = JNull
                  /\ exists message, Json.get a "error" = JStr message))
             /\ (Json.has_key a "result" = false -> Json.get a "api_calls" = JArr []))
    by (intros message calls; split; [right; cbn; eauto 6 | discriminate]).
  destruct (fetch_schema_context _ _ _) as [schema_ctx spec_base_url raw|message];
    [|apply Hearly].
  destruct (or_else (base_url ctx) spec_base_url) as [the_base_url|]; [|apply Hearly].
  destruct (negb (PyStr.truthy the_base_url)); [apply Hearly|].
  destruct (ran_result _) as [final_output| |message]; [| |apply Hearly].
  - destruct (negb (Json.truthy final_output)); [|apply Hgood].
    destruct (Json.truthy _); cbn [fst]; [apply Hgood | apply Hbad].
  - destruct (Json.truthy _); cbn [fst]; [apply Hgood | apply Hbad].
Qed.

(** X20.  Questions do not leak into one another: the answer of a
    question does not depend on the call log, the registry, the last
    result or the raw schema left by an earlier question. *)
Theorem questions_are_isolated (question : string) (ctx : RequestContext)
  (s s' : question_state) :
  q_trace s = q_trace s' ->
  fst (process question ctx s) = fst (process question ctx s')
  /\ (q_raw_schema s = q_raw_schema s' ->
      process question ctx s = process question ctx s').
Proof.
  intros Ht. unfold process_rest_query. rewrite Ht.
  split.
  - now destruct (fetch_schema_context _ _ _).
  - now intros ->.
Qed.

End QuestionFacts.

Lemma questions_are_isolated_witness :
  let fetch := fun (_ : string) (_ : dict) (_ : list event) =>
                 Fetched "GET /users" (Some "https://api.example.com") "{}" in
  let runner := fun (_ : Agent) (_ : string) (st : question_state) =>
                  {| ran_result := MaxTurnsExceeded; ran_turn_info := "turn 1/30";
                     ran_state := st |} in
  let prompt := fun _ : list string => "You are a REST API agent." in
  let earlier := {| q_rest_calls := [[("method", JStr "GET")]];
                    q_query_results := [("users", JArr [])];
                    q_last_result := JArr []; q_raw_schema := Some "{}";
                    q_trace := [] |} in
  let fresh := {| q_rest_calls := []; q_query_results := []; q_last_result := JNull;
                  q_raw_schema := None; q_trace := [] |} in
  fst (process_rest_query fetch runner prompt "How many users?" Samples.test_context
         earlier)
  = fst (process_rest_query fetch runner prompt "How many users?" Samples.test_context
           fresh).
Proof.
  apply (proj1 (questions_are_isolated
                  (fun _ _ _ => Fetched "GET /users" (Some "https://api.example.com") "{}")
                  (fun _ _ st => {| ran_result := MaxTurnsExceeded;
                                    ran_turn_info := "turn 1/30"; ran_state := st |})
                  (fun _ => "You are a REST API agent.")
                  "How many users?" Samples.test_context
                  {| q_rest_calls := [[("method", JStr "GET")]];
                     q_query_results := [("users", JArr [])];
                     q_last_result := JArr []; q_raw_schema := Some "{}";
                     q_trace := [] |}
                  {| q_rest_calls := []; q_query_results := []; q_last_result := JNull;
                     q_raw_schema := None; q_trace := [] |}
                  eq_refl)).
Defined.

Lemma rest_call_without_registry_witness :
  fst (rest_call Samples.sample_loads Samples.pending_status Samples.test_settings
         Samples.no_schema Samples.name_hint Samples.name_hint Samples.test_context
         "https://api.example.com" "GET" "/users" EmptyString EmptyString EmptyString
         "data"
         {| rest_calls := Some []; query_results := None; last_result := None;
            trace := [] |})
  = Ok (Samples.succeed (JObj [("status", JStr "pending"); ("results", JArr [])])).
Proof.
  apply (proj1 (rest_call_without_registry Samples.sample_loads Samples.pending_status
                  Samples.test_settings Samples.no_schema Samples.name_hint
                  Samples.name_hint Samples.test_context "https://api.example.com"
                  "GET" "/users" EmptyString EmptyString EmptyString "data"
                  JNull JNull JNull
                  {| rest_calls := Some []; query_results := None; last_result := None;
                     trace := [] |}
                  eq_refl eq_refl eq_refl eq_refl eq_refl)).
Defined.
